(** * json-schema-docs-generator: object definitions, example data, cURL strings

    A shallow embedding of the three JavaScript sources

      - lib/example-data-extractor.js  ([ExampleDataExtractor])
      - lib/object-definition.js       ([ObjectDefinition])
      - lib/helpers/curl.js            ([Curl])

    The code is dynamically typed: schemas, definitions and example data
    are all plain JavaScript values.  The embedding keeps that: one type
    [value] of JSON-like data, objects as association lists in insertion
    order, and the few lodash helpers the sources call written over it.

    Conventions of the embedding.
      - Numbers are integers.
      - Every object inherits the members of [Object.prototype], which
        are built-in functions, and nothing else.  They are seen where
        the code looks a key up by a name taken from the data, in
        [_.pick] and [_.defaults]; the names the sources write out are
        not inherited, and the test that precedes a deletion in the
        [allOf] loop makes no difference for a key that is not an own
        one.  No object has a key [__proto__] of its own.  The members
        of the array and string prototypes, [length] among them, are
        not modelled.
      - A key is written or deleted on objects; on an array a delete
        leaves [undefined] at the index, any other write through a key
        on a non-object has no effect.
      - An object is the list of its entries in iteration order; a key
        that is an array index stays where it was written, where the
        engine would move it before the other keys.
      - Text is ASCII: the case mappings leave every other character
        as it is.
      - Values carry no identity.  The in-place deletions that
        [defineProperties] performs on its argument are threaded
        explicitly: the functions of [ObjectDefinition] return the
        schema they were given as they leave it, and [_original] holds
        the node as it is when the field is assigned.  The [example]
        and [default] literals read from a schema are treated as
        values: when such a literal is an object, [extract] prunes and
        extends that very object, a change of the schema the embedding
        does not track.  It is exact on schemas whose literals are
        scalars.
      - Recursion is bounded by a fuel argument ([rel: self] makes the
        extraction recursive on the enclosing schema); running out of
        fuel is the outcome [OutOfFuel], which no handler catches.
      - The formatter, [JSON.stringify], [_.random] and [_.merge] are
        parameters of the development. *)

From Stdlib Require Import List String Ascii ZArith Bool Lia DecimalString.
Import ListNotations.
Local Open Scope string_scope.

(** ** JavaScript values *)

Module Js.

#[warnings="-register-all"]
Inductive value : Type :=
| VUndef
| VNull
| VBool (b : bool)
| VNum (z : Z)
| VStr (s : string)
| VArr (elems : list value)
| VObj (fields : list (string * value))
| VFun (name : string).

Inductive error : Type :=
| ReferenceError (message : string)
| TypeError (message : string)
| Error (message : string).

Definition message (e : error) : string :=
  match e with
  | ReferenceError m | TypeError m | Error m => m
  end.

(** What a call can do: return, throw, or exhaust the fuel. *)
Inductive outcome (A : Type) : Type :=
| Ret (a : A)
| Throw (e : error)
| OutOfFuel.

Arguments Ret {A} a.
Arguments Throw {A} e.
Arguments OutOfFuel {A}.

Definition bind {A B} (m : outcome A) (f : A -> outcome B) : outcome B :=
  match m with
  | Ret a => f a
  | Throw e => Throw e
  | OutOfFuel => OutOfFuel
  end.

Notation "x <- m ;; k" := (bind m (fun x => k))
  (at level 61, m at next level, right associativity).

Definition dquote : string := String "034"%char EmptyString.
Definition squote : string := String "039"%char EmptyString.
Definition backslash : string := String "092"%char EmptyString.
Definition newline : string := String "010"%char EmptyString.

(** [ToBoolean]. *)
Definition truthy (v : value) : bool :=
  match v with
  | VUndef | VNull => false
  | VBool b => b
  | VNum z => negb (Z.eqb z 0)
  | VStr s => negb (String.eqb s EmptyString)
  | VArr _ | VObj _ | VFun _ => true
  end.

Definition nullish (v : value) : bool :=
  match v with
  | VUndef | VNull => true
  | _ => false
  end.

(** [v === true], [v === false], [v === 'lit'], [a || b]. *)
Definition is_true (v : value) : bool :=
  match v with VBool true => true | _ => false end.

Definition is_false (v : value) : bool :=
  match v with VBool false => true | _ => false end.

Definition is_str (lit : string) (v : value) : bool :=
  match v with VStr s => String.eqb s lit | _ => false end.

Definition or_else (a b : value) : value := if truthy a then a else b.

Definition number_to_string (z : Z) : string :=
  NilZero.string_of_int (Z.to_int z).

Definition index_key (i : nat) : string := number_to_string (Z.of_nat i).

(** [Array.prototype.join] on strings. *)
Fixpoint join (sep : string) (l : list string) : string :=
  match l with
  | [] => EmptyString
  | [x] => x
  | x :: r => x ++ sep ++ join sep r
  end.

(** [String(v)], also the coercion of a value used as a property key. *)
Fixpoint to_string (v : value) : string :=
  match v with
  | VUndef => "undefined"
  | VNull => "null"
  | VBool true => "true"
  | VBool false => "false"
  | VNum z => number_to_string z
  | VStr s => s
  | VArr l =>
      join "," (map (fun x => match x with
                              | VUndef | VNull => EmptyString
                              | _ => to_string x
                              end) l)
  | VObj _ => "[object Object]"
  | VFun name => "function " ++ name ++ "() { [native code] }"
  end.

Definition typeof (v : value) : string :=
  match v with
  | VUndef => "undefined"
  | VBool _ => "boolean"
  | VNum _ => "number"
  | VStr _ => "string"
  | VNull | VArr _ | VObj _ => "object"
  | VFun _ => "function"
  end.

(** [v == 'lit']: an array or object is compared through its string form. *)
Definition loose_eq_str (v : value) (lit : string) : bool :=
  match v with
  | VStr s => String.eqb s lit
  | VArr _ | VObj _ | VFun _ => String.eqb (to_string v) lit
  | _ => false
  end.

Fixpoint chars (s : string) : list value :=
  match s with
  | EmptyString => []
  | String c r => VStr (String c EmptyString) :: chars r
  end.

Definition indexed {A} (l : list A) : list (string * A) :=
  combine (map index_key (seq 0 (List.length l))) l.

(** The own enumerable entries of a value, in iteration order. *)
Definition entries (v : value) : list (string * value) :=
  match v with
  | VObj f => f
  | VArr l => indexed l
  | VStr s => indexed (chars s)
  | _ => []
  end.

Definition keys (v : value) : list string := map fst (entries v).
Definition elements (v : value) : list value := map snd (entries v).

Fixpoint lookup (k : string) (f : list (string * value)) : option value :=
  match f with
  | [] => None
  | (k', x) :: r => if String.eqb k k' then Some x else lookup k r
  end.

(** [v.k] / [v[k]] where [v] is known not to be null or undefined and
    [k] is not the name of an inherited member: such are the names the
    sources write out, the indices, and the own keys they iterate. *)
Definition field (v : value) (k : string) : value :=
  match lookup k (entries v) with
  | Some x => x
  | None => VUndef
  end.

(** [k] is an own key of [v]. *)
Definition has_key (v : value) (k : string) : bool :=
  existsb (String.eqb k) (keys v).

(** The members every object inherits from [Object.prototype]: built-in
    functions, and [__proto__], the accessor of the prototype itself. *)
Definition object_prototype : list (string * value) :=
  [("constructor", VFun "Object");
   ("__defineGetter__", VFun "__defineGetter__");
   ("__defineSetter__", VFun "__defineSetter__");
   ("hasOwnProperty", VFun "hasOwnProperty");
   ("__lookupGetter__", VFun "__lookupGetter__");
   ("__lookupSetter__", VFun "__lookupSetter__");
   ("isPrototypeOf", VFun "isPrototypeOf");
   ("propertyIsEnumerable", VFun "propertyIsEnumerable");
   ("toString", VFun "toString");
   ("valueOf", VFun "valueOf");
   ("__proto__", VObj []);
   ("toLocaleString", VFun "toLocaleString")].

Definition inherited (k : string) : bool :=
  existsb (String.eqb k) (map fst object_prototype).

(** [k in Object(v)]: [k] is an own key of [v] or an inherited one. *)
Definition in_object (v : value) (k : string) : bool :=
  has_key v k || inherited k.

(** [v[k]] for any key [k]: the own entry, else the inherited member. *)
Definition member (v : value) (k : string) : value :=
  match lookup k (entries v) with
  | Some x => x
  | None =>
      match lookup k object_prototype with
      | Some x => x
      | None => VUndef
      end
  end.

Fixpoint assoc_set (k : string) (x : value) (f : list (string * value))
  : list (string * value) :=
  match f with
  | [] => [(k, x)]
  | (k', y) :: r =>
      if String.eqb k k' then (k, x) :: r else (k', y) :: assoc_set k x r
  end.

Definition assoc_remove (k : string) (f : list (string * value))
  : list (string * value) :=
  filter (fun p => negb (String.eqb k (fst p))) f.

(** [v[k] = x]. *)
Definition set_field (k : string) (x : value) (v : value) : value :=
  match v with
  | VObj f => VObj (assoc_set k x f)
  | _ => v
  end.

(** [delete v[k]]. *)
Definition delete_field (k : string) (v : value) : value :=
  match v with
  | VObj f => VObj (assoc_remove k f)
  | VArr l =>
      VArr (map (fun p => if String.eqb k (fst p) then VUndef else snd p)
                (indexed l))
  | _ => v
  end.

(** [a.concat(b)] for an array or a string receiver; other receivers have
    no such method. *)
Definition concat (a b : value) : option value :=
  match a with
  | VArr l => Some (VArr (l ++ match b with VArr m => m | _ => [b] end)%list)
  | VStr s => Some (VStr (s ++ to_string b))
  | _ => None
  end.

(** The message of the engine's TypeError for a property read on null or
    undefined (V8 wording). *)
Definition cannot_read (prop : string) (base : value) : error :=
  TypeError ("Cannot read property '" ++ prop ++ "' of " ++ to_string base).

Definition to_lower_ascii (c : ascii) : ascii :=
  let n := nat_of_ascii c in
  if (65 <=? n)%nat && (n <=? 90)%nat then ascii_of_nat (n + 32) else c.

Definition to_upper_ascii (c : ascii) : ascii :=
  let n := nat_of_ascii c in
  if (97 <=? n)%nat && (n <=? 122)%nat then ascii_of_nat (n - 32) else c.

Fixpoint map_string (f : ascii -> ascii) (s : string) : string :=
  match s with
  | EmptyString => EmptyString
  | String c r => String (f c) (map_string f r)
  end.

(** [s.toLowerCase()], [s.toUpperCase()] on ASCII text. *)
Definition toLowerCase : string -> string := map_string to_lower_ascii.
Definition toUpperCase : string -> string := map_string to_upper_ascii.

End Js.

Import Js.

(** ** The lodash helpers the sources call *)

Module Lodash.

Definition isArray (v : value) : bool :=
  match v with VArr _ => true | _ => false end.

Definition isPlainObject (v : value) : bool :=
  match v with VObj _ => true | _ => false end.

Definition isUndefined (v : value) : bool :=
  match v with VUndef => true | _ => false end.

(** [_.isEmpty]: a number or a boolean is empty, too. *)
Definition isEmpty (v : value) : bool :=
  match v with
  | VArr l => match l with [] => true | _ => false end
  | VObj f => match f with [] => true | _ => false end
  | VStr s => String.eqb s EmptyString
  | _ => true
  end.

Definition has (v : value) (k : string) : bool := has_key v k.

(** [_.get(v, 'a.b')]. *)
Definition get2 (v : value) (a b : string) : value := field (field v a) b.

Definition startsWith (s p : string) : bool := prefix p s.

Fixpoint repeat (s : string) (n : nat) : string :=
  match n with
  | O => EmptyString
  | S n' => s ++ repeat s n'
  end.

(** [_.extend(target, source)] as the value [target] has afterwards. *)
Definition extend (target source : value) : value :=
  if nullish target then target
  else if negb (truthy source) then target
  else fold_left (fun t p => set_field (fst p) (snd p) t) (entries source)
                 target.

(** [_.defaults(target, source)]: a key of [source] is assigned where
    [target[key]], an inherited member included, is [undefined]. *)
Definition defaults (target source : value) : value :=
  if nullish target then target
  else if negb (truthy source) then target
  else fold_left (fun t p => if isUndefined (member t (fst p))
                             then set_field (fst p) (snd p) t else t)
                 (entries source) target.

(** The property names [_.pick] and [_.omit] receive. *)
Definition prop_names (props : value) : list string :=
  map to_string (match props with VArr l => l | _ => [props] end).

(** One round of the loop of [_.pick]: [if (key in object) result[key] =
    object[key]].  The test holds of inherited members, too; an
    assignment to [__proto__] reaches the accessor and adds no key. *)
Definition pick_step (object : value) (result : list (string * value))
                     (key : string) : list (string * value) :=
  if in_object object key && negb (String.eqb key "__proto__")
  then assoc_set key (member object key) result
  else result.

Definition pick (object props : value) : value :=
  if nullish object then VObj []
  else VObj (fold_left (pick_step object) (prop_names props) []).

Definition omit (object props : value) : value :=
  if nullish object then VObj []
  else VObj (filter (fun p => negb (existsb (String.eqb (fst p))
                                            (prop_names props)))
                    (entries object)).

End Lodash.

(** ** lib/helpers/curl.js *)

Module Curl.

Section WithFormatter.

(** [formatter.format(data, replacer, indent)] of lib/formatters/json; the
    replacer is always [null] or omitted, the indent is [None] when
    omitted. *)
Variable format : value -> option Z -> outcome string.

Definition HEADER_SEPARATOR : string := ": ".
Definition NEW_LINE : string := " " ++ backslash ++ newline.

Definition formatData (data : value) : outcome string :=
  format data (Some 0%Z).

Definition buildFlag (type value : string) (indents : nat)
                     (quoteType : option string) : string :=
  let quoteType := match quoteType with Some q => q | None => dquote end in
  join EmptyString
       [Lodash.repeat " " indents ++ "-"; type; " "; quoteType; value;
        quoteType].

Definition buildQueryString (data : value) (noQueryString : bool) : string :=
  let firstJoin := if noQueryString then "&" else "?" in
  fold_left (fun str p =>
               let conn := if String.eqb str firstJoin then EmptyString
                           else "&" in
               str ++ conn ++ fst p ++ "=" ++ to_string (snd p))
            (entries data) firstJoin.

(** [generate(uri, method, headers, data)]; [method] is [None] when the
    argument is omitted. *)
Definition generate (uri : string) (method : option string)
                    (headers data : value) : outcome string :=
  let method := match method with
                | Some m => if String.eqb m EmptyString then "GET" else m
                | None => "GET"
                end in
  let uri := if truthy data && String.eqb (toLowerCase method) "get"
             then uri ++ buildQueryString data false else uri in
  let str := join " " ["curl";
                       buildFlag "X" (toUpperCase method) 0 (Some EmptyString);
                       dquote ++ uri ++ dquote] in
  let flags := if truthy headers
               then map (fun p => buildFlag "H" (fst p ++ HEADER_SEPARATOR
                                                   ++ to_string (snd p))
                                            5 None)
                        (entries headers)
               else [] in
  bind (if truthy data && negb (String.eqb (toLowerCase method) "get")
        then bind (formatData data)
                  (fun d => Ret (flags ++ [buildFlag "-data" d 5
                                             (Some squote)])%list)
        else Ret flags)
       (fun flags => Ret (str ++ NEW_LINE ++ join NEW_LINE flags)).

End WithFormatter.

End Curl.

(** ** lib/example-data-extractor.js *)

Module ExampleDataExtractor.

Definition getExampleDataFromItem (reference : value) : value :=
  if negb (Lodash.isPlainObject reference) then VStr "unknown"
  else if Lodash.has reference "example" then field reference "example"
       else field reference "default".

(** The members of an exclusive group from index 1 on, as keys. *)
Definition group_tail (group : value) : list string :=
  match group with
  | VArr (_ :: members) => map to_string members
  | VStr (String _ rest) => map to_string (chars rest)
  | _ => []
  end.

Fixpoint delete_all (ks : list string) (target : value) : outcome value :=
  match ks with
  | [] => Ret target
  | k :: r =>
      if nullish target
      then Throw (TypeError "Cannot convert undefined or null to object")
      else delete_all r (delete_field k target)
  end.

Fixpoint prune_groups (groups : list value) (target : value)
  : outcome value :=
  match groups with
  | [] => Ret target
  | g :: r =>
      if nullish g then Throw (cannot_read "length" g)
      else target <- delete_all (group_tail g) target ;; prune_groups r target
  end.

(** The two nested [for] loops over [owner.exclusive], deleting from
    [target]. *)
Definition prune_exclusive (owner target : value) : outcome value :=
  if truthy (field owner "exclusive")
  then prune_groups (match field owner "exclusive" with
                     | VArr groups => groups
                     | _ => []
                     end) target
  else Ret target.

Section Bodies.

(** The recursive calls [this.extract] and [this.mapPropertiesToExamples]. *)
Variable extract : value -> value -> value -> outcome value.
Variable mapPropertiesToExamples : value -> value -> value -> outcome value.

(** The [_.reduce] over [component.allOf] in [extract]. *)
Fixpoint extract_allOf (members : list value) (root options : value)
                       (accumulator : value) : outcome value :=
  match members with
  | [] => Ret accumulator
  | subschema :: rest =>
      accumulator <-
        (if nullish subschema
         then Throw (cannot_read "additionalProperties" subschema)
         else if is_false (field subschema "additionalProperties")
              then extract subschema root options
              else e <- extract subschema root options ;;
                   Ret (Lodash.extend accumulator e)) ;;
      extract_allOf rest root options accumulator
  end.

(** Lines 36-69 of [extract]: the value [reduced] holds before the
    exclusive groups are pruned. *)
Definition reduce_component (component root options : value)
  : outcome value :=
  reduced <-
    (if truthy (field component "allOf")
     then extract_allOf (elements (field component "allOf")) root options
                        (VObj [])
     else if truthy (field component "oneOf")
     then extract (field (field component "oneOf") "0") root options
     else if truthy (field component "anyOf")
     then extract (field (field component "anyOf") "0") root options
     else if is_str "self" (field component "rel")
     then extract root root options
     else if truthy (field component "properties")
     then mapPropertiesToExamples (field component "properties") root
                                  options
     else Ret (getExampleDataFromItem component)) ;;
  reduced <-
    (if Lodash.has component "additionalProperties"
        && truthy (Lodash.get2 component "generator"
                               "includeAdditionalProperties")
     then a <- mapPropertiesToExamples
                 (field component "additionalProperties") root options ;;
          Ret (Lodash.extend reduced a)
     else Ret reduced) ;;
  if Lodash.isEmpty reduced
  then mapPropertiesToExamples (field component "properties") root options
  else Ret reduced.

(** The scope [root] is rebound when the component carries an [id]. *)
Definition scope_of (component root : value) : value :=
  if truthy (field component "id") then component else root.

Definition extract_body (component root options : value) : outcome value :=
  if negb (truthy component)
  then Throw (ReferenceError "No schema received to generate example data")
  else
    let root := scope_of component root in
    if is_str "array" (field component "type")
    then v <- extract (field component "items") root options ;;
         Ret (VArr [v])
    else
      reduced <- reduce_component component root options ;;
      prune_exclusive component reduced.

(** The [_.reduce] over [propConfig.allOf] in [mapPropertiesToExamples]. *)
Fixpoint map_allOf (items : list value) (schema accumulator : value)
  : outcome value :=
  match items with
  | [] => Ret accumulator
  | item :: rest =>
      e <- extract item schema VUndef ;;
      map_allOf rest schema (Lodash.extend accumulator e)
  end.

(** The callback of [_.transform] for one property, on the accumulator
    [properties]. *)
Definition map_property (schema : value) (properties : value)
                        (propName : string) (propConfig : value)
  : outcome value :=
  if Lodash.startsWith propName "__" then Ret properties
  else if nullish propConfig then Throw (cannot_read "private" propConfig)
  else if truthy (field propConfig "private") then Ret properties
  else
    let example := getExampleDataFromItem propConfig in
    example <-
      (if is_str "self" (field propConfig "rel")
       then extract schema schema VUndef
       else if is_str "array" (field propConfig "type")
               && truthy (field propConfig "items")
               && negb (truthy example)
       then if truthy (field (field propConfig "items") "example")
            then Ret (VArr [field (field propConfig "items") "example"])
            else v <- extract (field propConfig "items") schema VUndef ;;
                 Ret (VArr [v])
       else if truthy (field propConfig "id") && negb (truthy example)
       then extract propConfig propConfig VUndef
       else if truthy (field propConfig "properties")
       then mapPropertiesToExamples (field propConfig "properties") schema
                                    VUndef
       else if truthy (field propConfig "oneOf")
               || truthy (field propConfig "anyOf")
       then extract propConfig schema VUndef
       else if truthy (field propConfig "allOf")
       then map_allOf (elements (field propConfig "allOf")) schema
                      (or_else example (VObj []))
       else Ret example) ;;
    example <- prune_exclusive propConfig example ;;
    Ret (set_field (if String.eqb propName "ID" then toLowerCase propName
                    else propName)
                   example properties).

Fixpoint transform (props : list (string * value)) (schema properties : value)
  : outcome value :=
  match props with
  | [] => Ret properties
  | (propName, propConfig) :: rest =>
      properties <- map_property schema properties propName propConfig ;;
      transform rest schema properties
  end.

Definition mapPropertiesToExamples_body (props schema options : value)
  : outcome value :=
  transform (entries props) schema (VObj []).

End Bodies.

Fixpoint extract (fuel : nat) : value -> value -> value -> outcome value :=
  match fuel with
  | O => fun _ _ _ => OutOfFuel
  | S n => extract_body (extract n) (mapPropertiesToExamples n)
  end
with mapPropertiesToExamples (fuel : nat)
  : value -> value -> value -> outcome value :=
  match fuel with
  | O => fun _ _ _ => OutOfFuel
  | S n => mapPropertiesToExamples_body (extract n)
                                        (mapPropertiesToExamples n)
  end.

End ExampleDataExtractor.

(** ** lib/object-definition.js *)

Module ObjectDefinition.

(** Computations that draw random identifiers: the state is the number of
    draws made so far. *)
Definition M (A : Type) : Type := nat -> outcome (A * nat).

Definition ret {A} (a : A) : M A := fun s => Ret (a, s).

Definition throw {A} (e : error) : M A := fun _ => Throw e.

Definition lift {A} (o : outcome A) : M A :=
  fun s => match o with
           | Ret a => Ret (a, s)
           | Throw e => Throw e
           | OutOfFuel => OutOfFuel
           end.

Definition mbind {A B} (m : M A) (f : A -> M B) : M B :=
  fun s => match m s with
           | Ret (a, s') => f a s'
           | Throw e => Throw e
           | OutOfFuel => OutOfFuel
           end.

Declare Scope state_scope.
Delimit Scope state_scope with M.
Notation "x <- m ;; k" := (mbind m (fun x => k))
  (at level 61, m at next level, right associativity) : state_scope.
Notation "' p <- m ;; k" := (mbind m (fun x => match x with p => k end))
  (at level 61, p pattern, m at next level, right associativity)
  : state_scope.

(** The collection [c] with its elements replaced, position by position. *)
Definition with_elements (c : value) (elems : list value) : value :=
  match c with
  | VArr _ => VArr elems
  | VObj f => VObj (combine (map fst f) elems)
  | _ => c
  end.

(** Store the state a callee left a sub-schema in, when the key exists. *)
Definition put_back (k : string) (x : value) (object : value) : value :=
  if has_key object k then set_field k x object else object.

(** The customizer handed to [_.merge]. *)
Definition concat_arrays (a b : value) : value :=
  match a with
  | VArr _ => match concat a b with Some r => r | None => VUndef end
  | _ => VUndef
  end.

Definition initial_self (id : Z) : value :=
  VObj [("allProps", VObj []);
        ("requiredProps", VObj []);
        ("optionalProps", VObj []);
        ("objects", VArr []);
        ("example", VStr EmptyString);
        ("id", VStr (number_to_string id ++ EmptyString))].

(** [if (self.part && self.part[key]) delete self.part[key]]. *)
Definition drop_key (part key : string) (self : value) : value :=
  if truthy (field self part) && truthy (field (field self part) key)
  then set_field part (delete_field key (field self part)) self
  else self.

(** The [for (key in schema.properties)] loop of the [allOf] fold. *)
Fixpoint strip_hidden (props : list (string * value)) (self : value)
  : outcome value :=
  match props with
  | [] => Ret self
  | (key, p) :: rest =>
      if nullish p then Throw (cannot_read "noDisplay" p)
      else if is_true (field p "noDisplay")
      then if nullish self then Throw (cannot_read "allProps" self)
           else strip_hidden rest
                  (drop_key "requiredProps" key
                     (drop_key "optionalProps" key
                        (drop_key "allProps" key self)))
      else strip_hidden rest self
  end.

(** The [for (key in properties)] loop of [defineProperties]. *)
Fixpoint drop_hidden (props : list (string * value)) (properties : value)
  : outcome value :=
  match props with
  | [] => Ret properties
  | (key, p) :: rest =>
      if nullish p then Throw (cannot_read "noDisplay" p)
      else drop_hidden rest (if is_true (field p "noDisplay")
                             then delete_field key properties
                             else properties)
  end.

(** [_.extend(self.allProps, defs)], seen from [self]. *)
Definition extend_allProps (defs : value) (self : value) : value :=
  match field self "allProps" with
  | VObj _ as a => set_field "allProps" (Lodash.extend a defs) self
  | _ => self
  end.

Definition cannot_set (prop : string) (base : value) : error :=
  TypeError ("Cannot set property '" ++ prop ++ "' of " ++ to_string base).

Section Bodies.

(** [this._formatter.format], [JSON.stringify], the draws of
    [_.random(0, 1000000000)] and [_.merge(object, source, customizer)]. *)
Variable format : value -> option Z -> outcome string.
Variable JSON_stringify : value -> string.
Variable random : nat -> Z.
Variable merge : (value -> value -> value) -> value -> value -> value.

(** [exampleExtractor.extract] and [.mapPropertiesToExamples]. *)
Variable extract : value -> value -> value -> outcome value.
Variable mapPropertiesToExamples : value -> value -> value -> outcome value.

(** The recursive calls; each returns its result and its argument as the
    call leaves it. *)
Variable build : value -> M (value * value).
Variable defineProperties : value -> M (value * value).
Variable defineProperty : value -> M (value * value).

Local Open Scope state_scope.

Definition draw : M Z := fun s => Ret (random s, S s).

(** The callback of [_.each(object.allOf, ...)] on the captured variables
    [self], [required] and [addPropsFlag]. *)
Definition allOf_member (st : value * value * bool) (schema : value)
  : M ((value * value * bool) * value) :=
  let '(self, required, addPropsFlag) := st in
  if nullish schema then throw (cannot_read "required" schema)
  else
    required <-
      match concat required (or_else (field schema "required") (VArr [])) with
      | Some r => ret r
      | None => throw (TypeError "required.concat is not a function")
      end ;;
    '(self, addPropsFlag, schema) <-
      (if is_false (field schema "additionalProperties")
       then '(r, schema) <- build schema ;; ret (r, true, schema)
       else ret (self, addPropsFlag, schema)) ;;
    self <- lift (strip_hidden (entries (field schema "properties")) self) ;;
    if negb addPropsFlag
    then '(r, schema) <- build schema ;;
         ret ((merge concat_arrays self r, required, addPropsFlag), schema)
    else ret ((self, required, addPropsFlag), schema).

Fixpoint allOf_fold (members : list value) (st : value * value * bool)
  : M ((value * value * bool) * list value) :=
  match members with
  | [] => ret (st, [])
  | schema :: rest =>
      '(st, schema) <- allOf_member st schema ;;
      '(st, rest) <- allOf_fold rest st ;;
      ret (st, schema :: rest)
  end.

(** [_.map(list, this.build, this)]. *)
Fixpoint build_all (l : list value) : M (list value * list value) :=
  match l with
  | [] => ret ([], [])
  | x :: rest =>
      '(r, x) <- build x ;;
      '(rs, rest) <- build_all rest ;;
      ret (r :: rs, x :: rest)
  end.

(** The [_.each(self.objects, ...)] of the additional-properties step. *)
Fixpoint extend_objects (objs : list value) (addtlProps : value)
  : outcome (list value) :=
  match objs with
  | [] => Ret []
  | obj :: rest =>
      if nullish obj then Throw (cannot_read "allProps" obj)
      else bind (extend_objects rest addtlProps)
                (fun rest => Ret (extend_allProps addtlProps obj :: rest))
  end.

(** Lines 93-102 and 113-122: the properties of [holder] (the object, or
    its [items]) and of its schema-valued [additionalProperties] go into
    [self.allProps]. *)
Definition own_properties (self holder : value) : M (value * value) :=
  if nullish self
  then throw (if is_false (field holder "additionalProperties")
              then cannot_set "allProps" self
              else cannot_read "allProps" self)
  else
    let self := if is_false (field holder "additionalProperties")
                then set_field "allProps" (VObj []) self else self in
    '(defs, props) <- defineProperties (field holder "properties") ;;
    let self := extend_allProps defs self in
    let holder := put_back "properties" props holder in
    if Lodash.isPlainObject (field holder "additionalProperties")
    then '(defs, addl) <-
           defineProperties (field holder "additionalProperties") ;;
         ret (extend_allProps defs self,
              put_back "additionalProperties" addl holder)
    else ret (self, holder).

(** Lines 52-122 of [build]. *)
Definition resolve (self required object : value)
  : M (value * value * value) :=
  '(self, required, object) <-
    (if Lodash.isArray (field object "allOf")
     then '(st, members) <-
            allOf_fold (elements (field object "allOf"))
                       (self, required, false) ;;
          ret (fst (fst st), snd (fst st),
               put_back "allOf" (VArr members) object)
     else ret (self, required, object)) ;;
  '(self, object) <-
    (if Lodash.isArray (field object "oneOf")
        || Lodash.isArray (field object "anyOf")
     then
       let key := if truthy (field object "oneOf") then "oneOf"
                  else "anyOf" in
       '(defs, alts) <- build_all (elements (field object key)) ;;
       if nullish self then throw (cannot_set "objects" self)
       else ret (set_field "objects" (VArr defs) self,
                 put_back key (with_elements (field object key) alts) object)
     else ret (self, object)) ;;
  '(self, object) <-
    (if Lodash.isPlainObject (field object "properties")
     then own_properties self object
     else ret (self, object)) ;;
  '(self, object) <-
    (if Lodash.isPlainObject (field object "additionalProperties")
     then '(addtlProps, addl) <-
            defineProperties (field object "additionalProperties") ;;
          if nullish self then throw (cannot_read "objects" self)
          else
            objs <- lift (extend_objects (elements (field self "objects"))
                                         addtlProps) ;;
            ret (put_back "objects"
                          (with_elements (field self "objects") objs) self,
                 put_back "additionalProperties" addl object)
     else ret (self, object)) ;;
  '(self, object) <-
    (if Lodash.isPlainObject (field object "items")
     then '(self, items) <- own_properties self (field object "items") ;;
          ret (self, put_back "items" items object)
     else ret (self, object)) ;;
  ret (self, required, object).

(** The [try]/[catch] around the example of the whole node. *)
Definition example_of (object : value) : outcome string :=
  match bind (extract object VUndef VUndef) (fun v => format v None) with
  | Ret text => Ret text
  | Throw e =>
      Throw (Error ("Error preparing data for object: "
                    ++ JSON_stringify object ++ " " ++ message e))
  | OutOfFuel => OutOfFuel
  end.

Definition null_if_empty (v : value) : value :=
  if Lodash.isEmpty v then VNull else v.

(** Lines 124-141 of [build]. *)
Definition finalize (self required object : value) : outcome value :=
  if nullish self then Throw (cannot_set "title" self)
  else
    let self := set_field "title" (field object "title") self in
    let self := set_field "description" (field object "description") self in
    let self := set_field "enum" (field object "enum") self in
    let self := set_field "requiredProps"
                  (null_if_empty (Lodash.pick (field self "allProps")
                                              required)) self in
    let self := set_field "optionalProps"
                  (null_if_empty (Lodash.omit (field self "allProps")
                                              required)) self in
    let self := set_field "_original" object self in
    bind (example_of object) (fun text =>
    let self := set_field "example" (VStr text) self in
    Ret (if Lodash.isEmpty (field self "allProps")
         then set_field "allProps" VUndef self else self)).

Definition build_body (object : value) : M (value * value) :=
  if nullish object then throw (cannot_read "required" object)
  else
    let required := or_else (field object "required") (VArr []) in
    id <- draw ;;
    let self := initial_self id in
    if is_true (field object "noDisplay") then ret (VNull, object)
    else
      '(self, required, object) <- resolve self required object ;;
      self <- lift (finalize self required object) ;;
      ret (self, object).

(** [_.mapValues(properties, this.defineProperty, this)]. *)
Fixpoint mapValues (props : list (string * value))
  : M (list (string * value) * list value) :=
  match props with
  | [] => ret ([], [])
  | (key, p) :: rest =>
      '(d, p) <- defineProperty p ;;
      '(ds, ps) <- mapValues rest ;;
      ret ((key, d) :: ds, p :: ps)
  end.

Definition defineProperties_body (properties : value) : M (value * value) :=
  properties <- lift (drop_hidden (entries properties) properties) ;;
  '(defs, props) <- mapValues (entries properties) ;;
  ret (VObj defs, with_elements properties props).

Definition getExampleFromProperty (property : value) : outcome string :=
  bind (mapPropertiesToExamples (VObj [("prop", property)]) VUndef VUndef)
       (fun extracted => format (field extracted "prop") None).

(** The [_.map] over the alternatives in [defineProperty]; the callback
    assigns [definition.example]. *)
Fixpoint alternatives (alts : list value) (definition : value)
  : M (value * list value * list value) :=
  match alts with
  | [] => ret (definition, [], [])
  | object :: rest =>
      if nullish object then throw (cannot_read "type" object)
      else
        '(definition, d, object) <-
          (if loose_eq_str (field object "type") "object"
              || loose_eq_str (field object "type") "array"
           then '(d, object) <- build object ;; ret (definition, d, object)
           else '(defined, object) <- defineProperty object ;;
                if nullish defined
                then throw (cannot_read "example" defined)
                else ret (set_field "example" (field defined "example")
                                    definition, defined, object)) ;;
        '(definition, ds, rest) <- alternatives rest definition ;;
        ret (definition, d :: ds, object :: rest)
  end.

Definition defineProperty_body (property : value) : M (value * value) :=
  if nullish property then throw (cannot_read "noDisplay" property)
  else if is_true (field property "noDisplay") then ret (VNull, property)
  else
    '(definition, property) <-
      (if truthy (field property "allOf") then build property
       else if truthy (field property "oneOf")
               || truthy (field property "anyOf")
       then
         let key := if truthy (field property "oneOf") then "oneOf"
                    else "anyOf" in
         '(definition, defs, alts) <-
           alternatives (elements (field property key)) (VObj []) ;;
         ret (set_field key (VArr defs) definition,
              put_back key (with_elements (field property key) alts)
                       property)
       else if truthy (field property "properties")
       then '(defs, props) <-
              defineProperties (field property "properties") ;;
            ret (VObj [("properties", defs)],
                 put_back "properties" props property)
       else if truthy (field property "items")
               && truthy (field (field property "items") "properties")
       then '(defs, props) <-
              defineProperties (field (field property "items")
                                      "properties") ;;
            ret (VObj [("properties", defs)],
                 put_back "items"
                          (put_back "properties" props
                                    (field property "items")) property)
       else ret (VObj [], property)) ;;
    let definition :=
      set_field "type"
                (if truthy (field property "enum")
                 then VStr (typeof (field (field property "enum") "0"))
                 else field property "type") definition in
    definition <-
      (if negb (truthy (field definition "example"))
       then text <- lift (getExampleFromProperty property) ;;
            ret (set_field "example" (VStr text) definition)
       else ret definition) ;;
    '(built, property) <- build property ;;
    ret (Lodash.defaults definition built, property).

End Bodies.

Section WithEnvironment.

Variable format : value -> option Z -> outcome string.
Variable JSON_stringify : value -> string.
Variable random : nat -> Z.
Variable merge : (value -> value -> value) -> value -> value -> value.

Fixpoint build (fuel : nat) : value -> M (value * value) :=
  match fuel with
  | O => fun _ _ => OutOfFuel
  | S n =>
      build_body format JSON_stringify random merge
                 (ExampleDataExtractor.extract n)
                 (build n) (defineProperties n)
  end
with defineProperties (fuel : nat) : value -> M (value * value) :=
  match fuel with
  | O => fun _ _ => OutOfFuel
  | S n => defineProperties_body (defineProperty n)
  end
with defineProperty (fuel : nat) : value -> M (value * value) :=
  match fuel with
  | O => fun _ _ => OutOfFuel
  | S n =>
      defineProperty_body format
                          (ExampleDataExtractor.mapPropertiesToExamples n)
                          (build n) (defineProperties n) (defineProperty n)
  end.

End WithEnvironment.

End ObjectDefinition.

(** ** Reference instances of the parameters

    A compact JSON serializer standing for [JSON.stringify] and for the
    default formatter, a constant for the random draws, and the recursive
    merge of lodash 3 on tree-shaped values.  They serve to run the
    definitions on concrete schemas; the general theorems hold for every
    choice of the parameters. *)

Module Reference.

Definition hex_digit (n : nat) : string :=
  String (nth n (list_ascii_of_string "0123456789abcdef") "0"%char)
         EmptyString.

Definition escape_char (c : ascii) : string :=
  let n := nat_of_ascii c in
  if (n =? 34)%nat then backslash ++ dquote
  else if (n =? 92)%nat then backslash ++ backslash
  else if (n =? 8)%nat then backslash ++ "b"
  else if (n =? 9)%nat then backslash ++ "t"
  else if (n =? 10)%nat then backslash ++ "n"
  else if (n =? 12)%nat then backslash ++ "f"
  else if (n =? 13)%nat then backslash ++ "r"
  else if (n <? 32)%nat
       then backslash ++ "u00" ++ hex_digit (n / 16) ++ hex_digit (n mod 16)
  else String c EmptyString.

Fixpoint escape (s : string) : string :=
  match s with
  | EmptyString => EmptyString
  | String c r => escape_char c ++ escape r
  end.

Definition quote (s : string) : string := dquote ++ escape s ++ dquote.

(** [JSON.stringify(v)]; [None] is [undefined]. *)
Fixpoint stringify (v : value) : option string :=
  match v with
  | VUndef | VFun _ => None
  | VNull => Some "null"
  | VBool true => Some "true"
  | VBool false => Some "false"
  | VNum z => Some (number_to_string z)
  | VStr s => Some (quote s)
  | VArr l =>
      Some ("[" ++ join "," (map (fun x => match stringify x with
                                           | Some t => t
                                           | None => "null"
                                           end) l) ++ "]")
  | VObj f =>
      Some ("{" ++ join "," (flat_map
                               (fun p => match stringify (snd p) with
                                         | Some t => [quote (fst p) ++ ":" ++ t]
                                         | None => []
                                         end) f) ++ "}")
  end.

Definition JSON_stringify (v : value) : string :=
  match stringify v with Some t => t | None => "undefined" end.

Definition format (v : value) (indent : option Z) : outcome string :=
  Ret (JSON_stringify v).

Definition random (draws : nat) : Z := 0%Z.

Definition merge_fields (rec : value -> value -> option value)
                        (f g : list (string * value))
  : list (string * value) :=
  fold_left (fun g p => match rec (snd p) (field (VObj g) (fst p)) with
                        | Some y => assoc_set (fst p) y g
                        | None => g
                        end) f g.

Fixpoint merge_elems (rec : value -> value -> option value)
                     (l m : list value) : list value :=
  match l with
  | [] => m
  | x :: l' =>
      match rec x (hd VUndef m) with
      | Some y => y
      | None => hd VUndef m
      end :: merge_elems rec l' (tl m)
  end.

(** What the key of a source value [sv] is assigned when the destination
    holds [v]; [None] when nothing is assigned. *)
Fixpoint merge_value (customizer : value -> value -> value) (sv v : value)
  : option value :=
  match customizer v sv with
  | VUndef =>
      match sv with
      | VUndef => None
      | VObj f =>
          Some (VObj (merge_fields (merge_value customizer) f
                                   (match v with VObj g => g | _ => [] end)))
      | VArr l =>
          Some (VArr (merge_elems (merge_value customizer) l
                                  (match v with VArr m => m | _ => [] end)))
      | _ => Some sv
      end
  | r => Some r
  end.

Definition merge (customizer : value -> value -> value)
                 (object source : value) : value :=
  match object, source with
  | VObj g, VObj f => VObj (merge_fields (merge_value customizer) f g)
  | VArr m, VArr l => VArr (merge_elems (merge_value customizer) l m)
  | _, _ => object
  end.

Definition build := ObjectDefinition.build format JSON_stringify random merge.
Definition defineProperties :=
  ObjectDefinition.defineProperties format JSON_stringify random merge.
Definition defineProperty :=
  ObjectDefinition.defineProperty format JSON_stringify random merge.
Definition generate := Curl.generate format.

End Reference.


(** ** Schemas used as running examples *)

Module Examples.

Definition string_schema : value := VObj [("type", VStr "string")].

(** [generate("http://x/y", "POST", {"Content-Type": "application/json"},
    {"a": 1})]. *)
Definition curl_headers : value :=
  VObj [("Content-Type", VStr "application/json")].
Definition curl_data : value := VObj [("a", VNum 1)].

(** [{oneOf: [{type: "string", example: "x"},
              {type: "number", example: 1}]}]. *)
Definition first_string : value :=
  VObj [("type", VStr "string"); ("example", VStr "x")].

(** [{oneOf: [{properties: {a: {example: 1}, b: {example: 2}}}],
      exclusive: [["a", "b"]]}]. *)
Definition first_object : value :=
  VObj [("properties", VObj [("a", VObj [("example", VNum 1)]);
                             ("b", VObj [("example", VNum 2)])])].

(** [{type: "array", items: {type: "string", example: "a"}}]. *)
Definition array_of_strings : value :=
  VObj [("type", VStr "array");
        ("items", VObj [("type", VStr "string"); ("example", VStr "a")])].

(** [{type: "array"}]. *)
Definition array_without_items : value := VObj [("type", VStr "array")].

(** [{properties: {a: {example: 1}, b: {example: 2}},
      exclusive: [["a", "b"]]}]. *)
Definition exclusive_pair : value :=
  VObj [("properties", VObj [("a", VObj [("example", VNum 1)]);
                             ("b", VObj [("example", VNum 2)])]);
        ("exclusive", VArr [VArr [VStr "a"; VStr "b"]])].

(** [{properties: {a: {type: "string"},
                   b: {type: "number", noDisplay: true},
                   c: {type: "string"}},
      required: ["a"]}]. *)
Definition three_properties : list (string * value) :=
  [("a", string_schema);
   ("b", VObj [("type", VStr "number"); ("noDisplay", VBool true)]);
   ("c", string_schema)].
Definition partitioned : list (string * value) :=
  [("properties", VObj three_properties); ("required", VArr [VStr "a"])].

(** [{properties: {a: {}}, required: [],
      additionalProperties: {b: {}}}]. *)
Definition with_additional : value :=
  VObj [("properties", VObj [("a", VObj [])]);
        ("required", VArr []);
        ("additionalProperties", VObj [("b", VObj [])])].

(** [{allOf: [{properties: {a: {type: "string"}}},
              {additionalProperties: false,
               properties: {c: {type: "string"}}}]}]. *)
Definition open_member : value :=
  VObj [("properties", VObj [("a", string_schema)])].
Definition closed_member : value :=
  VObj [("additionalProperties", VBool false);
        ("properties", VObj [("c", string_schema)])].
Definition closed_second : value :=
  VObj [("allOf", VArr [open_member; closed_member])].

(** [{type: "number", example: 5}]. *)
Definition number_schema : value :=
  VObj [("type", VStr "number"); ("example", VNum 5)].

(** [{ID: {example: 7}, __meta: {example: 1},
      secret: {private: true, example: 2}, name: {example: "n"},
      tags: {type: "array", items: {example: "t"}}}]. *)
Definition account_properties : value :=
  VObj [("ID", VObj [("example", VNum 7)]);
        ("__meta", VObj [("example", VNum 1)]);
        ("secret", VObj [("private", VBool true); ("example", VNum 2)]);
        ("name", VObj [("example", VStr "n")]);
        ("tags", VObj [("type", VStr "array");
                       ("items", VObj [("example", VStr "t")])])].

(** [{exclusive: [["a", "b"]]}], a property without an example. *)
Definition exclusive_only : value :=
  VObj [("exclusive", VArr [VArr [VStr "a"; VStr "b"]])].

(** [{oneOf: []}]. *)
Definition no_alternative : value := VObj [("oneOf", VArr [])].

(** [{allOf: [{properties: {a: {example: 1}, b: {example: 2}}},
              {properties: {b: {example: 3}}}]}]. *)
Definition second_object : value :=
  VObj [("properties", VObj [("b", VObj [("example", VNum 3)])])].
Definition all_of_two : list (string * value) :=
  [("allOf", VArr [first_object; second_object])].

(** [{allOf: [{properties: {a: {example: 1}, b: {example: 2}}},
              {additionalProperties: false,
               properties: {c: {example: 4}}},
              {properties: {b: {example: 3}}}]}]. *)
Definition closed_object : value :=
  VObj [("additionalProperties", VBool false);
        ("properties", VObj [("c", VObj [("example", VNum 4)])])].
Definition all_of_closed : list (string * value) :=
  [("allOf", VArr [first_object; closed_object; second_object])].

(** [{properties: {a: {example: 1}},
      additionalProperties: {b: {example: 2}},
      generator: {includeAdditionalProperties: true}}]. *)
Definition opted_in : list (string * value) :=
  [("properties", VObj [("a", VObj [("example", VNum 1)])]);
   ("additionalProperties", VObj [("b", VObj [("example", VNum 2)])]);
   ("generator", VObj [("includeAdditionalProperties", VBool true)])].

(** [{id: "node", rel: "self"}]. *)
Definition self_link : value :=
  VObj [("id", VStr "node"); ("rel", VStr "self")].

(** [{title: "T", oneOf: [{type: "string"}, {noDisplay: true}]}]. *)
Definition hidden_alternative : value :=
  VObj [("title", VStr "T");
        ("oneOf", VArr [string_schema; VObj [("noDisplay", VBool true)]])].

(** A property [{oneOf: [{type: "string", noDisplay: true}]}]. *)
Definition hidden_choice : value :=
  VObj [("oneOf", VArr [VObj [("type", VStr "string");
                              ("noDisplay", VBool true)]])].

(** A property [{enum: [1, 2]}]. *)
Definition enumerated : value := VObj [("enum", VArr [VNum 1; VNum 2])].

(** A property [{properties: {a: {type: "string"},
                              b: {type: "number", noDisplay: true},
                              c: {type: "string"}}}]. *)
Definition nested : value := VObj [("properties", VObj three_properties)].

(** [{properties: {toString: {noDisplay: true}}, required: ["toString"]}]. *)
Definition hidden_toString : value :=
  VObj [("properties", VObj [("toString", VObj [("noDisplay", VBool true)])]);
        ("required", VArr [VStr "toString"])].

(** [{properties: {a: {}}, required: ["b"],
      additionalProperties: {b: {}}}]. *)
Definition required_additional : value :=
  VObj [("properties", VObj [("a", VObj [])]);
        ("required", VArr [VStr "b"]);
        ("additionalProperties", VObj [("b", VObj [])])].

(** [{type: "number", example: 5, required: ["a"]}]. *)
Definition number_requiring : value :=
  VObj [("type", VStr "number"); ("example", VNum 5);
        ("required", VArr [VStr "a"])].

End Examples.

(** ** Vocabulary of the statements *)

(** The first line [generate] writes for [uri] and [method]. *)
Definition first_line (uri : string) (method : option string) : string :=
  "curl -X "
  ++ toUpperCase (match method with
                  | Some m => if String.eqb m EmptyString then "GET" else m
                  | None => "GET"
                  end)
  ++ " " ++ dquote ++ uri ++ dquote.

(** [sub] occurs in [s]. *)
Definition contains (sub s : string) : Prop :=
  exists before after, s = before ++ sub ++ after.

(** The keys an [exclusive] value asks to delete. *)
Definition pruned_keys (groups : list value) : list string :=
  flat_map ExampleDataExtractor.group_tail groups.

Definition kept (ks : list string) (p : string * value) : bool :=
  negb (existsb (String.eqb (fst p)) ks).

(** [property.noDisplay === true] on an entry of a properties mapping. *)
Definition hidden (p : string * value) : bool :=
  is_true (field (snd p) "noDisplay").

Definition visible (p : string * value) : bool := negb (hidden p).

(** The names the resolved [required] list of [object] holds. *)
Definition required_names (object : value) : list string :=
  Lodash.prop_names (or_else (field object "required") (VArr [])).

(** [k] is an own key of [object] or no key of it at all: where [k] is
    the name of a member of [Object.prototype], [object] has a key [k]
    of its own, and [k] is not [__proto__]. *)
Definition own_or_missing (object : value) (k : string) : Prop :=
  inherited k = true -> has_key object k = true /\ k <> "__proto__".

(** [definition] and [left] are what one call of [resolver] on the value
    of the entry [p] returns and leaves. *)
Definition resolved_by (resolver : value -> ObjectDefinition.M (value * value))
                       (p : string * value) (definition left : value)
  : Prop :=
  exists s1 s2, resolver (snd p) s1 = Ret ((definition, left), s2).

(** No [noDisplay === true] on [v] nor anywhere inside it. *)
Definition shown (v : value) : bool := negb (is_true (field v "noDisplay")).

Fixpoint spotless (v : value) : bool :=
  shown v && match v with
             | VObj f => forallb (fun p => spotless (snd p)) f
             | VArr l => forallb spotless l
             | _ => true
             end.



(** A resolver that hands back unchanged every schema free of
    [noDisplay] flags. *)
Definition preserves (resolver : value -> ObjectDefinition.M (value * value))
  : Prop :=
  forall v s r v' s',
    spotless v = true -> resolver v s = Ret ((r, v'), s') -> v' = v.

Definition listed (names : list string) (k : string) : bool :=
  existsb (String.eqb k) names.

(** *** cURL strings *)

(** The method [generate] works with: [method || 'GET']. *)
Definition requested (method : option string) : string :=
  match method with
  | Some m => if String.eqb m EmptyString then "GET" else m
  | None => "GET"
  end.

(** One [key=value] pair of a query string. *)
Definition query_pair (p : string * value) : string :=
  fst p ++ "=" ++ to_string (snd p).

(** The lines of the header flags and the line of the data flag. *)
Definition header_lines (headers : value) : list string :=
  if truthy headers
  then map (fun p => "     -H " ++ dquote ++ fst p ++ ": " ++ to_string (snd p)
                                ++ dquote)
           (entries headers)
  else [].

Definition data_line (text : string) : string :=
  "     --data " ++ squote ++ text ++ squote.

(** The case mappings are modelled on ASCII text. *)
Definition ascii_text (s : string) : bool :=
  forallb (fun c => (nat_of_ascii c <? 128)%nat) (list_ascii_of_string s).

(** *** Example data *)

(** What [extract] can return: an object, a sequence with an element or
    a text with a character. *)
Definition exemplary (v : value) : Prop :=
  match v with
  | VObj _ => True
  | VArr l => l <> []
  | VStr s => s <> EmptyString
  | _ => False
  end.

(** A property [mapPropertiesToExamples] skips: its name starts with two
    underscores, or it is [private]. *)
Definition opted_out (p : string * value) : bool :=
  Lodash.startsWith (fst p) "__" || truthy (field (snd p) "private").

Definition shown_properties (props : value) : list (string * value) :=
  filter (fun p => negb (opted_out p)) (entries props).

(** The key a property is stored under: [ID] becomes [id]. *)
Definition example_name (propName : string) : string :=
  if String.eqb propName "ID" then "id" else propName.

(** A component [extract] reads the example of, and nothing else: no
    array type, no composition, no link to the root, no properties, no
    opt-in of additional properties, no exclusive groups. *)
Definition literal_component (c : value) : bool :=
  negb (is_str "array" (field c "type"))
  && negb (truthy (field c "allOf"))
  && negb (truthy (field c "oneOf"))
  && negb (truthy (field c "anyOf"))
  && negb (is_str "self" (field c "rel"))
  && negb (truthy (field c "properties"))
  && negb (Lodash.has c "additionalProperties"
           && truthy (Lodash.get2 c "generator" "includeAdditionalProperties"))
  && negb (truthy (field c "exclusive")).

(** The example of such a component: its literal, or the empty object
    when [_.isEmpty] holds of the literal. *)
Definition literal_example (c : value) : value :=
  if Lodash.isEmpty (ExampleDataExtractor.getExampleDataFromItem c)
  then VObj [] else ExampleDataExtractor.getExampleDataFromItem c.

(** The branch of the callback of [mapPropertiesToExamples] for an array
    with [items] and no example of its own. *)
Definition array_of_items (p : value) : bool :=
  is_str "array" (field p "type") && truthy (field p "items")
  && negb (truthy (ExampleDataExtractor.getExampleDataFromItem p)).

(** No branch of the callback replaces the example read from [p]. *)
Definition unresolved (p : value) : bool :=
  negb (is_str "self" (field p "rel"))
  && negb (array_of_items p)
  && negb (truthy (field p "id")
           && negb (truthy (ExampleDataExtractor.getExampleDataFromItem p)))
  && negb (truthy (field p "properties"))
  && negb (truthy (field p "oneOf") || truthy (field p "anyOf"))
  && negb (truthy (field p "allOf")).

(** The callback settles the example of [p] without extracting a
    sub-schema, and [p] has no exclusive groups. *)
Definition shallow (p : value) : bool :=
  (unresolved p
   || negb (is_str "self" (field p "rel")) && array_of_items p
      && truthy (field (field p "items") "example"))
  && negb (truthy (field p "exclusive")).

Definition shallow_example (p : value) : value :=
  if array_of_items p then VArr [field (field p "items") "example"]
  else ExampleDataExtractor.getExampleDataFromItem p.

(** [g] written over [f], key by key. *)
Definition overlay (f g : list (string * value)) : list (string * value) :=
  fold_left (fun t p => assoc_set (fst p) (snd p) t) g f.

(** The binding of [k] in the last of [sources] that has one. *)
Fixpoint last_binding (k : string) (sources : list (list (string * value)))
  : option value :=
  match sources with
  | [] => None
  | e :: rest =>
      match last_binding k rest with
      | Some x => Some x
      | None => lookup k e
      end
  end.

(** A member of [allOf] that does not close the accumulator and
    extracts to the object [e]. *)
Definition open_member_extracting
    (extract : value -> outcome value) (m : value) (e : list (string * value))
  : Prop :=
  nullish m = false
  /\ is_false (field m "additionalProperties") = false
  /\ NoDup (map fst e)
  /\ extract m = Ret (VObj e).

(** *** Object definitions *)

(** [definition] is what some call of [resolver] on [schema] returns. *)
Definition built_by (resolver : value -> ObjectDefinition.M (value * value))
                    (schema definition : value) : Prop :=
  exists s1 s2 left, resolver schema s1 = Ret ((definition, left), s2).

(** The alternatives [build] maps over: [object.oneOf || object.anyOf]
    when one of the two is an array. *)
Definition alternatives_of (object : value) : list value :=
  if Lodash.isArray (field object "oneOf")
     || Lodash.isArray (field object "anyOf")
  then elements (field object (if truthy (field object "oneOf")
                               then "oneOf" else "anyOf"))
  else [].

(** The definition of a node without properties and alternatives. *)
Definition literal_definition (id : Z) (text : string) (p : value)
  : list (string * value) :=
  [("allProps", VUndef); ("requiredProps", VNull); ("optionalProps", VNull);
   ("objects", VArr []); ("example", VStr text);
   ("id", VStr (number_to_string id)); ("title", field p "title");
   ("description", field p "description"); ("enum", field p "enum");
   ("_original", p)].

(** The [type] [defineProperty] records. *)
Definition declared_type (p : value) : value :=
  if truthy (field p "enum")
  then VStr (typeof (field (field p "enum") "0")) else field p "type".

(** An alternative [defineProperty] resolves itself rather than through
    [build]. *)
Definition scalar_typed (alt : value) : bool :=
  negb (loose_eq_str (field alt "type") "object"
        || loose_eq_str (field alt "type") "array").

(** * Properties *)

(** ** cURL strings *)

Lemma append_assoc (a b c : string) : (a ++ b) ++ c = a ++ b ++ c.
Proof. induction a as [|x a IH]; cbn; [reflexivity | now rewrite IH]. Qed.

Section CurlProperties.

Variable format : value -> option Z -> outcome string.

Lemma append_empty_r (s : string) : s ++ EmptyString = s.
Proof. induction s as [|c s IH]; cbn; [reflexivity | now rewrite IH]. Qed.

(** C7, as the code has it: when the formatter returns [text] for the
    data, the result is three lines, the first two each ended by a
    space, a backslash (character 92) and a line feed (character 10):
    [curl -X POST] and the address in double quotes (character 34), the
    method without quotes; five spaces, [-H] and the header in double
    quotes; five spaces, [--data] and [text] in single quotes. *)
Theorem generate_post_three_lines (text : string) :
  format Examples.curl_data (Some 0%Z) = Ret text ->
  let quoted := fun s => String "034"%char (s ++ String "034"%char EmptyString) in
  let continued :=
    fun line rest =>
      line ++ String " "%char (String "092"%char (String "010"%char rest)) in
  Curl.generate format "http://x/y" (Some "POST") Examples.curl_headers
                Examples.curl_data
  = Ret (continued ("curl -X POST " ++ quoted "http://x/y")
           (continued ("     -H " ++ quoted "Content-Type: application/json")
              ("     --data '" ++ text ++ "'"))).
Proof.
  intros Hfmt quoted continued.
  unfold Curl.generate, Curl.formatData.
  cbn. rewrite Hfmt. cbn. reflexivity.
Qed.

(** C10: whatever the address and the method, without headers (omitted,
    [null] or an empty object) and without data the text [generate]
    returns ends with a space, a backslash (character 92) and a line
    feed (character 10), and nothing follows them; before them stands
    the first line: [curl -X], the method in upper case ([GET] when
    there is none) and the address in double quotes (character 34). *)
Theorem generate_dangling_continuation (uri : string)
    (method : option string) (headers data : value) :
  headers = VUndef \/ headers = VNull \/ headers = VObj [] ->
  truthy data = false ->
  exists line,
    Curl.generate format uri method headers data
    = Ret (line ++ String " "%char
                     (String "092"%char (String "010"%char EmptyString)))
    /\ line = "curl -X " ++ toUpperCase (requested method) ++ " "
              ++ String "034"%char (uri ++ String "034"%char EmptyString).
Proof.
  intros Hh Hd. eexists. split; [|reflexivity].
  unfold Curl.generate. rewrite Hd. cbn [andb bind].
  fold (requested method).
  assert (Hflags : (if truthy headers
                    then map (fun p => Curl.buildFlag
                                         "H" (fst p ++ Curl.HEADER_SEPARATOR
                                                    ++ to_string (snd p))
                                         5 None)
                             (entries headers)
                    else []) = []).
  { destruct Hh as [-> | [-> | ->]]; reflexivity. }
  rewrite Hflags. cbn [join]. f_equal.
  unfold Curl.buildFlag, Curl.NEW_LINE, dquote, backslash, newline.
  cbn [join Lodash.repeat append].
  rewrite !append_empty_r, !append_assoc. cbn [append].
  rewrite !append_assoc. reflexivity.
Qed.

End CurlProperties.

Lemma generate_post_three_lines_witness :
  Reference.format Examples.curl_data (Some 0%Z)
  = Ret ("{" ++ String "034"%char ("a" ++ String "034"%char ":1}"))
  /\ Curl.generate Reference.format "http://x/y" (Some "POST")
                   Examples.curl_headers Examples.curl_data
     = Ret ("curl -X POST "
            ++ String "034"%char
                 ("http://x/y"
                  ++ String "034"%char
                       (String " "%char
                          (String "092"%char
                             (String "010"%char
            ("     -H "
             ++ String "034"%char
                  ("Content-Type: application/json"
                   ++ String "034"%char
                        (String " "%char
                           (String "092"%char
                              (String "010"%char
            ("     --data '{"
             ++ String "034"%char
                  ("a" ++ String "034"%char ":1}'")))))))))))).
Proof.
  split.
  - reflexivity.
  - rewrite (generate_post_three_lines
               Reference.format
               ("{" ++ String "034"%char ("a" ++ String "034"%char ":1}"))
               eq_refl).
    reflexivity.
Defined.

(** C7 as the specification words it (the method in double quotes, the
    flag spelled [-data]) is the output for no formatter and no
    formatted text. *)
Lemma generate_post_not_quoted_method :
  ~ exists (format : value -> option Z -> outcome string) (text : string),
      let quoted :=
        fun s => String "034"%char (s ++ String "034"%char EmptyString) in
      let continued :=
        fun line rest =>
          line ++ String " "%char
                    (String "092"%char (String "010"%char rest)) in
      Curl.generate format "http://x/y" (Some "POST") Examples.curl_headers
                    Examples.curl_data
      = Ret (continued ("curl -X " ++ quoted "POST" ++ " "
                                   ++ quoted "http://x/y")
               (continued ("     -H "
                           ++ quoted "Content-Type: application/json")
                  ("     -data '" ++ text ++ "'"))).
Proof.
  intros (format & text & H). cbv zeta in H.
  unfold Curl.generate, Curl.formatData in H. cbn in H.
  destruct (format Examples.curl_data (Some 0%Z)); cbn in H; discriminate H.
Qed.

Lemma generate_dangling_continuation_witness :
  Curl.generate Reference.format "http://x/y" None VUndef VUndef
  = Ret ("curl -X GET "
         ++ String "034"%char
              ("http://x/y"
               ++ String "034"%char
                    (String " "%char
                       (String "092"%char
                          (String "010"%char EmptyString)))))
  /\ Curl.generate Reference.format "http://x/y" (Some "post") (VObj [])
                   VNull
     = Ret ("curl -X POST "
            ++ String "034"%char
                 ("http://x/y"
                  ++ String "034"%char
                       (String " "%char
                          (String "092"%char
                             (String "010"%char EmptyString))))).
Proof.
  split.
  - destruct (generate_dangling_continuation Reference.format "http://x/y"
                None VUndef VUndef (or_introl eq_refl) eq_refl)
      as (line & H & ->).
    exact H.
  - destruct (generate_dangling_continuation Reference.format "http://x/y"
                (Some "post") (VObj []) VNull
                (or_intror (or_intror eq_refl)) eq_refl)
      as (line & H & ->).
    exact H.
Defined.

(** ** Example extraction *)

Section ExtractorProperties.

Import ExampleDataExtractor.

Lemma existsb_eqb_false (k : string) (ks : list string) :
  existsb (String.eqb k) ks = false -> ~ In k ks.
Proof.
  induction ks as [|k' ks IH]; cbn; [tauto|].
  intros H [E|HIn].
  - subst k'. now rewrite String.eqb_refl in H.
  - apply orb_false_iff in H. now apply IH.
Qed.

Lemma existsb_eqb_true (k : string) (ks : list string) :
  In k ks -> existsb (String.eqb k) ks = true.
Proof.
  intros H. apply existsb_exists. exists k. split; [exact H|].
  apply String.eqb_refl.
Qed.

Lemma lookup_absent (k : string) (f : list (string * value)) :
  existsb (String.eqb k) (map fst f) = false -> lookup k f = None.
Proof.
  induction f as [|[k' x] f IH]; cbn; [reflexivity|].
  intros H. apply orb_false_iff in H as [H1 H2].
  rewrite H1. now apply IH.
Qed.

Lemma field_absent (v : value) (k : string) :
  has_key v k = false -> field v k = VUndef.
Proof.
  unfold has_key, keys, field. intros H.
  now rewrite (lookup_absent _ _ H).
Qed.

Lemma filter_filter {A} (p q : A -> bool) (l : list A) :
  filter p (filter q l) = filter (fun x => q x && p x) l.
Proof.
  induction l as [|x l IH]; cbn; [reflexivity|].
  destruct (q x); cbn; [destruct (p x)|]; now rewrite IH.
Qed.

Lemma delete_all_object (ks : list string) (t : value)
                        (r : list (string * value)) :
  delete_all ks t = Ret (VObj r) ->
  exists f, t = VObj f /\ r = filter (kept ks) f.
Proof.
  revert t. induction ks as [|k ks IH]; intros t H; cbn in H.
  - injection H as ->. exists r. split; [reflexivity|].
    symmetry. apply forallb_filter_id. now apply forallb_forall.
  - destruct (nullish t) eqn:N; [discriminate|].
    apply IH in H as (f & Hf & ->).
    destruct t; cbn in Hf; try discriminate.
    injection Hf as <-. eexists; split; [reflexivity|].
    unfold assoc_remove. rewrite filter_filter.
    apply filter_ext. intros [k' x]. unfold kept; cbn.
    rewrite (String.eqb_sym k k').
    now destruct (String.eqb k' k), (existsb (String.eqb k') ks).
Qed.

Lemma prune_groups_object (groups : list value) (t : value)
                          (r : list (string * value)) :
  prune_groups groups t = Ret (VObj r) ->
  exists f, t = VObj f /\ r = filter (kept (pruned_keys groups)) f.
Proof.
  revert t. induction groups as [|g groups IH]; intros t H; cbn in H.
  - injection H as ->. exists r. split; [reflexivity|].
    symmetry. apply forallb_filter_id. now apply forallb_forall.
  - destruct (nullish g); [discriminate|].
    destruct (delete_all (group_tail g) t) as [t'| |] eqn:D;
      cbn in H; try discriminate.
    apply IH in H as (f' & -> & ->).
    apply delete_all_object in D as (f & -> & ->).
    exists f. split; [reflexivity|].
    rewrite filter_filter. apply filter_ext. intros p.
    unfold kept, pruned_keys; cbn. rewrite existsb_app.
    now rewrite negb_orb.
Qed.

Lemma lookup_filter_kept (ks : list string) (k : string)
                         (f : list (string * value)) :
  ~ In k ks -> lookup k (filter (kept ks) f) = lookup k f.
Proof.
  intros Hk. induction f as [|[k' x] f IH]; cbn; [reflexivity|].
  unfold kept at 1; cbn.
  destruct (String.eqb k k') eqn:E.
  - apply String.eqb_eq in E. subst k'.
    destruct (existsb (String.eqb k) ks) eqn:X.
    + apply existsb_exists in X as (k2 & HIn & E2).
      apply String.eqb_eq in E2. now subst k2.
    + cbn. now rewrite String.eqb_refl.
  - destruct (existsb (String.eqb k') ks); cbn; [|rewrite E]; exact IH.
Qed.

Lemma filter_kept_absent (ks : list string) (k : string)
                         (f : list (string * value)) :
  In k ks -> has_key (VObj (filter (kept ks) f)) k = false.
Proof.
  intros Hk. unfold has_key, keys; cbn.
  induction f as [|[k' x] f IH]; cbn; [reflexivity|].
  unfold kept at 1; cbn.
  destruct (existsb (String.eqb k') ks) eqn:X; cbn; [exact IH|].
  rewrite IH, orb_false_r.
  destruct (String.eqb k k') eqn:E; [|reflexivity].
  apply String.eqb_eq in E. subst k'.
  now rewrite (existsb_eqb_true _ _ Hk) in X.
Qed.

(** C4: an array component extracts to the one-element sequence holding
    the extraction of its [items], under the scope the component
    selects. *)
Theorem extract_array_is_singleton (n : nat) (c : list (string * value))
                                   (root options : value) :
  is_str "array" (field (VObj c) "type") = true ->
  has_key (VObj c) "items" = true ->
  extract (S n) (VObj c) root options
  = bind (extract n (field (VObj c) "items") (scope_of (VObj c) root)
                  options)
         (fun v => Ret (VArr [v]))
  /\ forall v,
       extract n (field (VObj c) "items") (scope_of (VObj c) root) options
       = Ret v ->
       exists l, extract (S n) (VObj c) root options = Ret (VArr l)
                 /\ l = [v] /\ List.length l = 1.
Proof.
  intros Harr _.
  assert (E : extract (S n) (VObj c) root options
              = bind (extract n (field (VObj c) "items")
                              (scope_of (VObj c) root) options)
                     (fun v => Ret (VArr [v]))).
  { cbn [extract]. unfold extract_body. cbn [truthy negb].
    now rewrite Harr. }
  split; [exact E|].
  intros v Hv. exists [v]. rewrite E, Hv. now cbn.
Qed.

(** C9: an array component without [items] makes [extract] raise the
    ReferenceError of the guard on a missing component. *)
Theorem extract_array_without_items (n : nat) (c : list (string * value))
                                    (root options : value) :
  is_str "array" (field (VObj c) "type") = true ->
  has_key (VObj c) "items" = false ->
  extract (S (S n)) (VObj c) root options
  = Throw (ReferenceError "No schema received to generate example data").
Proof.
  intros Harr Hno.
  cbn [extract]. unfold extract_body at 1. cbn [truthy negb].
  rewrite Harr, (field_absent _ _ Hno). reflexivity.
Qed.


(** C5: once [extract] reaches the exclusive groups, the mapping it
    returns is the merged mapping without the keys listed after the
    first member of a group; every other key keeps its entry. *)
Theorem extract_prunes_exclusive (n : nat) (c : list (string * value))
                                 (root options : value)
                                 (groups : list value)
                                 (r : list (string * value)) :
  is_str "array" (field (VObj c) "type") = false ->
  field (VObj c) "exclusive" = VArr groups ->
  extract (S n) (VObj c) root options = Ret (VObj r) ->
  (forall first members m,
      In (VArr (first :: members)) groups -> In m members ->
      has_key (VObj r) (to_string m) = false)
  /\ exists merged,
       reduce_component (extract n) (mapPropertiesToExamples n) (VObj c)
                        (scope_of (VObj c) root) options
       = Ret (VObj merged)
       /\ r = filter (kept (pruned_keys groups)) merged
       /\ forall k, ~ In k (pruned_keys groups) ->
                    lookup k r = lookup k merged.
Proof.
  intros Harr Hex H.
  cbn [extract] in H. unfold extract_body in H. cbn [truthy negb] in H.
  rewrite Harr in H.
  destruct (reduce_component (extract n) (mapPropertiesToExamples n)
              (VObj c) (scope_of (VObj c) root) options)
    as [reduced| |] eqn:R; cbn [bind] in H; try discriminate.
  unfold prune_exclusive in H. rewrite Hex in H. cbn [truthy] in H.
  apply prune_groups_object in H as (merged & -> & ->).
  split.
  - intros first members m Hg Hm. apply filter_kept_absent.
    unfold pruned_keys. apply in_flat_map.
    exists (VArr (first :: members)). split; [exact Hg|].
    cbn. now apply in_map.
  - exists merged. split; [reflexivity|]. split; [reflexivity|].
    intros k Hk. now apply lookup_filter_kept.
Qed.

End ExtractorProperties.

Lemma extract_array_is_singleton_witness :
  ExampleDataExtractor.extract 2 Examples.array_of_strings VUndef VUndef
  = Ret (VArr [VStr "a"]).
Proof.
  destruct (extract_array_is_singleton 1
              [("type", VStr "array");
               ("items", VObj [("type", VStr "string");
                               ("example", VStr "a")])]
              VUndef VUndef eq_refl eq_refl) as [E _].
  exact E.
Defined.

Lemma extract_array_without_items_witness :
  ExampleDataExtractor.extract 2 Examples.array_without_items VUndef VUndef
  = Throw (ReferenceError "No schema received to generate example data").
Proof.
  exact (extract_array_without_items 0 [("type", VStr "array")]
           VUndef VUndef eq_refl eq_refl).
Defined.



Lemma extract_prunes_exclusive_witness :
  ExampleDataExtractor.extract 2 Examples.exclusive_pair VUndef VUndef
  = Ret (VObj [("a", VNum 1)])
  /\ has_key (VObj [("a", VNum 1)]) "b" = false
  /\ has_key (VObj [("a", VNum 1)]) "a" = true.
Proof.
  split; [reflexivity|]. split; [|reflexivity].
  destruct (extract_prunes_exclusive 1
              [("properties", VObj [("a", VObj [("example", VNum 1)]);
                                    ("b", VObj [("example", VNum 2)])]);
               ("exclusive", VArr [VArr [VStr "a"; VStr "b"]])]
              VUndef VUndef [VArr [VStr "a"; VStr "b"]]
              [("a", VNum 1)] eq_refl eq_refl eq_refl) as [Habsent _].
  exact (Habsent (VStr "a") [VStr "b"] (VStr "b")
           (or_introl eq_refl) (or_introl eq_refl)).
Defined.

(** ** Object definitions *)

Import ObjectDefinition.

(** *** Association lists and the lodash helpers *)

Lemma assoc_set_keys (k k' : string) (x : value) (f : list (string * value)) :
  In k' (map fst (assoc_set k x f)) <-> k' = k \/ In k' (map fst f).
Proof.
  induction f as [|[k0 y] f IH]; cbn.
  - intuition congruence.
  - destruct (String.eqb k k0) eqn:E; cbn.
    + apply String.eqb_eq in E. subst k0. intuition congruence.
    + rewrite IH. intuition congruence.
Qed.

Lemma lookup_assoc_set (k k' : string) (x : value)
                       (f : list (string * value)) :
  lookup k' (assoc_set k x f)
  = if String.eqb k' k then Some x else lookup k' f.
Proof.
  induction f as [|[k0 y] f IH]; cbn.
  - reflexivity.
  - destruct (String.eqb k k0) eqn:E; cbn.
    + apply String.eqb_eq in E. subst k0.
      now destruct (String.eqb k' k).
    + rewrite IH. destruct (String.eqb k' k) eqn:E'; [|reflexivity].
      apply String.eqb_eq in E'. subst k'. now rewrite E.
Qed.

Lemma assoc_set_fresh (k : string) (x : value) (f : list (string * value)) :
  ~ In k (map fst f) -> assoc_set k x f = (f ++ [(k, x)])%list.
Proof.
  induction f as [|[k0 y] f IH]; cbn; [reflexivity|].
  intros H. destruct (String.eqb k k0) eqn:E.
  - apply String.eqb_eq in E. subst k0. tauto.
  - rewrite IH; tauto.
Qed.

Lemma assoc_set_same (k : string) (f : list (string * value)) (x : value) :
  lookup k f = Some x -> assoc_set k x f = f.
Proof.
  induction f as [|[k0 y] f IH]; cbn; [discriminate|].
  destruct (String.eqb k k0) eqn:E.
  - apply String.eqb_eq in E. subst k0. now intros [= ->].
  - intros H. now rewrite IH.
Qed.

Lemma lookup_in (k : string) (f : list (string * value)) :
  In k (map fst f) -> exists x, lookup k f = Some x.
Proof.
  induction f as [|[k0 y] f IH]; cbn; [tauto|].
  intros [->|H].
  - rewrite String.eqb_refl. now exists y.
  - destruct (String.eqb k k0); [now exists y | now apply IH].
Qed.

Lemma lookup_in_entries (k : string) (f : list (string * value)) (x : value) :
  lookup k f = Some x -> In x (map snd f).
Proof.
  induction f as [|[k' y] f IH]; cbn; [discriminate|].
  destruct (String.eqb k k'); [intros [= ->]; now left | right; auto].
Qed.

Lemma has_key_in (f : list (string * value)) (k : string) :
  has_key (VObj f) k = true <-> In k (map fst f).
Proof.
  unfold has_key, keys; cbn. split.
  - intros H. apply existsb_exists in H as (k' & HIn & E).
    apply String.eqb_eq in E. now subst.
  - apply existsb_eqb_true.
Qed.

Lemma field_set_same (k : string) (x : value) (f : list (string * value)) :
  field (set_field k x (VObj f)) k = x.
Proof.
  unfold field; cbn. now rewrite lookup_assoc_set, String.eqb_refl.
Qed.

Lemma field_set_other (k k' : string) (x v : value) :
  k <> k' -> field (set_field k x v) k' = field v k'.
Proof.
  intros Hne. destruct v; try reflexivity. unfold field; cbn.
  rewrite lookup_assoc_set.
  destruct (String.eqb k' k) eqn:E; [|reflexivity].
  apply String.eqb_eq in E. congruence.
Qed.

Lemma set_field_object (k : string) (x : value) (f : list (string * value)) :
  set_field k x (VObj f) = VObj (assoc_set k x f).
Proof. reflexivity. Qed.

Lemma field_assoc_same (k : string) (x : value) (f : list (string * value)) :
  field (VObj (assoc_set k x f)) k = x.
Proof. apply field_set_same. Qed.

Lemma field_assoc_other (k k' : string) (x : value)
                        (f : list (string * value)) :
  k <> k' -> field (VObj (assoc_set k x f)) k' = field (VObj f) k'.
Proof. apply (field_set_other k k' x (VObj f)). Qed.

Lemma field_put_back_other (k k' : string) (x v : value) :
  k <> k' -> field (put_back k x v) k' = field v k'.
Proof.
  intros Hne. unfold put_back. destruct (has_key v k); [|reflexivity].
  now apply field_set_other.
Qed.

Lemma extend_fresh (l acc : list (string * value)) :
  NoDup (map fst (acc ++ l)%list) ->
  fold_left (fun t p => set_field (fst p) (snd p) t) l (VObj acc)
  = VObj (acc ++ l)%list.
Proof.
  revert acc. induction l as [|[k x] l IH]; intros acc Hnd; cbn.
  - now rewrite app_nil_r.
  - rewrite assoc_set_fresh.
    + rewrite IH; rewrite <- app_assoc; [reflexivity | exact Hnd].
    + rewrite map_app in Hnd. cbn in Hnd.
      apply NoDup_remove_2 in Hnd. intros HIn. apply Hnd.
      apply in_or_app. now left.
Qed.

Lemma extend_empty (l : list (string * value)) :
  NoDup (map fst l) -> Lodash.extend (VObj []) (VObj l) = VObj l.
Proof. intros H. unfold Lodash.extend. cbn. now apply extend_fresh. Qed.

Lemma member_own (v : value) (k : string) :
  has_key v k = true -> member v k = field v k.
Proof.
  unfold has_key, keys, member, field.
  induction (entries v) as [|[k' x] l IH]; cbn; [discriminate|].
  destruct (String.eqb k k'); cbn; [reflexivity | exact IH].
Qed.

(** On a name that is an own key or no name of the prototype, [_.pick]
    goes by the own keys. *)
Lemma pick_step_own (object : value) (result : list (string * value))
                    (key : string) :
  own_or_missing object key ->
  Lodash.pick_step object result key
  = if has_key object key then assoc_set key (field object key) result
    else result.
Proof.
  intros Hown. unfold Lodash.pick_step, in_object.
  destruct (inherited key) eqn:Hi.
  - destruct (Hown Hi) as [Hk Hne]. rewrite Hk, (member_own _ _ Hk).
    apply String.eqb_neq in Hne. now rewrite Hne.
  - rewrite orb_false_r. destruct (has_key object key) eqn:Hk; [|reflexivity].
    rewrite (member_own _ _ Hk).
    destruct (String.eqb key "__proto__") eqn:E; [|reflexivity].
    apply String.eqb_eq in E. subst. discriminate Hi.
Qed.

Section Pick.

Variable A : list (string * value).

Lemma pick_fold (names : list string) (acc : list (string * value)) :
  (forall k, In k names -> own_or_missing (VObj A) k) ->
  (forall k, In k (map fst (fold_left (Lodash.pick_step (VObj A)) names acc))
             <-> In k (map fst acc) \/ (In k names /\ In k (map fst A)))
  /\ ((forall k x, lookup k acc = Some x -> x = field (VObj A) k) ->
      forall k x, lookup k (fold_left (Lodash.pick_step (VObj A)) names acc) = Some x ->
                  x = field (VObj A) k).
Proof.
  revert acc. induction names as [|k0 names IH]; intros acc Hown; cbn.
  - split; [intros k; tauto | auto].
  - assert (Hown' : forall k, In k names -> own_or_missing (VObj A) k)
      by (intros k Hk; apply Hown; now right).
    destruct (IH ((Lodash.pick_step (VObj A)) acc k0) Hown') as [IH1 IH2].
    rewrite pick_step_own in IH1, IH2 by (apply Hown; now left).
    rewrite pick_step_own by (apply Hown; now left). split.
    + intros k. rewrite IH1.
      destruct (has_key (VObj A) k0) eqn:Hk.
      * rewrite assoc_set_keys. apply has_key_in in Hk.
        intuition (subst; auto).
      * assert (~ In k0 (map fst A)).
        { intros HIn. apply has_key_in in HIn. congruence. }
        intuition (subst; tauto).
    + intros Hacc. apply IH2. intros k x.
      destruct (has_key (VObj A) k0); [|apply Hacc].
      rewrite lookup_assoc_set. destruct (String.eqb k k0) eqn:E.
      * apply String.eqb_eq in E. subst. now intros [= <-].
      * apply Hacc.
Qed.

End Pick.

Lemma map_fst_filter_kept (names : list string) (A : list (string * value)) :
  map fst (filter (kept names) A)
  = filter (fun k => negb (listed names k)) (map fst A).
Proof.
  induction A as [|[k x] A IH]; cbn; [reflexivity|].
  unfold kept at 1, listed at 1; cbn.
  destruct (existsb (String.eqb k) names); cbn; now rewrite IH.
Qed.

Lemma omit_object (A : list (string * value)) (required : value) :
  Lodash.omit (VObj A) required
  = VObj (filter (kept (Lodash.prop_names required)) A).
Proof. reflexivity. Qed.

Lemma keys_null_if_empty (v : value) : keys (null_if_empty v) = keys v.
Proof.
  unfold null_if_empty. destruct v as [| | | | s |l|f|g]; try reflexivity.
  - cbn. destruct (String.eqb s EmptyString) eqn:E; [|reflexivity].
    apply String.eqb_eq in E. now subst.
  - now destruct l.
  - now destruct f.
Qed.

Lemma field_null_if_empty (v : value) (k : string) :
  field (null_if_empty v) k = field v k.
Proof.
  unfold null_if_empty. destruct v as [| | | | s |l|f|g]; try reflexivity.
  - cbn. destruct (String.eqb s EmptyString) eqn:E; [|reflexivity].
    apply String.eqb_eq in E. now subst.
  - now destruct l.
  - now destruct f.
Qed.

Lemma null_if_empty_object (f : list (string * value)) :
  null_if_empty (VObj f) = VNull <-> f = [].
Proof. unfold null_if_empty. destruct f; cbn; split; congruence. Qed.


Lemma map_snd_combine {A B} (a : list A) (b : list B) :
  List.length a = List.length b -> map snd (combine a b) = b.
Proof.
  revert b. induction a as [|x a IH]; intros [|y b] H; cbn in *;
    try discriminate; [reflexivity|].
  f_equal. apply IH. now injection H.
Qed.

Lemma map_snd_indexed {A} (l : list A) : map snd (indexed l) = l.
Proof.
  unfold indexed. apply map_snd_combine.
  now rewrite length_map, length_seq.
Qed.

Lemma combine_fst_snd {A B} (l : list (A * B)) :
  combine (map fst l) (map snd l) = l.
Proof. induction l as [|[a b] l IH]; cbn; [reflexivity | now rewrite IH]. Qed.

Lemma with_elements_same (c : value) : with_elements c (elements c) = c.
Proof.
  destruct c as [| | | | s |l|f|g]; try reflexivity.
  - unfold elements; cbn. now rewrite map_snd_indexed.
  - unfold elements; cbn. now rewrite combine_fst_snd.
Qed.

Lemma put_back_same (k : string) (o : value) : put_back k (field o k) o = o.
Proof.
  unfold put_back. destruct (has_key o k) eqn:Hk; [|reflexivity].
  destruct o as [| | | | s |l|f|g]; try reflexivity.
  cbn. f_equal. apply assoc_set_same. unfold field. cbn.
  apply has_key_in, lookup_in in Hk as (x & Hx). now rewrite Hx.
Qed.

(** *** Stepping through a computation *)

Lemma mbind_ret {A B} (a : A) (f : A -> M B) (s : nat) :
  mbind (ret a) f s = f a s.
Proof. reflexivity. Qed.

Lemma mbind_inv {A B} (m : M A) (f : A -> M B) (s s' : nat) (b : B) :
  mbind m f s = Ret (b, s') ->
  exists a s1, m s = Ret (a, s1) /\ f a s1 = Ret (b, s').
Proof.
  unfold mbind. destruct (m s) as [[a s1]| |]; try discriminate.
  intros H. now exists a, s1.
Qed.

Lemma lift_inv {A} (o : outcome A) (s s' : nat) (a : A) :
  lift o s = Ret (a, s') -> o = Ret a /\ s' = s.
Proof.
  unfold lift. destruct o; try discriminate. now intros [= -> ->].
Qed.

Lemma ret_inv {A} (a b : A) (s s' : nat) :
  ret a s = Ret (b, s') -> b = a /\ s' = s.
Proof. unfold ret. now intros [= -> ->]. Qed.

Section Unfolding.

Variable format : value -> option Z -> outcome string.
Variable JSON_stringify : value -> string.
Variable random : nat -> Z.
Variable merge : (value -> value -> value) -> value -> value -> value.

Local Abbreviation build :=
  (ObjectDefinition.build format JSON_stringify random merge).
Local Abbreviation defineProperties :=
  (ObjectDefinition.defineProperties format JSON_stringify random merge).
Local Abbreviation defineProperty :=
  (ObjectDefinition.defineProperty format JSON_stringify random merge).

Lemma build_S (n : nat) :
  build (S n)
  = build_body format JSON_stringify random merge
               (ExampleDataExtractor.extract n) (build n)
               (defineProperties n).
Proof. reflexivity. Qed.

Lemma defineProperties_S (n : nat) :
  defineProperties (S n) = defineProperties_body (defineProperty n).
Proof. reflexivity. Qed.

Lemma defineProperty_S (n : nat) :
  defineProperty (S n)
  = defineProperty_body format
      (ExampleDataExtractor.mapPropertiesToExamples n)
      (build n) (defineProperties n) (defineProperty n).
Proof. reflexivity. Qed.

End Unfolding.

(** *** The finalization of [build] *)

Section Finalization.

Variable format : value -> option Z -> outcome string.
Variable JSON_stringify : value -> string.
Variable random : nat -> Z.
Variable merge : (value -> value -> value) -> value -> value -> value.

Local Abbreviation build :=
  (ObjectDefinition.build format JSON_stringify random merge).
Local Abbreviation defineProperties :=
  (ObjectDefinition.defineProperties format JSON_stringify random merge).
Local Abbreviation defineProperty :=
  (ObjectDefinition.defineProperty format JSON_stringify random merge).

Lemma contains_middle (a sub b : string) : contains sub (a ++ sub ++ b).
Proof. now exists a, b. Qed.

(** C6: when the extraction of the example, or its formatting, raises
    [e] in the finalization of [build], [build] raises an error whose
    message holds the serialized schema and the message of [e]. *)
Theorem build_reports_schema_and_cause (n : nat)
    (object self required resolved : value) (s s' : nat) (e : error) :
  nullish object = false ->
  is_true (field object "noDisplay") = false ->
  resolve merge (build n) (defineProperties n) (initial_self (random s))
          (or_else (field object "required") (VArr [])) object (S s)
  = Ret ((self, required, resolved), s') ->
  nullish self = false ->
  (ExampleDataExtractor.extract n resolved VUndef VUndef = Throw e
   \/ exists v, ExampleDataExtractor.extract n resolved VUndef VUndef = Ret v
                /\ format v None = Throw e) ->
  exists msg,
    build (S n) object s = Throw (Error msg)
    /\ msg = "Error preparing data for object: "
             ++ JSON_stringify resolved ++ " " ++ message e
    /\ contains (JSON_stringify resolved) msg
    /\ contains (message e) msg.
Proof.
  intros Hobj Hshow Hres Hself Hfail.
  eexists. split; [|split; [reflexivity|split]].
  - rewrite build_S. unfold build_body.
    rewrite Hobj. unfold mbind at 1. unfold draw. rewrite Hshow.
    unfold mbind at 1. rewrite Hres.
    unfold mbind, lift, finalize. rewrite Hself.
    assert (X : example_of format JSON_stringify
                  (ExampleDataExtractor.extract n) resolved
                = Throw (Error ("Error preparing data for object: "
                                ++ JSON_stringify resolved ++ " "
                                ++ message e))).
    { unfold example_of.
      destruct Hfail as [-> | (v & -> & Hv)]; cbn [bind]; [|rewrite Hv];
        reflexivity. }
    rewrite X. reflexivity.
  - apply contains_middle.
  - exists ("Error preparing data for object: "
            ++ JSON_stringify resolved ++ " "), EmptyString.
    rewrite append_empty_r, !append_assoc. reflexivity.
Qed.

(** The finalization of [build] computes the partition from whatever
    [allProps] holds. *)
Lemma finalize_fields (f : list (string * value)) (required object r : value)
    (extractor : value -> value -> value -> outcome value) :
  finalize format JSON_stringify extractor (VObj f) required object = Ret r ->
  field r "allProps"
  = (if Lodash.isEmpty (field (VObj f) "allProps") then VUndef
     else field (VObj f) "allProps")
  /\ field r "requiredProps"
     = null_if_empty (Lodash.pick (field (VObj f) "allProps") required)
  /\ field r "optionalProps"
     = null_if_empty (Lodash.omit (field (VObj f) "allProps") required).
Proof.
  unfold finalize. cbn [nullish]. cbv zeta.
  destruct (example_of format JSON_stringify extractor object)
    as [text| |]; cbn [bind]; try discriminate.
  intros [= <-].
  rewrite !(field_assoc_other _ "allProps") by discriminate.
  destruct (Lodash.isEmpty (field (VObj f) "allProps")).
  - rewrite field_assoc_same.
    rewrite !(field_assoc_other "allProps") by discriminate.
    rewrite !(field_assoc_other "example") by discriminate.
    rewrite !(field_assoc_other "_original") by discriminate.
    rewrite (field_assoc_other "optionalProps" "requiredProps")
      by discriminate.
    rewrite !field_assoc_same. repeat split.
  - rewrite !(field_assoc_other "example") by discriminate.
    rewrite !(field_assoc_other "_original") by discriminate.
    rewrite (field_assoc_other "optionalProps" "requiredProps")
      by discriminate.
    rewrite !field_assoc_same.
    rewrite !(field_assoc_other _ "allProps") by discriminate.
    repeat split.
Qed.

Lemma finalize_object (f : list (string * value)) (required object r : value)
    (extractor : value -> value -> value -> outcome value) :
  finalize format JSON_stringify extractor (VObj f) required object = Ret r ->
  exists f', r = VObj f'.
Proof.
  unfold finalize. cbn [nullish]. cbv zeta.
  destruct (example_of format JSON_stringify extractor object)
    as [text| |]; cbn [bind]; try discriminate.
  intros [= <-]. destruct (Lodash.isEmpty _); eexists; reflexivity.
Qed.

End Finalization.

(** *** Visibility filtering *)

Lemma drop_hidden_object (es cur : list (string * value)) (v : value) :
  drop_hidden es (VObj cur) = Ret v ->
  v = VObj (filter (fun q => negb (existsb (fun p => String.eqb (fst p) (fst q)
                                                     && hidden p) es)) cur).
Proof.
  revert cur. induction es as [|[key p] es IH]; intros cur H; cbn in H.
  - injection H as <-. f_equal. symmetry.
    apply forallb_filter_id. now apply forallb_forall.
  - destruct (nullish p); [discriminate|].
    unfold hidden at 1. cbn [fst snd existsb].
    destruct (is_true (field p "noDisplay")).
    + cbn [delete_field] in H. apply IH in H as ->. f_equal.
      unfold assoc_remove. rewrite filter_filter.
      apply filter_ext. intros q. rewrite andb_true_r, negb_orb.
      reflexivity.
    + apply IH in H as ->. f_equal.
      apply filter_ext. intros q. now rewrite andb_false_r.
Qed.

Lemma same_key_same_entry (P : list (string * value))
                          (p q : string * value) :
  NoDup (map fst P) -> In p P -> In q P -> fst p = fst q -> p = q.
Proof.
  induction P as [|x P IH]; cbn; [tauto|].
  intros Hnd Hp Hq E. inversion Hnd as [|? ? Hx Hnd']; subst.
  destruct Hp as [->|Hp], Hq as [->|Hq].
  - reflexivity.
  - exfalso. apply Hx. rewrite E. now apply in_map.
  - exfalso. apply Hx. rewrite <- E. now apply in_map.
  - now apply IH.
Qed.

Lemma hidden_entries_of_mapping (P : list (string * value)) :
  NoDup (map fst P) ->
  filter (fun q => negb (existsb (fun p => String.eqb (fst p) (fst q)
                                           && hidden p) P)) P
  = filter visible P.
Proof.
  intros Hnd. apply filter_ext_in. intros q Hq. unfold visible. f_equal.
  destruct (hidden q) eqn:Hh.
  - apply existsb_exists. exists q. split; [exact Hq|].
    now rewrite String.eqb_refl, Hh.
  - destruct (existsb _ P) eqn:X; [|reflexivity].
    apply existsb_exists in X as (p & Hp & E).
    apply andb_true_iff in E as [E Hp'].
    apply String.eqb_eq in E.
    rewrite (same_key_same_entry P p q Hnd Hp Hq E) in Hp'.
    congruence.
Qed.

Lemma visible_keys_distinct (P : list (string * value)) :
  NoDup (map fst P) -> NoDup (map fst (filter visible P)).
Proof.
  induction P as [|q P IH]; cbn; [auto|].
  intros H. inversion H as [|? ? Hq HP]; subst.
  destruct (visible q); cbn; [|now apply IH].
  constructor; [|now apply IH].
  intros HIn. apply Hq. apply in_map_iff in HIn as (y & E & Hy).
  apply filter_In in Hy as [Hy _]. rewrite <- E. now apply in_map.
Qed.


Section MapValues.

Variable resolver : value -> M (value * value).

Lemma mapValues_entries (es : list (string * value)) (s s' : nat)
                        (defs : list (string * value)) (props : list value) :
  mapValues resolver es s = Ret ((defs, props), s') ->
  map fst defs = map fst es
  /\ List.length props = List.length es
  /\ Forall2 (fun p dq => resolved_by resolver p (snd (fst dq)) (snd dq))
             es (combine defs props).
Proof.
  revert s defs props. induction es as [|[key p] es IH];
    intros s defs props H; cbn in H.
  - injection H as <- <- <-. cbn. repeat split. constructor.
  - unfold mbind at 1 in H.
    destruct (resolver p s) as [[[d p'] s1]| |] eqn:R; try discriminate.
    unfold mbind at 1 in H.
    destruct (mapValues resolver es s1) as [[[ds ps] s2]| |] eqn:Rest;
      try discriminate.
    injection H as <- <- <-.
    destruct (IH _ _ _ Rest) as (Hk & Hl & Hf).
    cbn. rewrite Hk, Hl. repeat split.
    constructor; [|exact Hf]. now exists s, s1.
Qed.

End MapValues.

(** *** Schemas without hidden properties come back unchanged *)

Lemma spotless_unfold (v : value) :
  spotless v
  = shown v && match v with
               | VObj f => forallb (fun p => spotless (snd p)) f
               | VArr l => forallb spotless l
               | _ => true
               end.
Proof. now destruct v. Qed.

Lemma spotless_shown (v : value) : spotless v = true -> shown v = true.
Proof.
  rewrite spotless_unfold. intros H. now apply andb_true_iff in H.
Qed.

Lemma spotless_chars (s : string) :
  Forall (fun c => spotless c = true) (chars s).
Proof. induction s as [|c s IH]; cbn; constructor; [reflexivity | exact IH]. Qed.

Lemma spotless_elements (v : value) :
  spotless v = true -> Forall (fun x => spotless x = true) (elements v).
Proof.
  unfold elements. destruct v as [| | | | s |l|f|g]; cbn [entries];
    try (intros _; constructor).
  - intros _. rewrite map_snd_indexed. apply spotless_chars.
  - rewrite spotless_unfold. intros H. apply andb_true_iff in H as [_ H].
    rewrite map_snd_indexed. apply Forall_forall. intros x Hx.
    rewrite forallb_forall in H. now apply H.
  - rewrite spotless_unfold. intros H. apply andb_true_iff in H as [_ H].
    apply Forall_forall. intros x Hx. rewrite forallb_forall in H.
    apply in_map_iff in Hx as (p & <- & Hp). now apply H.
Qed.

Lemma spotless_field (v : value) (k : string) :
  spotless v = true -> spotless (field v k) = true.
Proof.
  intros H. unfold field. destruct (lookup k (entries v)) eqn:L;
    [|reflexivity].
  apply lookup_in_entries in L.
  pose proof (spotless_elements v H) as F.
  rewrite Forall_forall in F. now apply F.
Qed.

Lemma drop_hidden_shown (es : list (string * value)) (p p' : value) :
  Forall (fun x => spotless x = true) (map snd es) ->
  drop_hidden es p = Ret p' -> p' = p.
Proof.
  revert p. induction es as [|[k x] es IH]; intros p F H; cbn in H.
  - now injection H.
  - inversion F as [|? ? Hx F']; subst.
    destruct (nullish x); [discriminate|].
    apply spotless_shown in Hx. unfold shown in Hx.
    apply negb_true_iff in Hx. rewrite Hx in H. now apply IH.
Qed.

Lemma strip_hidden_shown (es : list (string * value)) (self self' : value) :
  Forall (fun x => spotless x = true) (map snd es) ->
  strip_hidden es self = Ret self' -> self' = self.
Proof.
  revert self. induction es as [|[k x] es IH]; intros self F H; cbn in H.
  - now injection H.
  - inversion F as [|? ? Hx F']; subst.
    destruct (nullish x); [discriminate|].
    apply spotless_shown in Hx. unfold shown in Hx.
    apply negb_true_iff in Hx. rewrite Hx in H. now apply IH.
Qed.

Lemma filter_visible_spotless (P : list (string * value)) :
  Forall (fun x => spotless x = true) (map snd P) -> filter visible P = P.
Proof.
  induction P as [|[k x] P IH]; [reflexivity|].
  intros F. inversion F as [|? ? Hx F']; subst. cbn [filter].
  assert (E : visible (k, x) = true) by exact (spotless_shown _ Hx).
  rewrite E. f_equal. now apply IH.
Qed.

Section Frame.

Variable format : value -> option Z -> outcome string.
Variable JSON_stringify : value -> string.
Variable random : nat -> Z.
Variable merge : (value -> value -> value) -> value -> value -> value.
Variable extract : value -> value -> value -> outcome value.
Variable mapPropertiesToExamples : value -> value -> value -> outcome value.
Variable build : value -> M (value * value).
Variable defineProperties : value -> M (value * value).
Variable defineProperty : value -> M (value * value).

Hypothesis build_ok : preserves build.
Hypothesis defineProperties_ok : preserves defineProperties.
Hypothesis defineProperty_ok : preserves defineProperty.

Lemma mapValues_preserves (es : list (string * value)) (s s' : nat)
    (defs : list (string * value)) (props : list value) :
  Forall (fun x => spotless x = true) (map snd es) ->
  mapValues defineProperty es s = Ret ((defs, props), s') ->
  props = map snd es.
Proof.
  revert s s' defs props. induction es as [|[k x] es IH];
    intros s s' defs props F H; cbn in H.
  - apply ret_inv in H as [[= -> ->] _]. reflexivity.
  - inversion F as [|? ? Hx F']; subst.
    apply mbind_inv in H as ([d x'] & s1 & H1 & H).
    apply mbind_inv in H as ([ds ps] & s2 & H2 & H).
    apply ret_inv in H as [[= -> ->] _].
    apply defineProperty_ok in H1; [|exact Hx]. subst x'.
    cbn. f_equal. now apply (IH _ _ _ _ F' H2).
Qed.

Lemma defineProperties_body_preserves :
  preserves (defineProperties_body defineProperty).
Proof.
  intros v s r v' s' Hv H. unfold defineProperties_body in H.
  apply mbind_inv in H as (p & s1 & H1 & H).
  apply lift_inv in H1 as [H1 ->].
  apply drop_hidden_shown in H1; [|now apply spotless_elements]. subst p.
  apply mbind_inv in H as ([defs props] & s2 & H2 & H).
  apply ret_inv in H as [[= -> ->] _].
  apply mapValues_preserves in H2; [|now apply spotless_elements].
  subst props. apply with_elements_same.
Qed.

Lemma build_all_preserves (l : list value) (s s' : nat)
                          (rs l' : list value) :
  Forall (fun x => spotless x = true) l ->
  build_all build l s = Ret ((rs, l'), s') -> l' = l.
Proof.
  revert s s' rs l'. induction l as [|x l IH]; intros s s' rs l' F H;
    cbn in H.
  - apply ret_inv in H as [[= -> ->] _]. reflexivity.
  - inversion F as [|? ? Hx F']; subst.
    apply mbind_inv in H as ([r x'] & s1 & H1 & H).
    apply mbind_inv in H as ([rs' l''] & s2 & H2 & H).
    apply ret_inv in H as [[= -> ->] _].
    apply build_ok in H1; [|exact Hx]. subst x'.
    f_equal. now apply (IH _ _ _ _ F' H2).
Qed.

Lemma alternatives_preserves (alts : list value) (definition : value)
    (s s' : nat) (definition' : value) (ds alts' : list value) :
  Forall (fun x => spotless x = true) alts ->
  alternatives build defineProperty alts definition s
  = Ret ((definition', ds, alts'), s') ->
  alts' = alts.
Proof.
  revert definition s s' definition' ds alts'.
  induction alts as [|x alts IH]; intros definition s s' definition' ds alts' F H;
    cbn in H.
  - apply ret_inv in H as [[= -> -> ->] _]. reflexivity.
  - inversion F as [|? ? Hx F']; subst.
    destruct (nullish x); [discriminate|].
    apply mbind_inv in H as ([[d1 d] x'] & s1 & H1 & H).
    apply mbind_inv in H as ([[d2 ds'] alts''] & s2 & H2 & H).
    apply ret_inv in H as [[= -> -> ->] _].
    f_equal; [|now apply (IH _ _ _ _ _ _ F' H2)].
    destruct (_ || _).
    + apply mbind_inv in H1 as ([r x''] & s3 & H3 & H1).
      apply ret_inv in H1 as [[= -> -> ->] _].
      now apply build_ok in H3.
    + apply mbind_inv in H1 as ([r x''] & s3 & H3 & H1).
      destruct (nullish r); [discriminate|].
      apply ret_inv in H1 as [[= -> -> ->] _].
      now apply defineProperty_ok in H3.
Qed.

Lemma allOf_member_preserves (st st' : value * value * bool)
                             (schema schema' : value) (s s' : nat) :
  spotless schema = true ->
  allOf_member merge build st schema s = Ret ((st', schema'), s') ->
  schema' = schema.
Proof.
  intros Hs H. destruct st as [[self required] flag].
  unfold allOf_member in H.
  destruct (nullish schema); [discriminate|].
  apply mbind_inv in H as (required' & s1 & _ & H).
  apply mbind_inv in H as ([[self1 flag1] schema1] & s2 & H1 & H).
  assert (E1 : schema1 = schema).
  { destruct (is_false _).
    - apply mbind_inv in H1 as ([r x] & s3 & H3 & H1).
      apply ret_inv in H1 as [[= -> -> ->] _]. now apply build_ok in H3.
    - now apply ret_inv in H1 as [[= -> -> ->] _]. }
  subst schema1.
  apply mbind_inv in H as (self2 & s3 & _ & H).
  destruct (negb flag1).
  - apply mbind_inv in H as ([r x] & s4 & H4 & H).
    apply ret_inv in H as [[= -> ->] _]. now apply build_ok in H4.
  - now apply ret_inv in H as [[= -> ->] _].
Qed.

Lemma allOf_fold_preserves (members members' : list value)
    (st st' : value * value * bool) (s s' : nat) :
  Forall (fun x => spotless x = true) members ->
  allOf_fold merge build members st s = Ret ((st', members'), s') ->
  members' = members.
Proof.
  revert st s s' st' members'.
  induction members as [|x members IH]; intros st s s' st' members' F H;
    cbn in H.
  - apply ret_inv in H as [[= -> ->] _]. reflexivity.
  - inversion F as [|? ? Hx F']; subst.
    apply mbind_inv in H as ([st1 x'] & s1 & H1 & H).
    apply mbind_inv in H as ([st2 rest] & s2 & H2 & H).
    apply ret_inv in H as [[= -> ->] _].
    apply allOf_member_preserves in H1; [|exact Hx]. subst x'.
    f_equal. now apply (IH _ _ _ _ _ F' H2).
Qed.

Lemma own_properties_preserves (self self' holder holder' : value)
                               (s s' : nat) :
  spotless holder = true ->
  own_properties defineProperties self holder s = Ret ((self', holder'), s') ->
  holder' = holder.
Proof.
  intros Hh H. unfold own_properties in H.
  destruct (nullish self); [discriminate|].
  apply mbind_inv in H as ([defs props] & s1 & H1 & H).
  apply defineProperties_ok in H1; [|now apply spotless_field].
  subst props. rewrite put_back_same in H.
  destruct (Lodash.isPlainObject _).
  - apply mbind_inv in H as ([defs' addl] & s2 & H2 & H).
    apply ret_inv in H as [[= -> ->] _].
    apply defineProperties_ok in H2; [|now apply spotless_field].
    subst addl. apply put_back_same.
  - now apply ret_inv in H as [[= -> ->] _].
Qed.

Lemma resolve_preserves (self required object : value) (s s' : nat)
                        (self' required' object' : value) :
  spotless object = true ->
  resolve merge build defineProperties self required object s
  = Ret ((self', required', object'), s') ->
  object' = object.
Proof.
  intros Ho H. unfold resolve in H.
  apply mbind_inv in H as ([[self1 required1] object1] & s1 & H1 & H).
  assert (E1 : object1 = object).
  { destruct (field object "allOf") as [| | | | |elems| |] eqn:E;
      cbn [Lodash.isArray] in H1;
      try (now apply ret_inv in H1 as [[= -> -> ->] _]).
    apply mbind_inv in H1 as ([st members] & s0 & H0 & H1).
    apply ret_inv in H1 as [[= -> -> ->] _].
    apply allOf_fold_preserves in H0.
    - subst members. unfold elements. cbn [entries].
      rewrite map_snd_indexed, <- E. apply put_back_same.
    - rewrite <- E. now apply spotless_elements, spotless_field. }
  subst object1.
  apply mbind_inv in H as ([self2 object2] & s2 & H2 & H).
  assert (E2 : object2 = object).
  { destruct (_ || _).
    - apply mbind_inv in H2 as ([defs alts] & s0 & H0 & H2).
      destruct (nullish self1); [discriminate|].
      apply ret_inv in H2 as [[= -> ->] _].
      apply build_all_preserves in H0;
        [|now apply spotless_elements, spotless_field].
      subst alts. rewrite with_elements_same. apply put_back_same.
    - now apply ret_inv in H2 as [[= -> ->] _]. }
  subst object2.
  apply mbind_inv in H as ([self3 object3] & s3 & H3 & H).
  assert (E3 : object3 = object).
  { destruct (Lodash.isPlainObject (field object "properties")).
    - now apply own_properties_preserves in H3.
    - now apply ret_inv in H3 as [[= -> ->] _]. }
  subst object3.
  apply mbind_inv in H as ([self4 object4] & s4 & H4 & H).
  assert (E4 : object4 = object).
  { destruct (Lodash.isPlainObject (field object "additionalProperties")).
    - apply mbind_inv in H4 as ([addtl addl] & s0 & H0 & H4).
      destruct (nullish self3); [discriminate|].
      apply mbind_inv in H4 as (objs & s5 & _ & H4).
      apply ret_inv in H4 as [[= -> ->] _].
      apply defineProperties_ok in H0; [|now apply spotless_field].
      subst addl. apply put_back_same.
    - now apply ret_inv in H4 as [[= -> ->] _]. }
  subst object4.
  apply mbind_inv in H as ([self5 object5] & s5 & H5 & H).
  apply ret_inv in H as [[= -> -> ->] _].
  destruct (Lodash.isPlainObject (field object "items")).
  - apply mbind_inv in H5 as ([self6 items] & s0 & H0 & H5).
    apply ret_inv in H5 as [[= -> ->] _].
    apply own_properties_preserves in H0; [|now apply spotless_field].
    subst items. apply put_back_same.
  - now apply ret_inv in H5 as [[= -> ->] _].
Qed.

Lemma build_body_preserves :
  preserves (build_body format JSON_stringify random merge extract build
                        defineProperties).
Proof.
  intros v s r v' s' Hv H. unfold build_body in H.
  destruct (nullish v); [discriminate|].
  apply mbind_inv in H as (id & s1 & _ & H).
  destruct (is_true _).
  - now apply ret_inv in H as [[= -> ->] _].
  - apply mbind_inv in H as ([[self required] object] & s2 & H2 & H).
    apply mbind_inv in H as (self' & s3 & _ & H).
    apply ret_inv in H as [[= -> ->] _].
    now apply resolve_preserves in H2.
Qed.

Lemma defineProperty_body_preserves :
  preserves (defineProperty_body format mapPropertiesToExamples build
                                 defineProperties defineProperty).
Proof.
  intros v s r v' s' Hv H. unfold defineProperty_body in H.
  destruct (nullish v); [discriminate|].
  destruct (is_true _); [now apply ret_inv in H as [[= -> ->] _]|].
  apply mbind_inv in H as ([definition property] & s1 & H1 & H).
  assert (E : property = v).
  { destruct (truthy (field v "allOf")); [now apply build_ok in H1|].
    destruct (_ || _).
    - apply mbind_inv in H1 as ([[d ds] alts] & s0 & H0 & H1).
      apply ret_inv in H1 as [[= -> ->] _].
      apply alternatives_preserves in H0;
        [|now apply spotless_elements, spotless_field].
      subst alts. rewrite with_elements_same. apply put_back_same.
    - destruct (truthy (field v "properties")).
      + apply mbind_inv in H1 as ([defs props] & s0 & H0 & H1).
        apply ret_inv in H1 as [[= -> ->] _].
        apply defineProperties_ok in H0; [|now apply spotless_field].
        subst props. apply put_back_same.
      + destruct (_ && _).
        * apply mbind_inv in H1 as ([defs props] & s0 & H0 & H1).
          apply ret_inv in H1 as [[= -> ->] _].
          apply defineProperties_ok in H0;
            [|now apply spotless_field, spotless_field].
          subst props. rewrite !put_back_same. reflexivity.
        * now apply ret_inv in H1 as [[= -> ->] _]. }
  subst property.
  apply mbind_inv in H as (definition' & s2 & _ & H).
  apply mbind_inv in H as ([built property] & s3 & H3 & H).
  apply ret_inv in H as [[= -> ->] _].
  now apply build_ok in H3.
Qed.

End Frame.

Section Visibility.

Variable format : value -> option Z -> outcome string.
Variable JSON_stringify : value -> string.
Variable random : nat -> Z.
Variable merge : (value -> value -> value) -> value -> value -> value.

Local Abbreviation build :=
  (ObjectDefinition.build format JSON_stringify random merge).
Local Abbreviation defineProperties :=
  (ObjectDefinition.defineProperties format JSON_stringify random merge).
Local Abbreviation defineProperty :=
  (ObjectDefinition.defineProperty format JSON_stringify random merge).

(** In the embedding the functions of the resolver hand back unchanged
    every schema that has no [noDisplay === true] anywhere inside. *)
Lemma resolver_preserves_spotless (n : nat) :
  preserves (build n) /\ preserves (defineProperties n)
  /\ preserves (defineProperty n).
Proof.
  induction n as [|n (IHb & IHps & IHp)].
  - repeat split; intros v s r v' s' _ H; discriminate H.
  - split; [|split].
    + rewrite build_S. now apply build_body_preserves.
    + rewrite defineProperties_S. now apply defineProperties_body_preserves.
    + rewrite defineProperty_S. now apply defineProperty_body_preserves.
Qed.

(** What a call of [defineProperties] on a mapping returns and leaves. *)
Lemma defineProperties_mapping (n : nat) (P : list (string * value))
                               (s s' : nat) (defs after : value) :
  NoDup (map fst P) ->
  defineProperties (S n) (VObj P) s = Ret ((defs, after), s') ->
  exists ds ps,
    defs = VObj ds /\ after = VObj (combine (map fst (filter visible P)) ps)
    /\ map fst ds = map fst (filter visible P)
    /\ List.length ps = List.length (filter visible P)
    /\ Forall2 (fun p dq => resolved_by (defineProperty n) p
                                        (snd (fst dq)) (snd dq))
               (filter visible P) (combine ds ps).
Proof.
  intros Hnd H. rewrite defineProperties_S in H.
  unfold defineProperties_body in H. cbn [entries] in H.
  unfold mbind at 1, lift in H.
  destruct (drop_hidden P (VObj P)) as [v| |] eqn:D; try discriminate.
  apply drop_hidden_object in D. rewrite hidden_entries_of_mapping in D
    by exact Hnd. subst v. cbn [entries] in H.
  unfold mbind at 1 in H.
  destruct (mapValues (defineProperty n) (filter visible P) s)
    as [[[ds ps] s1]| |] eqn:MV; try discriminate.
  injection H as <- <- <-.
  destruct (mapValues_entries _ _ _ _ _ _ MV) as (Hk & Hl & Hf).
  exists ds, ps. cbn [with_elements]. now repeat split.
Qed.


End Visibility.

(** *** The partition of the properties *)

Lemma own_properties_closed_world
    (resolver : value -> M (value * value)) (self holder : value) (s : nat) :
  nullish self = false ->
  Lodash.isPlainObject (field holder "additionalProperties") = false ->
  own_properties resolver self holder s
  = match resolver (field holder "properties") s with
    | Ret ((defs, props), s1) =>
        Ret ((extend_allProps defs
                (if is_false (field holder "additionalProperties")
                 then set_field "allProps" (VObj []) self else self),
              put_back "properties" props holder), s1)
    | Throw e => Throw e
    | OutOfFuel => OutOfFuel
    end.
Proof.
  intros Hself Haddl. unfold own_properties. rewrite Hself.
  unfold mbind.
  destruct (resolver (field holder "properties") s)
    as [[[defs props] s1]| |]; try reflexivity.
  rewrite field_put_back_other by discriminate.
  now rewrite Haddl.
Qed.

Section Partition.

Variable format : value -> option Z -> outcome string.
Variable JSON_stringify : value -> string.
Variable random : nat -> Z.
Variable merge : (value -> value -> value) -> value -> value -> value.

Local Abbreviation build :=
  (ObjectDefinition.build format JSON_stringify random merge).
Local Abbreviation defineProperties :=
  (ObjectDefinition.defineProperties format JSON_stringify random merge).
Local Abbreviation defineProperty :=
  (ObjectDefinition.defineProperty format JSON_stringify random merge).

(** The definition [build] returns for a node with own properties only. *)
Lemma build_own_properties (n : nat) (o P : list (string * value))
                           (s s' : nat) (r left : value) :
  NoDup (map fst P) ->
  is_true (field (VObj o) "noDisplay") = false ->
  has_key (VObj o) "allOf" = false ->
  has_key (VObj o) "oneOf" = false ->
  has_key (VObj o) "anyOf" = false ->
  field (VObj o) "properties" = VObj P ->
  Lodash.isPlainObject (field (VObj o) "additionalProperties") = false ->
  Lodash.isPlainObject (field (VObj o) "items") = false ->
  build (S n) (VObj o) s = Ret ((r, left), s') ->
  exists A,
    map fst A = map fst (filter visible P)
    /\ field r "allProps" = (if Lodash.isEmpty (VObj A) then VUndef else VObj A)
    /\ field r "requiredProps"
       = null_if_empty (Lodash.pick (VObj A)
                          (or_else (field (VObj o) "required") (VArr [])))
    /\ field r "optionalProps"
       = null_if_empty (Lodash.omit (VObj A)
                          (or_else (field (VObj o) "required") (VArr [])))
    /\ exists f, r = VObj f.
Proof.
  intros Hnd Hshow HallOf HoneOf HanyOf Hprops Haddl Hitems H.
  rewrite build_S in H. unfold build_body in H. cbn [nullish] in H.
  unfold mbind at 1, draw in H. rewrite Hshow in H.
  unfold mbind at 1 in H.
  unfold resolve in H.
  rewrite (field_absent _ _ HallOf) in H. cbn [Lodash.isArray] in H.
  rewrite mbind_ret in H.
  rewrite (field_absent _ _ HoneOf), (field_absent _ _ HanyOf) in H.
  cbn [Lodash.isArray orb] in H. rewrite mbind_ret in H.
  rewrite Hprops in H. cbn [Lodash.isPlainObject] in H.
  unfold mbind at 1 in H.
  rewrite own_properties_closed_world in H by (reflexivity || exact Haddl).
  rewrite Hprops in H.
  destruct (defineProperties n (VObj P) (S s))
    as [[[defs props] s1]| |] eqn:DP; try discriminate.
  destruct n as [|n]; [discriminate|].
  destruct (defineProperties_mapping _ _ _ _ _ _ _ _ _ _ Hnd DP)
    as (ds & ps & -> & -> & Hk & Hl & Hf).
  rewrite field_put_back_other in H by discriminate.
  rewrite Haddl in H. rewrite mbind_ret in H.
  rewrite field_put_back_other in H by discriminate.
  rewrite Hitems in H. rewrite mbind_ret in H.
  unfold ret at 1 in H.
  assert (Hself : extend_allProps (VObj ds)
                    (if is_false (field (VObj o) "additionalProperties")
                     then set_field "allProps" (VObj []) (initial_self (random s))
                     else initial_self (random s))
                  = set_field "allProps" (VObj ds) (initial_self (random s))).
  { assert (E : set_field "allProps" (VObj []) (initial_self (random s))
                = initial_self (random s)) by reflexivity.
    destruct (is_false _); rewrite ?E; unfold extend_allProps;
      cbn [field initial_self entries lookup String.eqb Ascii.eqb Bool.eqb];
      rewrite extend_empty; try reflexivity;
      rewrite Hk; now apply visible_keys_distinct. }
  rewrite Hself in H. clear Hself.
  unfold mbind, lift in H.
  destruct (finalize _ _ _ _ _ _) as [r'| |] eqn:Fin; try discriminate.
  unfold ret in H. injection H as <- <- <-.
  pose proof (finalize_object _ _ _ _ _ _ _ Fin) as Hobj.
  apply finalize_fields in Fin.
  rewrite !field_assoc_same in Fin.
  exists ds. split; [exact Hk|]. tauto.
Qed.

(** C1, amended: for a node that is displayed, has a [properties] mapping
    [P] and no [allOf], [oneOf] or [anyOf], whose [additionalProperties]
    and [items] are not mappings, and whose required names [R] are
    names of [P], none of them the name of a member of
    [Object.prototype] unless it is the key of a displayed property, the
    definition [build] returns has as keys of [allProps] the keys of the
    properties not flagged [noDisplay]; [requiredProps] and
    [optionalProps] are the restrictions of [allProps] to the required
    names and to the others, [null] when empty, disjoint and covering
    [allProps]. *)
Theorem build_partitions_own_properties (n : nat)
    (o P : list (string * value)) (s s' : nat) (r left : value) :
  NoDup (map fst P) ->
  is_true (field (VObj o) "noDisplay") = false ->
  has_key (VObj o) "allOf" = false ->
  has_key (VObj o) "oneOf" = false ->
  has_key (VObj o) "anyOf" = false ->
  field (VObj o) "properties" = VObj P ->
  Lodash.isPlainObject (field (VObj o) "additionalProperties") = false ->
  Lodash.isPlainObject (field (VObj o) "items") = false ->
  incl (required_names (VObj o)) (map fst P) ->
  (forall k, In k (required_names (VObj o)) ->
             own_or_missing (VObj (filter visible P)) k) ->
  build (S n) (VObj o) s = Ret ((r, left), s') ->
  let R := required_names (VObj o) in
  let all := field r "allProps" in
  let req := field r "requiredProps" in
  let opt := field r "optionalProps" in
  keys all = map fst (filter visible P)
  /\ (forall k, In k (keys req) <-> In k (keys all) /\ In k R)
  /\ keys opt = filter (fun k => negb (listed R k)) (keys all)
  /\ (forall k, In k (keys req) -> field req k = field all k)
  /\ (forall k, In k (keys opt) -> field opt k = field all k)
  /\ (req = VNull <-> forall k, In k (keys all) -> ~ In k R)
  /\ (opt = VNull <-> forall k, In k (keys all) -> In k R)
  /\ (forall k, ~ (In k (keys req) /\ In k (keys opt)))
  /\ (forall k, In k (keys all) <-> In k (keys req) \/ In k (keys opt)).
Proof.
  intros Hnd Hshow HallOf HoneOf HanyOf Hprops Haddl Hitems _ Hown H
         R all req opt.
  destruct (build_own_properties n o P s s' r left Hnd Hshow HallOf
              HoneOf HanyOf Hprops Haddl Hitems H)
    as (A & HA & Hall & Hreq & Hopt & _).
  fold all in Hall. fold req in Hreq. fold opt in Hopt.
  assert (HownA : forall k, In k R -> own_or_missing (VObj A) k).
  { intros k Hk Hi. destruct (Hown k Hk Hi) as [H1 H2].
    split; [|exact H2]. unfold has_key, keys in *. cbn [entries] in *.
    now rewrite HA. }
  unfold required_names in R.
  assert (Kall : keys all = map fst A).
  { rewrite Hall. now destruct A. }
  assert (Fall : forall k, field all k = field (VObj A) k).
  { intros k. rewrite Hall. now destruct A. }
  assert (Kreq : forall k, In k (keys req) <-> In k (map fst A) /\ In k R).
  { intros k. rewrite Hreq, keys_null_if_empty. unfold Lodash.pick.
    cbn [nullish keys entries]. fold R.
    destruct (pick_fold A R [] HownA) as [P1 _]. rewrite (P1 k). cbn. tauto. }
  assert (Kopt : keys opt = filter (fun k => negb (listed R k)) (map fst A)).
  { rewrite Hopt, keys_null_if_empty. unfold Lodash.omit.
    cbn [nullish keys entries]. fold R. apply map_fst_filter_kept. }
  assert (Kopt_in : forall k, In k (keys opt)
                              <-> In k (map fst A) /\ ~ In k R).
  { intros k. rewrite Kopt, filter_In. unfold listed. split.
    - intros [HIn Hn]. split; [exact HIn|].
      apply existsb_eqb_false. now destruct (existsb _ R).
    - intros [HIn Hn]. split; [exact HIn|].
      destruct (existsb (String.eqb k) R) eqn:X; [|reflexivity].
      apply existsb_exists in X as (k' & Hk' & E).
      apply String.eqb_eq in E. now subst. }
  rewrite Kall.
  split; [exact HA|]. split; [exact Kreq|]. split; [exact Kopt|].
  split.
  { intros k Hk. rewrite Fall, Hreq, field_null_if_empty.
    apply Kreq in Hk as [HkA HkR].
    unfold Lodash.pick. cbn [nullish]. fold R.
    destruct (pick_fold A R [] HownA) as [P1 P2].
    assert (HIn : In k (map fst (fold_left (Lodash.pick_step (VObj A)) R []))).
    { apply P1. now right. }
    apply lookup_in in HIn as (x & Hx). unfold field at 1. cbn [entries].
    rewrite Hx. apply P2 in Hx; [exact Hx|]. intros ? ? E. discriminate E. }
  split.
  { intros k Hk. rewrite Fall, Hopt, field_null_if_empty.
    apply Kopt_in in Hk as [HkA HkR].
    rewrite omit_object. fold R. unfold field. cbn [entries].
    now rewrite lookup_filter_kept. }
  split.
  { split.
    - intros Hnull k HkA HkR.
      assert (HIn : In k (keys req)) by now apply Kreq.
      now rewrite Hnull in HIn.
    - intros Hnone. rewrite Hreq. unfold Lodash.pick. cbn [nullish]. fold R.
      apply null_if_empty_object.
      destruct (fold_left _ R []) as [|[k x] l] eqn:F; [reflexivity|].
      exfalso. destruct (pick_fold A R [] HownA) as [P1 _].
      assert (HIn : In k (map fst (fold_left (Lodash.pick_step (VObj A))
                                             R [])))
        by (rewrite F; now left).
      apply P1 in HIn as [[]|[HkR HkA]]. now apply (Hnone k). }
  split.
  { split.
    - intros Hnull k HkA.
      destruct (in_dec string_dec k R) as [HkR|HkR]; [exact HkR|].
      assert (HIn : In k (keys opt)) by now apply Kopt_in.
      now rewrite Hnull in HIn.
    - intros Hall'. rewrite Hopt, omit_object. fold R.
      apply null_if_empty_object.
      destruct (filter (kept R) A) as [|[k x] l] eqn:F; [reflexivity|].
      exfalso.
      assert (HIn : In k (keys opt)).
      { rewrite Hopt, keys_null_if_empty, omit_object. fold R.
        unfold keys. cbn [entries]. rewrite F. now left. }
      apply Kopt_in in HIn as [HkA HkR]. now apply HkR, Hall'. }
  split.
  { intros k [Hr Ho]. apply Kreq in Hr as [_ Hr].
    apply Kopt_in in Ho as [_ Ho]. contradiction. }
  intros k. split.
  - intros HkA. destruct (in_dec string_dec k R) as [HkR|HkR].
    + left. now apply Kreq.
    + right. now apply Kopt_in.
  - intros [Hk|Hk]; [apply Kreq in Hk | apply Kopt_in in Hk]; tauto.
Qed.

End Partition.

(** *** The [allOf] fold *)

Section AllOfFold.

Variable merge : (value -> value -> value) -> value -> value -> value.
Variable callee : value -> M (value * value).

Lemma closed_not_nullish (schema : value) :
  is_false (field schema "additionalProperties") = true ->
  nullish schema = false.
Proof. now destruct schema. Qed.

(** A closed member: the step does not look at the accumulator, the flag
    or [_.merge]; it returns the build of the member, less the keys the
    member hides, and raises the flag. *)
Lemma allOf_member_closed (schema self required : value) (flag : bool)
                          (s : nat) :
  is_false (field schema "additionalProperties") = true ->
  (forall merge' self' flag',
      allOf_member merge callee (self, required, flag) schema s
      = allOf_member merge' callee (self', required, flag') schema s)
  /\ (forall st left s',
         allOf_member merge callee (self, required, flag) schema s
         = Ret ((st, left), s') ->
         snd st = true
         /\ exists r, callee schema s = Ret ((r, left), s')
                      /\ strip_hidden (entries (field left "properties")) r
                         = Ret (fst (fst st))).
Proof.
  intros Hc. pose proof (closed_not_nullish _ Hc) as Hn.
  split.
  - intros merge' self' flag'. unfold allOf_member. rewrite Hn, Hc.
    destruct (concat required _); [|reflexivity].
    unfold mbind, ret, lift.
    destruct (callee schema s) as [[[r left] s1]| |]; reflexivity.
  - intros st left s'. unfold allOf_member. rewrite Hn, Hc.
    destruct (concat required _); [|discriminate].
    unfold mbind, ret, lift.
    destruct (callee schema s) as [[[r left'] s1]| |]; try discriminate.
    destruct (strip_hidden _ r) eqn:SH; try discriminate.
    cbn. intros H. injection H as <- <- <-. cbn. split; [reflexivity|].
    now exists r.
Qed.

(** Once the flag is raised a step never consults [_.merge], and the
    flag stays raised. *)
Lemma allOf_member_suppressed (schema self required : value) (s : nat) :
  (forall merge',
      allOf_member merge callee (self, required, true) schema s
      = allOf_member merge' callee (self, required, true) schema s)
  /\ (forall st left s',
         allOf_member merge callee (self, required, true) schema s
         = Ret ((st, left), s') -> snd st = true).
Proof.
  split.
  - intros merge'. unfold allOf_member.
    destruct (nullish schema); [reflexivity|].
    destruct (concat required _); [|reflexivity].
    unfold mbind, ret, lift.
    destruct (is_false _).
    + destruct (callee schema s) as [[[r left] s1]| |]; reflexivity.
    + destruct (strip_hidden _ self); reflexivity.
  - intros st left s'. unfold allOf_member.
    destruct (nullish schema); [discriminate|].
    destruct (concat required _); [|discriminate].
    unfold mbind, ret, lift.
    destruct (is_false _).
    + destruct (callee schema s) as [[[r left'] s1]| |]; try discriminate.
      destruct (strip_hidden _ r); try discriminate.
      cbn. intros H. now injection H as <- <- <-.
    + destruct (strip_hidden _ self); try discriminate.
      cbn. intros H. now injection H as <- <- <-.
Qed.

Lemma allOf_fold_suppressed (members : list value) (self required : value)
                            (s : nat)
    (merge' : (value -> value -> value) -> value -> value -> value) :
  allOf_fold merge callee members (self, required, true) s
  = allOf_fold merge' callee members (self, required, true) s.
Proof.
  revert self required s.
  induction members as [|schema rest IH]; intros self required s;
    [reflexivity|].
  cbn [allOf_fold]. unfold mbind at 1 3.
  destruct (allOf_member_suppressed schema self required s) as [E F].
  rewrite <- (E merge').
  destruct (allOf_member merge callee (self, required, true) schema s)
    as [[[[[self1 required1] flag1] left] s1]| |] eqn:Step;
    try reflexivity.
  pose proof (F _ _ _ eq_refl) as Hflag. cbn in Hflag. subst flag1.
  unfold mbind. now rewrite IH.
Qed.

End AllOfFold.

(** *** A closed second member *)

Section ClosedSecondMember.

Variable format : value -> option Z -> outcome string.
Variable JSON_stringify : value -> string.
Variable random : nat -> Z.
Variable merge : (value -> value -> value) -> value -> value -> value.

Local Abbreviation build :=
  (ObjectDefinition.build format JSON_stringify random merge).

(** With [allOf: [m1, m2]] and nothing else, where [m2] is closed, has
    the properties [P] and hides nothing, the keys of [allProps] are the
    keys of [P], whatever [m1] is. *)
Lemma closed_second_member_decides (n : nat) (m1 : value)
    (m2 P : list (string * value)) (s s' : nat) (r left : value) :
  NoDup (map fst P) ->
  spotless (VObj m2) = true ->
  field (VObj m2) "additionalProperties" = VBool false ->
  field (VObj m2) "properties" = VObj P ->
  has_key (VObj m2) "allOf" = false ->
  has_key (VObj m2) "oneOf" = false ->
  has_key (VObj m2) "anyOf" = false ->
  Lodash.isPlainObject (field (VObj m2) "items") = false ->
  build (S (S n)) (VObj [("allOf", VArr [m1; VObj m2])]) s
  = Ret ((r, left), s') ->
  keys (field r "allProps") = map fst P.
Proof.
  intros Hnd Hspot Hclosed Hprops HallOf HoneOf HanyOf Hitems H.
  rewrite build_S in H. unfold build_body in H. cbn [nullish] in H.
  apply mbind_inv in H as (id & s1 & _ & H).
  change (is_true (field (VObj [("allOf", VArr [m1; VObj m2])]) "noDisplay"))
    with false in H.
  apply mbind_inv in H as ([[self required] object] & s2 & Hres & H).
  apply mbind_inv in H as (self' & s3 & Hfin & H).
  apply ret_inv in H as [[= -> ->] _].
  apply lift_inv in Hfin as [Hfin _].
  unfold resolve in Hres.
  apply mbind_inv in Hres as ([[self1 required1] object1] & s4 & H1 & Hres).
  change (field (VObj [("allOf", VArr [m1; VObj m2])]) "allOf")
    with (VArr [m1; VObj m2]) in H1.
  cbn [Lodash.isArray] in H1.
  change (elements (VArr [m1; VObj m2])) with [m1; VObj m2] in H1.
  apply mbind_inv in H1 as ([st members] & s5 & Hfold & H1).
  apply ret_inv in H1 as [[= -> -> ->] _].
  cbn [allOf_fold] in Hfold.
  apply mbind_inv in Hfold as ([st1 m1'] & s6 & Hm1 & Hfold).
  apply mbind_inv in Hfold as ([st2 rest] & s7 & Hrest & Hfold).
  apply ret_inv in Hfold as [[= -> ->] _].
  apply mbind_inv in Hrest as ([st3 m2'] & s8 & Hm2 & Hrest).
  apply mbind_inv in Hrest as ([st4 rest'] & s9 & Hnil & Hrest).
  apply ret_inv in Hrest as [[= -> ->] _].
  apply ret_inv in Hnil as [[= -> ->] _].
  destruct st1 as [[self1 required1] flag1].
  assert (Hc : is_false (field (VObj m2) "additionalProperties") = true)
    by now rewrite Hclosed.
  destruct (allOf_member_closed merge (build (S n)) (VObj m2) self1 required1
              flag1 s6 Hc) as [_ Hstep].
  destruct (Hstep _ _ _ Hm2) as (Hflag & r2 & Hb2 & Hstrip).
  assert (E : m2' = VObj m2).
  { destruct (resolver_preserves_spotless format JSON_stringify random merge
                (S n)) as (Hb & _ & _).
    exact (Hb _ _ _ _ _ Hspot Hb2). }
  subst m2'. rewrite Hprops in Hstrip. cbn [entries] in Hstrip.
  assert (HP : Forall (fun x => spotless x = true) (map snd P)).
  { pose proof (spotless_field _ "properties" Hspot) as X.
    rewrite Hprops in X. exact (spotless_elements _ X). }
  apply strip_hidden_shown in Hstrip; [|exact HP].
  assert (Hshow : is_true (field (VObj m2) "noDisplay") = false).
  { apply spotless_shown in Hspot. now apply negb_true_iff in Hspot. }
  assert (Haddl : Lodash.isPlainObject (field (VObj m2) "additionalProperties")
                  = false) by now rewrite Hclosed.
  destruct (build_own_properties format JSON_stringify random merge
              n m2 P s6 s8 r2 (VObj m2) Hnd Hshow HallOf HoneOf HanyOf Hprops
              Haddl Hitems Hb2) as (A & HA & Hall & _ & _ & (f2 & ->)).
  rewrite filter_visible_spotless in HA by exact HP.
  destruct st3 as [[self3 required3] flag3]. cbn in Hstrip, Hflag.
  subst self3 flag3. cbn [fst snd] in Hres.
  change (put_back "allOf" (VArr [m1'; VObj m2])
            (VObj [("allOf", VArr [m1; VObj m2])]))
    with (VObj [("allOf", VArr [m1'; VObj m2])]) in Hres.
  change (field (VObj [("allOf", VArr [m1'; VObj m2])]) "oneOf")
    with VUndef in Hres.
  change (field (VObj [("allOf", VArr [m1'; VObj m2])]) "anyOf")
    with VUndef in Hres.
  cbn [Lodash.isArray orb] in Hres. rewrite mbind_ret in Hres.
  change (field (VObj [("allOf", VArr [m1'; VObj m2])]) "properties")
    with VUndef in Hres.
  cbn [Lodash.isPlainObject] in Hres. rewrite mbind_ret in Hres.
  change (field (VObj [("allOf", VArr [m1'; VObj m2])])
                "additionalProperties")
    with VUndef in Hres.
  cbn [Lodash.isPlainObject] in Hres. rewrite mbind_ret in Hres.
  change (field (VObj [("allOf", VArr [m1'; VObj m2])]) "items")
    with VUndef in Hres.
  cbn [Lodash.isPlainObject] in Hres. rewrite mbind_ret in Hres.
  apply ret_inv in Hres as [[= -> -> ->] _].
  apply finalize_fields in Hfin as (Hfall & _).
  rewrite Hfall, Hall, <- HA.
  destruct A; reflexivity.
Qed.

End ClosedSecondMember.

(** C2: in the [allOf] fold of [build] a member with
    [additionalProperties === false] replaces the accumulator by its own
    build, whatever had been merged, and raises the flag; from then on no
    member is merged: the rest of the fold never consults [_.merge].
    For [allOf: [m1, m2]] with [m2] closed and declaring the properties
    [P], the keys of [allProps] are those of [P]; for
    [{allOf: [{properties: {a: ..}}, {additionalProperties: false,
    properties: {c: ..}}]}] they are exactly [c]. *)
Theorem allOf_closed_member_replaces_accumulator
    (JSON_stringify : value -> string) (random : nat -> Z)
    (merge : (value -> value -> value) -> value -> value -> value) :
  (forall callee schema self required flag s,
      is_false (field schema "additionalProperties") = true ->
      (forall merge' self' flag',
          ObjectDefinition.allOf_member merge callee (self, required, flag)
                                        schema s
          = ObjectDefinition.allOf_member merge' callee
                                          (self', required, flag') schema s)
      /\ (forall st left s',
             ObjectDefinition.allOf_member merge callee
                                           (self, required, flag) schema s
             = Ret ((st, left), s') ->
             snd st = true
             /\ exists r,
                  callee schema s = Ret ((r, left), s')
                  /\ ObjectDefinition.strip_hidden
                       (entries (field left "properties")) r
                     = Ret (fst (fst st))))
  /\ (forall callee members self required s merge',
         ObjectDefinition.allOf_fold merge callee members
                                     (self, required, true) s
         = ObjectDefinition.allOf_fold merge' callee members
                                       (self, required, true) s)
  /\ (forall format n m1 m2 P s s' r left,
         NoDup (map fst P) ->
         spotless (VObj m2) = true ->
         field (VObj m2) "additionalProperties" = VBool false ->
         field (VObj m2) "properties" = VObj P ->
         has_key (VObj m2) "allOf" = false ->
         has_key (VObj m2) "oneOf" = false ->
         has_key (VObj m2) "anyOf" = false ->
         Lodash.isPlainObject (field (VObj m2) "items") = false ->
         ObjectDefinition.build format JSON_stringify random merge
                                (S (S n))
                                (VObj [("allOf", VArr [m1; VObj m2])]) s
         = Ret ((r, left), s') ->
         keys (field r "allProps") = map fst P)
  /\ (forall (text : value -> string) n s,
         exists r left s',
           ObjectDefinition.build (fun v _ => Ret (text v)) JSON_stringify
                                  random merge (7 + n)
                                  Examples.closed_second s
           = Ret ((r, left), s')
           /\ keys (field r "allProps") = ["c"]).
Proof.
  split; [|split; [|split]].
  - intros callee schema self required flag s Hc.
    now apply allOf_member_closed.
  - intros. apply allOf_fold_suppressed.
  - intros format n m1 m2 P s s' r left.
    apply closed_second_member_decides.
  - intros text n s. eexists _, _, _. split; vm_compute; reflexivity.
Qed.

Lemma allOf_closed_member_replaces_accumulator_witness :
  is_false (field Examples.closed_member "additionalProperties") = true
  /\ (forall self self' flag flag',
        ObjectDefinition.allOf_member Reference.merge (Reference.build 5)
          (self, VArr [], flag) Examples.closed_member 0
        = ObjectDefinition.allOf_member (fun _ a _ => a) (Reference.build 5)
            (self', VArr [], flag') Examples.closed_member 0)
  /\ exists r left s',
       Reference.build 7 Examples.closed_second 0 = Ret ((r, left), s')
       /\ keys (field r "allProps") = ["c"].
Proof.
  destruct (allOf_closed_member_replaces_accumulator
              Reference.JSON_stringify Reference.random Reference.merge)
    as (Hclosed & _ & Htwo & _).
  split; [reflexivity|]. split.
  - intros self self' flag flag'.
    destruct (Hclosed (Reference.build 5) Examples.closed_member self
                      (VArr []) flag 0 eq_refl) as [Hsame _].
    apply Hsame.
  - destruct (Reference.build 7 Examples.closed_second 0)
      as [[[r left] s']| |] eqn:B;
      [|vm_compute in B; discriminate B..].
    exists r, left, s'. split; [reflexivity|].
    refine (Htwo Reference.format 5 Examples.open_member
              [("additionalProperties", VBool false);
               ("properties", VObj [("c", Examples.string_schema)])]
              [("c", Examples.string_schema)] 0 s' r left
              _ eq_refl eq_refl eq_refl eq_refl eq_refl eq_refl eq_refl B).
    repeat constructor. cbn. tauto.
Defined.

Lemma build_partitions_own_properties_witness :
  exists r left s',
    Reference.build 6 (VObj Examples.partitioned) 0 = Ret ((r, left), s')
    /\ keys (field r "allProps") = ["a"; "c"]
    /\ keys (field r "requiredProps") = ["a"]
    /\ keys (field r "optionalProps") = ["c"].
Proof.
  assert (Hnd : NoDup (map fst Examples.three_properties)).
  { repeat (constructor; [cbn; intuition discriminate|]). constructor. }
  assert (Hincl : incl (required_names (VObj Examples.partitioned))
                       (map fst Examples.three_properties)).
  { intros k [<-|[]]. now left. }
  assert (Hown : forall k,
             In k (required_names (VObj Examples.partitioned)) ->
             own_or_missing (VObj (filter visible Examples.three_properties))
                            k).
  { intros k [<-|[]] Hi. discriminate Hi. }
  destruct (Reference.build 6 (VObj Examples.partitioned) 0)
    as [[[r left] s']| |] eqn:B;
    [|vm_compute in B; discriminate B..].
  destruct (build_partitions_own_properties
              Reference.format Reference.JSON_stringify Reference.random
              Reference.merge 5 Examples.partitioned
              Examples.three_properties 0 s' r left Hnd
              eq_refl eq_refl eq_refl eq_refl eq_refl eq_refl eq_refl
              Hincl Hown B)
    as (Hall & _ & Hopt & _).
  exists r, left, s'. split; [reflexivity|]. split; [exact Hall|].
  split.
  - vm_compute in B. injection B as <- _ _. reflexivity.
  - rewrite Hopt, Hall. reflexivity.
Defined.

(** C1 as stated fails on two counts.  When [additionalProperties] is a
    schema: for [{properties: {a: {}}, required: [],
    additionalProperties: {b: {}}}], which has no [allOf], [oneOf] or
    [anyOf], the keys of [allProps] are [a] and [b].  And when a
    required name is the name of a member of [Object.prototype] and of
    no displayed property: for [{properties: {toString: {noDisplay:
    true}}, required: ["toString"]}] there is no key in [allProps],
    which is undefined, and [requiredProps] is not [null]: it binds
    [toString] to the built-in function. *)
Lemma build_partition_refuted :
  (has_key Examples.with_additional "allOf" = false
   /\ has_key Examples.with_additional "oneOf" = false
   /\ has_key Examples.with_additional "anyOf" = false
   /\ field Examples.with_additional "properties" = VObj [("a", VObj [])]
   /\ required_names Examples.with_additional = []
   /\ exists r left s',
        Reference.build 6 Examples.with_additional 0 = Ret ((r, left), s')
        /\ keys (field r "allProps") = ["a"; "b"]
        /\ keys (field r "allProps")
           <> map fst (filter visible [("a", VObj [])]))
  /\ (has_key Examples.hidden_toString "allOf" = false
      /\ has_key Examples.hidden_toString "oneOf" = false
      /\ has_key Examples.hidden_toString "anyOf" = false
      /\ field Examples.hidden_toString "properties"
         = VObj [("toString", VObj [("noDisplay", VBool true)])]
      /\ required_names Examples.hidden_toString = ["toString"]
      /\ exists r left s',
           Reference.build 6 Examples.hidden_toString 0
           = Ret ((r, left), s')
           /\ field r "allProps" = VUndef
           /\ field r "requiredProps"
              = VObj [("toString", VFun "toString")]
           /\ field r "requiredProps" <> VNull).
Proof.
  split.
  - repeat (split; [reflexivity|]).
    eexists _, _, _. split; [vm_compute; reflexivity|].
    split; [reflexivity|]. discriminate.
  - repeat (split; [reflexivity|]).
    eexists _, _, _. split; [vm_compute; reflexivity|].
    split; [reflexivity|]. split; [reflexivity|]. discriminate.
Qed.

Lemma build_reports_schema_and_cause_witness :
  Reference.build 3 Examples.array_without_items 0
  = Throw (Error ("Error preparing data for object: "
                  ++ Reference.JSON_stringify Examples.array_without_items
                  ++ " " ++ "No schema received to generate example data")).
Proof.
  edestruct (build_reports_schema_and_cause
               Reference.format Reference.JSON_stringify Reference.random
               Reference.merge 2 Examples.array_without_items)
    as (msg & Hbuild & Hmsg & _).
  - reflexivity.
  - reflexivity.
  - vm_compute. reflexivity.
  - reflexivity.
  - left. vm_compute. reflexivity.
  - rewrite Hbuild, Hmsg. reflexivity.
Defined.



(** * Further properties *)

(** ** cURL strings: query strings, methods and flags *)

Lemma length_append (a b : string) :
  String.length (a ++ b) = String.length a + String.length b.
Proof. induction a as [|c a IH]; cbn; [reflexivity | now rewrite IH]. Qed.

Lemma eqb_append_longer (a b : string) :
  b <> EmptyString -> String.eqb (a ++ b) a = false.
Proof.
  intros Hb. apply String.eqb_neq. intros E.
  apply (f_equal String.length) in E. rewrite length_append in E.
  destruct b; [congruence | cbn in E; lia].
Qed.

(** Once a pair has been written the accumulator differs from the
    initial separator, so every later pair is preceded by [&]. *)
Lemma query_fold (firstJoin : string) (l : list (string * value)) (t : string) :
  t <> EmptyString ->
  fold_left (fun str p =>
               let conn := if String.eqb str firstJoin then EmptyString
                           else "&" in
               str ++ conn ++ fst p ++ "=" ++ to_string (snd p))
            l (firstJoin ++ t)
  = firstJoin ++ join "&" (t :: map query_pair l).
Proof.
  set (step := fun str p => _).
  revert t. induction l as [|p l IH]; intros t Ht.
  - reflexivity.
  - cbn [fold_left map].
    assert (E : step (firstJoin ++ t) p
                = firstJoin ++ (t ++ "&" ++ query_pair p)).
    { unfold step. cbv zeta. rewrite eqb_append_longer by exact Ht.
      now rewrite append_assoc. }
    rewrite E, IH.
    + f_equal. cbn [join].
      destruct (map query_pair l); cbn [join].
      * reflexivity.
      * now rewrite !append_assoc.
    + destruct t; [congruence | discriminate].
Qed.

Lemma buildQueryString_text (data : value) (noQueryString : bool) :
  Curl.buildQueryString data noQueryString
  = (if noQueryString then "&" else "?")
    ++ join "&" (map query_pair (entries data)).
Proof.
  unfold Curl.buildQueryString. cbv zeta.
  set (fj := if noQueryString then "&" else "?").
  destruct (entries data) as [|p l].
  - cbn. now rewrite append_empty_r.
  - cbn [fold_left map]. rewrite String.eqb_refl.
    change (fj ++ EmptyString ++ fst p ++ "=" ++ to_string (snd p))
      with (fj ++ query_pair p).
    rewrite query_fold; [reflexivity|].
    unfold query_pair. destruct (fst p); discriminate.
Qed.

(** X1: [buildQueryString] writes the leading separator ([?], or [&]
    when [noQueryString] is set) followed by the [key=value] pairs of
    the data in iteration order, joined by [&]: no separator before the
    first pair, none after the last, nothing escaped; data without
    entries gives the separator alone. *)
Theorem buildQueryString_joined (data : value) (noQueryString : bool) :
  Curl.buildQueryString data noQueryString
  = (if noQueryString then "&" else "?")
    ++ join "&" (map query_pair (entries data))
  /\ (entries data = [] ->
      Curl.buildQueryString data noQueryString
      = if noQueryString then "&" else "?").
Proof.
  split; [apply buildQueryString_text|].
  intros E. rewrite buildQueryString_text, E. cbn [map join].
  apply append_empty_r.
Qed.

Lemma first_line_requested (uri : string) (method : option string) :
  first_line uri method
  = "curl -X " ++ toUpperCase (requested method) ++ " " ++ dquote ++ uri
    ++ dquote.
Proof. reflexivity. Qed.

Lemma lower_upper_ascii (c : ascii) :
  to_lower_ascii (to_upper_ascii c) = to_lower_ascii c
  /\ to_upper_ascii (to_lower_ascii c) = to_upper_ascii c
  /\ to_lower_ascii (to_lower_ascii c) = to_lower_ascii c
  /\ to_upper_ascii (to_upper_ascii c) = to_upper_ascii c.
Proof.
  destruct c as [[] [] [] [] [] [] [] []]; vm_compute; repeat split.
Qed.

Lemma case_mappings_compose (m : string) :
  toLowerCase (toUpperCase m) = toLowerCase m
  /\ toUpperCase (toLowerCase m) = toUpperCase m
  /\ toLowerCase (toLowerCase m) = toLowerCase m
  /\ toUpperCase (toUpperCase m) = toUpperCase m.
Proof.
  unfold toLowerCase, toUpperCase.
  induction m as [|c m (IH1 & IH2 & IH3 & IH4)]; cbn; [repeat split|].
  destruct (lower_upper_ascii c) as (H1 & H2 & H3 & H4).
  rewrite IH1, IH2, IH3, IH4, H1, H2, H3, H4. repeat split.
Qed.

Lemma map_string_empty (f : ascii -> ascii) (m : string) :
  String.eqb (map_string f m) EmptyString = String.eqb m EmptyString.
Proof. now destruct m. Qed.

Lemma requested_case (m : string) :
  toLowerCase (requested (Some (toLowerCase m)))
  = toLowerCase (requested (Some m))
  /\ toUpperCase (requested (Some (toLowerCase m)))
     = toUpperCase (requested (Some m))
  /\ toLowerCase (requested (Some (toUpperCase m)))
     = toLowerCase (requested (Some m))
  /\ toUpperCase (requested (Some (toUpperCase m)))
     = toUpperCase (requested (Some m)).
Proof.
  destruct (case_mappings_compose m) as (H1 & H2 & H3 & H4).
  assert (L : requested (Some (toLowerCase m))
              = if String.eqb m EmptyString then "GET" else toLowerCase m).
  { unfold requested, toLowerCase. now rewrite map_string_empty. }
  assert (U : requested (Some (toUpperCase m))
              = if String.eqb m EmptyString then "GET" else toUpperCase m).
  { unfold requested, toUpperCase. now rewrite map_string_empty. }
  rewrite L, U. unfold requested.
  destruct (String.eqb m EmptyString); [repeat split|].
  now rewrite H1, H2, H3, H4.
Qed.

Section CurlLines.

Variable format : value -> option Z -> outcome string.

Lemma buildFlag_text (type value : string) (indents : nat)
                     (quoteType : option string) :
  Curl.buildFlag type value indents quoteType
  = Lodash.repeat " " indents ++ "-" ++ type ++ " "
    ++ match quoteType with Some q => q | None => dquote end
    ++ value
    ++ match quoteType with Some q => q | None => dquote end.
Proof.
  unfold Curl.buildFlag. cbv zeta. cbn [join]. now rewrite append_assoc.
Qed.

Lemma generate_first_line (uri method : string) :
  join " " ["curl"; Curl.buildFlag "X" (toUpperCase method) 0 (Some EmptyString);
            dquote ++ uri ++ dquote]
  = "curl -X " ++ toUpperCase method ++ " " ++ dquote ++ uri ++ dquote.
Proof.
  rewrite buildFlag_text. cbn [join Lodash.repeat append].
  now rewrite append_empty_r.
Qed.

(** [generate], with its flags written out. *)
Lemma generate_unfolded (uri : string) (method : option string)
                        (headers data : value) :
  Curl.generate format uri method headers data
  = bind (if truthy data
             && negb (String.eqb (toLowerCase (requested method)) "get")
          then bind (format data (Some 0%Z))
                    (fun text => Ret (header_lines headers
                                      ++ [data_line text])%list)
          else Ret (header_lines headers))
         (fun flags =>
            Ret (first_line
                   (if truthy data
                       && String.eqb (toLowerCase (requested method)) "get"
                    then uri ++ Curl.buildQueryString data false else uri)
                   method
                 ++ Curl.NEW_LINE ++ join Curl.NEW_LINE flags)).
Proof.
  unfold Curl.generate, Curl.formatData. cbv zeta. fold (requested method).
  rewrite generate_first_line, first_line_requested.
  assert (H : (if truthy headers
               then map (fun p => Curl.buildFlag "H"
                                    (fst p ++ Curl.HEADER_SEPARATOR
                                           ++ to_string (snd p)) 5 None)
                        (entries headers)
               else []) = header_lines headers).
  { unfold header_lines. destruct (truthy headers); [|reflexivity].
    apply map_ext. intros p. rewrite buildFlag_text.
    unfold Curl.HEADER_SEPARATOR. cbn [Lodash.repeat append].
    now rewrite !append_assoc. }
  rewrite H.
  destruct (truthy data && negb _); cbn [bind]; [|reflexivity].
  destruct (format data (Some 0%Z)); reflexivity.
Qed.

(** X2: for a GET request, and whenever there is no data, [generate]
    returns without calling the formatter: the data, if any, goes into
    the address as a query string inside the quotes, and the only flags
    are the headers, one per line in iteration order. *)
Theorem generate_without_body (uri : string) (method : option string)
                              (headers data : value) :
  truthy data = false \/ toLowerCase (requested method) = "get" ->
  Curl.generate format uri method headers data
  = Ret (first_line (if truthy data
                     then uri ++ "?" ++ join "&" (map query_pair (entries data))
                     else uri) method
         ++ Curl.NEW_LINE ++ join Curl.NEW_LINE (header_lines headers)).
Proof.
  intros H. rewrite generate_unfolded.
  destruct H as [H | H].
  - rewrite H. reflexivity.
  - rewrite H. cbn [String.eqb Ascii.eqb Bool.eqb negb].
    rewrite andb_false_r, andb_true_r. cbn [bind].
    destruct (truthy data); [|reflexivity].
    now rewrite buildQueryString_text.
Qed.

(** X3: for data sent with another method than GET the address is left
    as it is, the formatter is called once on the data with indent 0,
    and what it raises is raised by [generate]; the data flag comes
    last, after the headers, its text in single quotes and unescaped. *)
Theorem generate_with_body (uri : string) (method : option string)
                           (headers data : value) :
  truthy data = true ->
  toLowerCase (requested method) <> "get" ->
  Curl.generate format uri method headers data
  = bind (format data (Some 0%Z))
         (fun text =>
            Ret (first_line uri method ++ Curl.NEW_LINE
                 ++ join Curl.NEW_LINE
                      (header_lines headers ++ [data_line text])))
  /\ forall e, format data (Some 0%Z) = Throw e ->
               Curl.generate format uri method headers data = Throw e.
Proof.
  intros Hd Hm.
  assert (E : Curl.generate format uri method headers data
              = bind (format data (Some 0%Z))
                     (fun text =>
                        Ret (first_line uri method ++ Curl.NEW_LINE
                             ++ join Curl.NEW_LINE
                                  (header_lines headers
                                   ++ [data_line text])))).
  { rewrite generate_unfolded, Hd.
    apply String.eqb_neq in Hm. rewrite Hm. cbn [andb negb].
    destruct (format data (Some 0%Z)); reflexivity. }
  split; [exact E|]. intros e He. now rewrite E, He.
Qed.

(** X4: the method is case-insensitive: it is written in upper case and
    compared in lower case, so a method and its two case mappings give
    the same command; an omitted and an empty method are GET. *)
Theorem generate_method_case_insensitive (uri m : string)
                                         (headers data : value) :
  ascii_text m = true ->
  Curl.generate format uri (Some (toLowerCase m)) headers data
  = Curl.generate format uri (Some m) headers data
  /\ Curl.generate format uri (Some (toUpperCase m)) headers data
     = Curl.generate format uri (Some m) headers data
  /\ Curl.generate format uri None headers data
     = Curl.generate format uri (Some "GET") headers data
  /\ Curl.generate format uri (Some EmptyString) headers data
     = Curl.generate format uri (Some "GET") headers data.
Proof.
  intros _. destruct (requested_case m) as (H1 & H2 & H3 & H4).
  rewrite !generate_unfolded, !first_line_requested.
  rewrite H1, H2, H3, H4. repeat split.
Qed.

End CurlLines.

Lemma generate_without_body_witness :
  Curl.generate Reference.format "http://x/y" (Some "get")
                Examples.curl_headers Examples.curl_data
  = Ret ("curl -X GET " ++ dquote ++ "http://x/y?a=1" ++ dquote
         ++ Curl.NEW_LINE
         ++ "     -H " ++ dquote ++ "Content-Type: application/json"
         ++ dquote).
Proof.
  rewrite (generate_without_body Reference.format "http://x/y" (Some "get")
             Examples.curl_headers Examples.curl_data).
  - reflexivity.
  - right. reflexivity.
Defined.

Lemma generate_with_body_witness :
  Curl.generate Reference.format "http://x/y" (Some "put") (VObj [])
                Examples.curl_data
  = Ret ("curl -X PUT " ++ dquote ++ "http://x/y" ++ dquote
         ++ Curl.NEW_LINE
         ++ "     --data " ++ squote
         ++ Reference.JSON_stringify Examples.curl_data ++ squote).
Proof.
  destruct (generate_with_body Reference.format "http://x/y" (Some "put")
              (VObj []) Examples.curl_data) as [E _].
  - reflexivity.
  - discriminate.
  - rewrite E. reflexivity.
Defined.

Lemma generate_method_case_insensitive_witness :
  Curl.generate Reference.format "http://x/y" (Some "post")
                Examples.curl_headers Examples.curl_data
  = Curl.generate Reference.format "http://x/y" (Some "Post")
                  Examples.curl_headers Examples.curl_data.
Proof.
  destruct (generate_method_case_insensitive Reference.format "http://x/y"
              "Post" Examples.curl_headers Examples.curl_data eq_refl)
    as (E & _).
  exact E.
Defined.

(** ** Example extraction: shapes, keys and merges *)

Import ExampleDataExtractor.

Lemma assoc_set_distinct (k : string) (x : value) (f : list (string * value)) :
  NoDup (map fst f) -> NoDup (map fst (assoc_set k x f)).
Proof.
  induction f as [|[k0 y] f IH]; cbn; intros Hnd.
  - constructor; [intros [] | constructor].
  - inversion Hnd as [|? ? Hx Hnd']; subst.
    destruct (String.eqb k k0) eqn:E; cbn.
    + apply String.eqb_eq in E. subst k0. now constructor.
    + constructor; [|now apply IH].
      intros HIn. apply assoc_set_keys in HIn as [-> | HIn].
      * now rewrite String.eqb_refl in E.
      * contradiction.
Qed.

Lemma unresolved_fields (p : value) :
  unresolved p = true ->
  is_str "self" (field p "rel") = false
  /\ array_of_items p = false
  /\ truthy (field p "id") && negb (truthy (getExampleDataFromItem p)) = false
  /\ truthy (field p "properties") = false
  /\ truthy (field p "oneOf") || truthy (field p "anyOf") = false
  /\ truthy (field p "allOf") = false.
Proof.
  unfold unresolved. rewrite !andb_true_iff, !negb_true_iff. tauto.
Qed.

Lemma literal_component_fields (c : value) :
  literal_component c = true ->
  is_str "array" (field c "type") = false
  /\ truthy (field c "allOf") = false
  /\ truthy (field c "oneOf") = false
  /\ truthy (field c "anyOf") = false
  /\ is_str "self" (field c "rel") = false
  /\ truthy (field c "properties") = false
  /\ Lodash.has c "additionalProperties"
     && truthy (Lodash.get2 c "generator" "includeAdditionalProperties") = false
  /\ truthy (field c "exclusive") = false.
Proof.
  unfold literal_component. rewrite !andb_true_iff, !negb_true_iff. tauto.
Qed.

Section Callback.

Variable extract : value -> value -> value -> outcome value.
Variable mapPropertiesToExamples : value -> value -> value -> outcome value.

(** One round of the callback either skips the property or stores an
    example under its name. *)
Lemma map_property_step (schema : value) (acc : list (string * value))
                        (name : string) (cfg r : value) :
  map_property extract mapPropertiesToExamples schema (VObj acc) name cfg
  = Ret r ->
  (opted_out (name, cfg) = true /\ r = VObj acc)
  \/ (opted_out (name, cfg) = false
      /\ exists e, r = VObj (assoc_set (example_name name) e acc)).
Proof.
  unfold map_property, opted_out. cbn [fst snd].
  destruct (Lodash.startsWith name "__"); cbn [orb].
  - intros [= <-]. now left.
  - destruct (nullish cfg); [discriminate|].
    destruct (truthy (field cfg "private")).
    + intros [= <-]. now left.
    + intros H. right. split; [reflexivity|].
      match type of H with
      | bind ?m _ = _ => destruct m as [e| |]; cbn [bind] in H;
                         try discriminate
      end.
      destruct (prune_exclusive cfg e) as [e'| |]; cbn [bind] in H;
        try discriminate.
      injection H as <-. exists e'. cbn [set_field]. unfold example_name.
      destruct (String.eqb name "ID") eqn:E; [|reflexivity].
      apply String.eqb_eq in E. now subst name.
Qed.

Lemma transform_keys (es : list (string * value)) (schema : value)
                     (acc : list (string * value)) (r : value) :
  transform extract mapPropertiesToExamples es schema (VObj acc) = Ret r ->
  NoDup (map fst acc) ->
  exists f, r = VObj f /\ NoDup (map fst f)
    /\ forall k, In k (map fst f)
                 <-> In k (map fst acc)
                     \/ exists p, In p es /\ opted_out p = false
                                  /\ example_name (fst p) = k.
Proof.
  revert acc. induction es as [|[name cfg] es IH]; intros acc H Hnd.
  - cbn in H. injection H as <-. exists acc. split; [reflexivity|].
    split; [exact Hnd|]. intros k. split; [now left|].
    intros [Hk | (p & [] & _)]. exact Hk.
  - cbn [transform] in H.
    destruct (map_property extract mapPropertiesToExamples schema (VObj acc)
                           name cfg) as [r1| |] eqn:Step;
      cbn [bind] in H; try discriminate.
    apply map_property_step in Step as [[Ho ->] | [Ho (e & ->)]].
    + destruct (IH _ H Hnd) as (f & -> & Hf & Hk).
      exists f. split; [reflexivity|]. split; [exact Hf|].
      intros k. rewrite Hk. split.
      * intros [HIn | (p & Hp & Hq)]; [now left|].
        right. exists p. split; [now right | exact Hq].
      * intros [HIn | (p & [<- | Hp] & Hq & Hn)]; [now left | |].
        -- congruence.
        -- right. now exists p.
    + destruct (IH _ H (assoc_set_distinct _ e _ Hnd)) as (f & -> & Hf & Hk).
      exists f. split; [reflexivity|]. split; [exact Hf|].
      intros k. rewrite Hk, assoc_set_keys. split.
      * intros [[-> | HIn] | (p & Hp & Hq)].
        -- right. exists (name, cfg). split; [now left|]. now split.
        -- now left.
        -- right. exists p. split; [now right | exact Hq].
      * intros [HIn | (p & [<- | Hp] & Hq & Hn)].
        -- left. now right.
        -- left. left. now rewrite <- Hn.
        -- right. now exists p.
Qed.

(** The callback on a property whose example needs no extraction, up
    to the pruning of its exclusive groups. *)
Lemma map_property_before_pruning (schema properties : value) (name : string)
                                  (p : value) :
  opted_out (name, p) = false -> nullish p = false ->
  (unresolved p
   || negb (is_str "self" (field p "rel")) && array_of_items p
      && truthy (field (field p "items") "example")) = true ->
  map_property extract mapPropertiesToExamples schema properties name p
  = bind (prune_exclusive p (shallow_example p))
         (fun example => Ret (set_field (example_name name) example
                                        properties)).
Proof.
  intros Ho Hn Hs. unfold opted_out in Ho. cbn [fst snd] in Ho.
  apply orb_false_iff in Ho as [Hpre Hpriv].
  unfold map_property. rewrite Hpre, Hn, Hpriv.
  assert (E : (if String.eqb name "ID" then toLowerCase name else name)
              = example_name name).
  { unfold example_name. destruct (String.eqb name "ID") eqn:E; [|reflexivity].
    apply String.eqb_eq in E. now subst. }
  rewrite E. unfold shallow_example.
  apply orb_true_iff in Hs as [Hs | Hs].
  - apply unresolved_fields in Hs as (Hrel & Harr & Hid & Hprops & Halt & Hall).
    rewrite Hrel, Harr. unfold array_of_items in Harr. rewrite Harr.
    rewrite Hid, Hprops, Halt, Hall. reflexivity.
  - apply andb_true_iff in Hs as [Hs Hit].
    apply andb_true_iff in Hs as [Hrel Harr].
    apply negb_true_iff in Hrel. rewrite Hrel, Harr.
    unfold array_of_items in Harr. rewrite Harr, Hit. reflexivity.
Qed.

Lemma transform_shallow (es : list (string * value)) (schema : value)
                        (acc : list (string * value)) :
  Forall (fun p => opted_out p = false ->
                   nullish (snd p) = false /\ shallow (snd p) = true) es ->
  NoDup (map fst acc
         ++ map (fun p => example_name (fst p))
                (filter (fun p => negb (opted_out p)) es)) ->
  transform extract mapPropertiesToExamples es schema (VObj acc)
  = Ret (VObj (acc ++ map (fun p => (example_name (fst p),
                                     shallow_example (snd p)))
                          (filter (fun p => negb (opted_out p)) es))).
Proof.
  revert acc. induction es as [|[name p] es IH]; intros acc HF Hnd.
  - cbn. now rewrite app_nil_r.
  - inversion HF as [|? ? Hp HF']; subst. cbn [transform filter].
    destruct (opted_out (name, p)) eqn:Ho; cbn [negb].
    + assert (E : map_property extract mapPropertiesToExamples schema
                               (VObj acc) name p = Ret (VObj acc)).
      { unfold map_property. unfold opted_out in Ho. cbn [fst snd] in Ho.
        destruct (Lodash.startsWith name "__"); [reflexivity|].
        cbn [orb] in Ho. rewrite Ho.
        destruct p; try reflexivity; discriminate Ho. }
      rewrite E. cbn [bind]. apply IH; [exact HF'|].
      cbn [filter] in Hnd. now rewrite Ho in Hnd.
    + destruct (Hp eq_refl) as [Hn Hs]. cbn [snd] in Hn, Hs.
      unfold shallow in Hs. apply andb_true_iff in Hs as [Hs Hex].
      apply negb_true_iff in Hex.
      rewrite map_property_before_pruning by assumption.
      unfold prune_exclusive. rewrite Hex. cbn [bind set_field].
      cbn [filter] in Hnd. rewrite Ho in Hnd. cbn [negb map fst] in Hnd.
      rewrite assoc_set_fresh.
      * rewrite IH; [|exact HF'|].
        -- cbn [map fst snd]. now rewrite <- app_assoc.
        -- rewrite map_app. cbn [map fst]. now rewrite <- app_assoc.
      * apply NoDup_remove_2 in Hnd. intros HIn. apply Hnd.
        apply in_or_app. now left.
Qed.

Lemma transform_app (es1 es2 : list (string * value)) (schema acc : value) :
  transform extract mapPropertiesToExamples (es1 ++ es2) schema acc
  = bind (transform extract mapPropertiesToExamples es1 schema acc)
         (transform extract mapPropertiesToExamples es2 schema).
Proof.
  revert acc. induction es1 as [|[name p] es1 IH]; intros acc.
  - reflexivity.
  - cbn [app transform].
    destruct (map_property _ _ _ _ _ _); cbn [bind]; try reflexivity.
    apply IH.
Qed.

End Callback.

Lemma mapPropertiesToExamples_object (n : nat) (props schema options r : value) :
  mapPropertiesToExamples n props schema options = Ret r ->
  exists f, r = VObj f /\ NoDup (map fst f)
    /\ forall k, In k (map fst f)
                 <-> exists p, In p (entries props) /\ opted_out p = false
                               /\ example_name (fst p) = k.
Proof.
  destruct n as [|n]; [discriminate|].
  cbn [mapPropertiesToExamples]. unfold mapPropertiesToExamples_body.
  intros H. apply transform_keys in H as (f & -> & Hf & Hk); [|constructor].
  exists f. split; [reflexivity|]. split; [exact Hf|].
  intros k. rewrite Hk. cbn. tauto.
Qed.

Lemma prefix_example_name (name : string) :
  Lodash.startsWith name "__" = false ->
  Lodash.startsWith (example_name name) "__" = false
  /\ example_name name <> "ID".
Proof.
  unfold example_name. destruct (String.eqb name "ID") eqn:E.
  - intros _. split; [reflexivity | discriminate].
  - intros H. split; [exact H|]. now apply String.eqb_neq.
Qed.

(** X5: whatever it is given, [mapPropertiesToExamples] returns an
    object; its keys are the names of the properties that are neither
    prefixed with two underscores nor [private], with [ID] stored as
    [id]; so no key of the result starts with two underscores and none
    is [ID]. *)
Theorem mapPropertiesToExamples_keys (n : nat)
                                     (props schema options r : value) :
  mapPropertiesToExamples n props schema options = Ret r ->
  exists f,
    r = VObj f
    /\ NoDup (map fst f)
    /\ (forall k, In k (map fst f)
                  <-> exists p, In p (entries props) /\ opted_out p = false
                                /\ example_name (fst p) = k)
    /\ (forall k, In k (map fst f) ->
                  Lodash.startsWith k "__" = false /\ k <> "ID").
Proof.
  intros H. apply mapPropertiesToExamples_object in H as (f & -> & Hf & Hk).
  exists f. split; [reflexivity|]. split; [exact Hf|]. split; [exact Hk|].
  intros k HIn. apply Hk in HIn as (p & _ & Ho & <-).
  apply prefix_example_name. unfold opted_out in Ho.
  now apply orb_false_iff in Ho.
Qed.

(** X6: when the example of every property that is not skipped can be
    read off the property (its [example], else its [default], else
    ['unknown'] for a property that is no object, or the one-element
    sequence of [items.example] for an array without an example of its
    own), [mapPropertiesToExamples] returns exactly these examples under
    the stored names, in the order of the properties, whatever the
    schema, the options and the fuel. *)
Theorem mapPropertiesToExamples_shallow (n : nat)
                                        (props schema options : value) :
  Forall (fun p => nullish (snd p) = false /\ shallow (snd p) = true)
         (shown_properties props) ->
  NoDup (map (fun p => example_name (fst p)) (shown_properties props)) ->
  mapPropertiesToExamples (S n) props schema options
  = Ret (VObj (map (fun p => (example_name (fst p), shallow_example (snd p)))
                   (shown_properties props))).
Proof.
  intros HF Hnd. cbn [mapPropertiesToExamples].
  unfold mapPropertiesToExamples_body.
  rewrite transform_shallow; [reflexivity| |exact Hnd].
  apply Forall_forall. intros p Hp Ho.
  rewrite Forall_forall in HF. apply HF. unfold shown_properties.
  apply filter_In. split; [exact Hp|]. now rewrite Ho.
Qed.

Lemma prune_groups_nullish (groups : list value) (target : value) :
  nullish target = true ->
  (exists first second others,
      In (VArr (first :: second :: others)) groups) ->
  exists msg, prune_groups groups target = Throw (TypeError msg).
Proof.
  intros Ht (first & second & others & HIn).
  induction groups as [|g groups IH]; [destruct HIn|].
  cbn [prune_groups]. destruct (nullish g) eqn:Ng.
  - eexists. reflexivity.
  - destruct (group_tail g) as [|k ks] eqn:G.
    + cbn [delete_all bind]. apply IH.
      destruct HIn as [-> | HIn]; [discriminate G | exact HIn].
    + cbn [delete_all]. rewrite Ht. eexists. reflexivity.
Qed.

(** X7: a property that has an exclusive group of two names or more but
    no example to prune (no [example], no [default], nothing resolved in
    its place) makes [mapPropertiesToExamples] raise a TypeError, once
    the properties before it have been mapped. *)
Theorem mapPropertiesToExamples_exclusive_without_example (n : nat)
    (before after : list (string * value)) (name : string)
    (p schema options r0 : value) (groups : list value) :
  mapPropertiesToExamples (S n) (VObj before) schema options = Ret r0 ->
  opted_out (name, p) = false ->
  nullish p = false ->
  unresolved p = true ->
  nullish (getExampleDataFromItem p) = true ->
  field p "exclusive" = VArr groups ->
  (exists first second others,
      In (VArr (first :: second :: others)) groups) ->
  exists msg,
    mapPropertiesToExamples (S n) (VObj (before ++ (name, p) :: after))
                            schema options
    = Throw (TypeError msg).
Proof.
  intros Hb Ho Hn Hu Hnull Hex Hgroup.
  cbn [mapPropertiesToExamples] in *.
  unfold mapPropertiesToExamples_body in *. cbn [entries] in *.
  rewrite transform_app, Hb. cbn [bind transform].
  rewrite (map_property_before_pruning _ _ _ _ _ _ Ho Hn)
    by now rewrite Hu.
  assert (Hsh : shallow_example p = getExampleDataFromItem p).
  { unfold shallow_example.
    destruct (unresolved_fields _ Hu) as (_ & Harr & _). now rewrite Harr. }
  rewrite Hsh. unfold prune_exclusive. rewrite Hex. cbn [truthy].
  destruct (prune_groups_nullish groups _ Hnull Hgroup) as (msg & ->).
  exists msg. reflexivity.
Qed.

Lemma exemplary_not_empty (v : value) :
  Lodash.isEmpty v = false -> exemplary v.
Proof.
  destruct v as [| | | |s|l|f|g]; cbn; try discriminate.
  - intros H E. subst s. discriminate.
  - destruct l; [discriminate|]. intros _. discriminate.
  - trivial.
Qed.

Lemma indexed_nil {A} (l : list A) : indexed l = [] -> l = [].
Proof. destruct l; [reflexivity|]. discriminate. Qed.

Lemma delete_field_exemplary (k : string) (v : value) :
  exemplary v -> exemplary (delete_field k v).
Proof.
  destruct v as [| | | |s|l|f|g]; cbn; try tauto.
  intros Hl E. apply map_eq_nil in E. now apply indexed_nil in E.
Qed.

Lemma delete_all_exemplary (ks : list string) (t r : value) :
  delete_all ks t = Ret r -> exemplary t -> exemplary r.
Proof.
  revert t. induction ks as [|k ks IH]; intros t H Ht; cbn in H.
  - now injection H as <-.
  - destruct (nullish t); [discriminate|].
    apply (IH _ H). now apply delete_field_exemplary.
Qed.

Lemma prune_groups_exemplary (groups : list value) (t r : value) :
  prune_groups groups t = Ret r -> exemplary t -> exemplary r.
Proof.
  revert t. induction groups as [|g groups IH]; intros t H Ht; cbn in H.
  - now injection H as <-.
  - destruct (nullish g); [discriminate|].
    destruct (delete_all (group_tail g) t) as [t'| |] eqn:D;
      cbn [bind] in H; try discriminate.
    apply (IH _ H). now apply (delete_all_exemplary _ _ _ D).
Qed.

Lemma prune_exclusive_exemplary (owner t r : value) :
  prune_exclusive owner t = Ret r -> exemplary t -> exemplary r.
Proof.
  unfold prune_exclusive. destruct (truthy (field owner "exclusive")).
  - apply prune_groups_exemplary.
  - now intros [= <-].
Qed.

(** X8: [extract] never returns [undefined], [null], a number, a
    boolean, an empty text or an empty sequence: what it returns is an
    object, a sequence with an element, or a text with a character. *)
Theorem extract_returns_example_data (n : nat)
                                     (component root options r : value) :
  extract n component root options = Ret r -> exemplary r.
Proof.
  destruct n as [|n]; [discriminate|].
  cbn [extract]. unfold extract_body.
  destruct (truthy component); cbn [negb]; [|discriminate].
  destruct (is_str "array" (field component "type")).
  - destruct (extract n _ _ _) as [v| |]; cbn [bind]; try discriminate.
    intros [= <-]. cbn. discriminate.
  - destruct (reduce_component _ _ _ _ _) as [reduced| |] eqn:R;
      cbn [bind]; try discriminate.
    intros H. apply (prune_exclusive_exemplary _ _ _ H).
    unfold reduce_component in R.
    match type of R with
    | bind ?m _ = _ => destruct m as [r1| |]; cbn [bind] in R;
                       try discriminate
    end.
    match type of R with
    | bind ?m _ = _ => destruct m as [r2| |]; cbn [bind] in R;
                       try discriminate
    end.
    destruct (Lodash.isEmpty r2) eqn:E.
    + apply mapPropertiesToExamples_object in R as (f & -> & _). exact I.
    + injection R as <-. now apply exemplary_not_empty.
Qed.

Lemma entries_falsy_properties (v : value) :
  truthy v = false -> entries v = [].
Proof.
  destruct v as [| |b|z|s|l|f|g]; cbn; try reflexivity; try discriminate.
  destruct s; [reflexivity | discriminate].
Qed.

Lemma extract_literal_value (n : nat) (component root options : value) :
  truthy component = true ->
  literal_component component = true ->
  extract (2 + n) component root options = Ret (literal_example component).
Proof.
  intros Hc Hl.
  apply literal_component_fields in Hl
    as (Harr & Hall & Hone & Hany & Hrel & Hprops & Hadd & Hex).
  change (2 + n) with (S (S n)). cbn [extract]. unfold extract_body at 1.
  rewrite Hc, Harr. cbn [negb]. unfold reduce_component.
  rewrite Hall, Hone, Hany, Hrel, Hprops, Hadd. cbn [bind].
  unfold prune_exclusive, literal_example. rewrite Hex.
  destruct (Lodash.isEmpty (getExampleDataFromItem component)).
  - cbn [mapPropertiesToExamples]. unfold mapPropertiesToExamples_body.
    now rewrite (entries_falsy_properties _ Hprops).
  - reflexivity.
Qed.

(** X9: a component without array type, composition, root link,
    properties, opted-in additional properties and exclusive groups
    extracts to its literal ([example], else [default], else
    ['unknown'] when it is no object) unless [_.isEmpty] holds of the
    literal; a literal that is a number, a boolean, missing or empty is
    replaced by the empty object. *)
Theorem extract_literal (n : nat) (component root options : value) :
  truthy component = true ->
  literal_component component = true ->
  extract (2 + n) component root options
  = Ret (if Lodash.isEmpty (getExampleDataFromItem component) then VObj []
         else getExampleDataFromItem component)
  /\ match getExampleDataFromItem component with
     | VUndef | VNull | VBool _ | VNum _ =>
         extract (2 + n) component root options = Ret (VObj [])
     | _ => True
     end.
Proof.
  intros Hc Hl. rewrite (extract_literal_value n _ root options Hc Hl).
  unfold literal_example. split; [reflexivity|].
  now destruct (getExampleDataFromItem component).
Qed.

(** X10: when the first alternative of [oneOf] (of [anyOf] when
    [oneOf] is not set) is missing or falsy, as with an empty list of
    alternatives, [extract] raises the ReferenceError of the guard on
    a missing schema. *)
Theorem extract_without_first_alternative (n : nat)
                                          (component root options : value) :
  truthy component = true ->
  is_str "array" (field component "type") = false ->
  truthy (field component "allOf") = false ->
  (truthy (field component "oneOf") = true
   /\ truthy (field (field component "oneOf") "0") = false)
  \/ (truthy (field component "oneOf") = false
      /\ truthy (field component "anyOf") = true
      /\ truthy (field (field component "anyOf") "0") = false) ->
  extract (2 + n) component root options
  = Throw (ReferenceError "No schema received to generate example data").
Proof.
  intros Hc Harr Hall Halt.
  change (2 + n) with (S (S n)). cbn [extract]. unfold extract_body at 1.
  rewrite Hc, Harr. cbn [negb]. unfold reduce_component. rewrite Hall.
  destruct Halt as [[H1 H0] | (H1 & H2 & H0)].
  - rewrite H1. unfold extract_body. now rewrite H0.
  - rewrite H1, H2. unfold extract_body. now rewrite H0.
Qed.

(** X11: a component that links to the root ([rel: 'self']) and is
    itself the root, because it carries an [id] or was passed as root,
    sends [extract] into the same call again: no fuel is enough, the
    extraction neither returns nor raises an error of its own. *)
Theorem extract_self_reference_unbounded (fuel : nat)
                                         (component root options : value) :
  is_str "array" (field component "type") = false ->
  truthy (field component "allOf") = false ->
  truthy (field component "oneOf") = false ->
  truthy (field component "anyOf") = false ->
  is_str "self" (field component "rel") = true ->
  truthy (field component "id") = true \/ root = component ->
  extract fuel component root options = OutOfFuel.
Proof.
  intros Harr Hall Hone Hany Hrel.
  assert (Hc : truthy component = true).
  { destruct component as [| |b|z|s|l|f|g]; try discriminate; try reflexivity.
    destruct s; [discriminate | reflexivity]. }
  revert root. induction fuel as [|n IH]; intros root Hroot; [reflexivity|].
  cbn [extract]. unfold extract_body. rewrite Hc, Harr. cbn [negb].
  assert (Hs : scope_of component root = component).
  { unfold scope_of. destruct Hroot as [E | E]; rewrite E; [reflexivity|].
    now destruct (truthy (field component "id")). }
  rewrite Hs. unfold reduce_component. rewrite Hall, Hone, Hany, Hrel.
  rewrite IH by now right. reflexivity.
Qed.

Lemma extract_allOf_options (ex1 ex2 : value -> value -> value -> outcome value)
    (o1 o2 : value) :
  (forall c root, ex1 c root o1 = ex2 c root o2) ->
  forall members root acc,
    extract_allOf ex1 members root o1 acc
    = extract_allOf ex2 members root o2 acc.
Proof.
  intros Hex members root. induction members as [|m members IH]; intros acc.
  - reflexivity.
  - cbn [extract_allOf]. rewrite (Hex m root).
    destruct (nullish m); [reflexivity|].
    destruct (is_false _); destruct (ex2 m root o2); cbn [bind];
      try reflexivity; apply IH.
Qed.

(** X12: the [options] argument has no effect: [extract] and
    [mapPropertiesToExamples] give the same outcome for any two
    options. *)
Theorem extract_ignores_options (n : nat) (o1 o2 : value) :
  (forall component root,
      extract n component root o1 = extract n component root o2)
  /\ (forall props schema,
         mapPropertiesToExamples n props schema o1
         = mapPropertiesToExamples n props schema o2).
Proof.
  induction n as [|n [IHe IHm]]; [split; reflexivity|].
  split.
  - intros component root. cbn [extract]. unfold extract_body.
    destruct (truthy component); cbn [negb]; [|reflexivity].
    rewrite IHe.
    destruct (is_str "array" _); [reflexivity|].
    unfold reduce_component.
    rewrite (extract_allOf_options (extract n) (extract n) o1 o2 IHe).
    now rewrite !IHe, !IHm.
  - intros props schema. reflexivity.
Qed.

(** *** Merging the members of [allOf] *)

Lemma overlay_distinct (f g : list (string * value)) :
  NoDup (map fst f) -> NoDup (map fst (overlay f g)).
Proof.
  unfold overlay. revert f. induction g as [|[k x] g IH]; intros f Hf; cbn.
  - exact Hf.
  - apply IH. now apply assoc_set_distinct.
Qed.

Lemma lookup_overlay (k : string) (f g : list (string * value)) :
  NoDup (map fst g) ->
  lookup k (overlay f g)
  = match lookup k g with Some x => Some x | None => lookup k f end.
Proof.
  unfold overlay. revert f. induction g as [|[k0 x] g IH]; intros f Hg.
  - reflexivity.
  - inversion Hg as [|? ? Hx Hg']; subst. cbn [fold_left fst snd lookup].
    rewrite IH by exact Hg'. rewrite lookup_assoc_set.
    destruct (String.eqb k k0) eqn:E.
    + apply String.eqb_eq in E. subst k0.
      destruct (lookup k g) eqn:L; [|reflexivity].
      exfalso. apply Hx. clear - L.
      induction g as [|[k1 y] g IH]; cbn in *; [discriminate|].
      destruct (String.eqb k k1) eqn:E.
      * left. apply String.eqb_eq in E. now subst.
      * right. now apply IH.
    + reflexivity.
Qed.

Lemma extend_as_overlay (f g : list (string * value)) :
  Lodash.extend (VObj f) (VObj g) = VObj (overlay f g).
Proof.
  unfold Lodash.extend, overlay. cbn [nullish truthy negb entries].
  revert f. induction g as [|[k x] g IH]; intros f; cbn; [reflexivity|].
  apply IH.
Qed.

Lemma lookup_overlays (k : string) (es : list (list (string * value)))
                      (acc : list (string * value)) :
  Forall (fun e => NoDup (map fst e)) es ->
  lookup k (fold_left overlay es acc)
  = match last_binding k es with Some x => Some x | None => lookup k acc end.
Proof.
  revert acc. induction es as [|e es IH]; intros acc HF.
  - reflexivity.
  - inversion HF as [|? ? He HF']; subst. cbn [fold_left last_binding].
    rewrite IH by exact HF'.
    destruct (last_binding k es); [reflexivity|].
    now apply lookup_overlay.
Qed.

Lemma overlays_distinct (es : list (list (string * value)))
                        (acc : list (string * value)) :
  NoDup (map fst acc) -> NoDup (map fst (fold_left overlay es acc)).
Proof.
  revert acc. induction es as [|e es IH]; intros acc Hacc; cbn.
  - exact Hacc.
  - apply IH. now apply overlay_distinct.
Qed.

Lemma last_binding_some (es : list (list (string * value)))
                        (e : list (string * value)) :
  In e es -> e <> [] -> exists k x, last_binding k es = Some x.
Proof.
  intros HIn He. induction es as [|e' es IH]; [destruct HIn|].
  destruct HIn as [-> | HIn].
  - destruct e as [|[k x] e]; [congruence|]. exists k. cbn.
    destruct (last_binding k es) as [y|]; [now exists y|].
    rewrite String.eqb_refl. now exists x.
  - destruct (IH HIn) as (k & x & Hk). exists k, x. cbn. now rewrite Hk.
Qed.

Lemma nonempty_object (f : list (string * value)) (k : string) (x : value) :
  lookup k f = Some x -> Lodash.isEmpty (VObj f) = false.
Proof. destruct f; [discriminate | reflexivity]. Qed.

Lemma open_members_distinct (P : value -> outcome value)
    (members : list value) (es : list (list (string * value))) :
  Forall2 (open_member_extracting P) members es ->
  Forall (fun e => NoDup (map fst e)) es.
Proof.
  induction 1 as [|m e members es (_ & _ & He & _) HF IH]; constructor;
    assumption.
Qed.

Section Members.

Variable extract : value -> value -> value -> outcome value.

Lemma extract_allOf_open (members : list value)
    (es : list (list (string * value))) (root options : value)
    (acc : list (string * value)) :
  Forall2 (open_member_extracting (fun m => extract m root options))
          members es ->
  extract_allOf extract members root options (VObj acc)
  = Ret (VObj (fold_left overlay es acc)).
Proof.
  intros HF. revert acc. induction HF as [|m e members es Hm HF IH];
    intros acc.
  - reflexivity.
  - destruct Hm as (Hn & Hopen & _ & Hex).
    cbn [extract_allOf fold_left]. rewrite Hn, Hopen, Hex. cbn [bind].
    rewrite extend_as_overlay. apply IH.
Qed.

Lemma extract_allOf_app (l1 l2 : list value) (root options acc : value) :
  extract_allOf extract (l1 ++ l2) root options acc
  = bind (extract_allOf extract l1 root options acc)
         (extract_allOf extract l2 root options).
Proof.
  revert acc. induction l1 as [|m l1 IH]; intros acc; [reflexivity|].
  cbn [app extract_allOf].
  match goal with
  | |- bind ?m _ = _ => destruct m; cbn [bind]; try reflexivity
  end.
  apply IH.
Qed.

Lemma extract_allOf_returns (members : list value) (root options acc : value) :
  Forall (fun m => nullish m = false
                   /\ exists v, extract m root options = Ret v) members ->
  exists acc', extract_allOf extract members root options acc = Ret acc'.
Proof.
  intros HF. revert acc. induction HF as [|m members (Hn & v & Hv) HF IH];
    intros acc.
  - now exists acc.
  - cbn [extract_allOf]. rewrite Hn, Hv.
    destruct (is_false _); cbn [bind]; apply IH.
Qed.

End Members.

(** X13: when no member of [allOf] is closed and every member extracts
    to an object, the component extracts to the merge of these objects
    in which, for every key, the last member that has the key decides
    its value. *)
Theorem extract_allOf_later_members_win (n : nat) (c : list (string * value))
    (root options : value) (members : list value)
    (es : list (list (string * value))) :
  is_str "array" (field (VObj c) "type") = false ->
  field (VObj c) "allOf" = VArr members ->
  Forall2 (open_member_extracting
             (fun m => extract n m (scope_of (VObj c) root) options))
          members es ->
  (exists e, In e es /\ e <> []) ->
  Lodash.has (VObj c) "additionalProperties"
  && truthy (Lodash.get2 (VObj c) "generator" "includeAdditionalProperties")
  = false ->
  truthy (field (VObj c) "exclusive") = false ->
  exists r,
    extract (S n) (VObj c) root options = Ret (VObj r)
    /\ NoDup (map fst r)
    /\ forall k, lookup k r = last_binding k es.
Proof.
  intros Harr Hall HF (e & HIn & He) Hadd Hex.
  exists (fold_left overlay es []).
  assert (Hl : forall k, lookup k (fold_left overlay es [])
                         = last_binding k es).
  { intros k. rewrite lookup_overlays by exact (open_members_distinct _ _ _ HF).
    now destruct (last_binding k es). }
  split; [|split; [apply overlays_distinct; constructor | exact Hl]].
  cbn [extract]. unfold extract_body. cbn [truthy negb]. rewrite Harr.
  unfold reduce_component. rewrite Hall. cbn [truthy]. unfold elements.
  cbn [entries]. rewrite map_snd_indexed.
  rewrite (extract_allOf_open _ _ _ _ _ _ HF). cbn [bind]. rewrite Hadd.
  cbn [bind].
  destruct (last_binding_some es e HIn He) as (k & x & Hk).
  rewrite <- Hl in Hk. rewrite (nonempty_object _ _ _ Hk).
  unfold prune_exclusive. now rewrite Hex.
Qed.

(** X14: a member of [allOf] with [additionalProperties === false]
    resets the merge: whatever the members before it extract to is
    discarded, and the component extracts to the object of the closed
    member overwritten by the open members that follow it. *)
Theorem extract_allOf_closed_member_resets (n : nat)
    (c : list (string * value)) (root options : value)
    (before after : list value) (m : value) (e0 : list (string * value))
    (es : list (list (string * value))) :
  is_str "array" (field (VObj c) "type") = false ->
  field (VObj c) "allOf" = VArr (before ++ m :: after) ->
  Forall (fun b => nullish b = false
                   /\ exists v, extract n b (scope_of (VObj c) root) options
                                = Ret v) before ->
  is_false (field m "additionalProperties") = true ->
  extract n m (scope_of (VObj c) root) options = Ret (VObj e0) ->
  NoDup (map fst e0) ->
  Forall2 (open_member_extracting
             (fun m => extract n m (scope_of (VObj c) root) options))
          after es ->
  (exists e, In e (e0 :: es) /\ e <> []) ->
  Lodash.has (VObj c) "additionalProperties"
  && truthy (Lodash.get2 (VObj c) "generator" "includeAdditionalProperties")
  = false ->
  truthy (field (VObj c) "exclusive") = false ->
  exists r,
    extract (S n) (VObj c) root options = Ret (VObj r)
    /\ NoDup (map fst r)
    /\ forall k, lookup k r = last_binding k (e0 :: es).
Proof.
  intros Harr Hall Hbefore Hclosed Hm Hnd HF (e & HIn & He) Hadd Hex.
  exists (fold_left overlay es e0).
  assert (Hl : forall k, lookup k (fold_left overlay es e0)
                         = last_binding k (e0 :: es)).
  { intros k. rewrite lookup_overlays by exact (open_members_distinct _ _ _ HF).
    reflexivity. }
  split; [|split; [now apply overlays_distinct | exact Hl]].
  cbn [extract]. unfold extract_body. cbn [truthy negb]. rewrite Harr.
  unfold reduce_component. rewrite Hall. cbn [truthy]. unfold elements.
  cbn [entries]. rewrite map_snd_indexed, extract_allOf_app.
  destruct (extract_allOf_returns (extract n) before
              (scope_of (VObj c) root) options (VObj []) Hbefore)
    as (acc' & ->).
  cbn [bind extract_allOf].
  rewrite (closed_not_nullish _ Hclosed), Hclosed, Hm. cbn [bind].
  rewrite (extract_allOf_open _ _ _ _ _ _ HF). cbn [bind]. rewrite Hadd.
  cbn [bind].
  destruct (last_binding_some (e0 :: es) e HIn He) as (k & x & Hk).
  rewrite <- Hl in Hk. rewrite (nonempty_object _ _ _ Hk).
  unfold prune_exclusive. now rewrite Hex.
Qed.

(** X15: a component with properties that has [additionalProperties]
    and sets [generator.includeAdditionalProperties] extracts to the
    examples of its properties overwritten by the examples of its
    additional properties. *)
Theorem extract_opt_in_additional_properties (n : nat)
    (c : list (string * value)) (root options : value)
    (f g : list (string * value)) :
  is_str "array" (field (VObj c) "type") = false ->
  truthy (field (VObj c) "allOf") = false ->
  truthy (field (VObj c) "oneOf") = false ->
  truthy (field (VObj c) "anyOf") = false ->
  is_str "self" (field (VObj c) "rel") = false ->
  truthy (field (VObj c) "properties") = true ->
  Lodash.has (VObj c) "additionalProperties" = true ->
  truthy (Lodash.get2 (VObj c) "generator" "includeAdditionalProperties")
  = true ->
  truthy (field (VObj c) "exclusive") = false ->
  mapPropertiesToExamples n (field (VObj c) "properties")
                          (scope_of (VObj c) root) options = Ret (VObj f) ->
  mapPropertiesToExamples n (field (VObj c) "additionalProperties")
                          (scope_of (VObj c) root) options = Ret (VObj g) ->
  f <> [] \/ g <> [] ->
  exists r,
    extract (S n) (VObj c) root options = Ret (VObj r)
    /\ forall k, lookup k r = match lookup k g with
                              | Some x => Some x
                              | None => lookup k f
                              end.
Proof.
  intros Harr Hall Hone Hany Hrel Hprops Hhas Hgen Hex Hf Hg Hne.
  exists (overlay f g).
  assert (Hl : forall k, lookup k (overlay f g)
                         = match lookup k g with
                           | Some x => Some x
                           | None => lookup k f
                           end).
  { intros k. apply lookup_overlay.
    apply mapPropertiesToExamples_object in Hg as (g' & [= <-] & Hnd & _).
    exact Hnd. }
  split; [|exact Hl].
  cbn [extract]. unfold extract_body. cbn [truthy negb]. rewrite Harr.
  unfold reduce_component. rewrite Hall, Hone, Hany, Hrel, Hprops, Hf.
  cbn [bind]. rewrite Hhas, Hgen. cbn [andb]. rewrite Hg. cbn [bind].
  rewrite extend_as_overlay.
  assert (Hk : exists k x, lookup k (overlay f g) = Some x).
  { destruct Hne as [Hne | Hne].
    - destruct f as [|[k x] f]; [congruence|]. exists k.
      rewrite Hl. cbn [lookup]. rewrite String.eqb_refl.
      destruct (lookup k g) as [y|]; [now exists y | now exists x].
    - destruct g as [|[k x] g]; [congruence|]. exists k, x.
      rewrite Hl. cbn [lookup]. now rewrite String.eqb_refl. }
  destruct Hk as (k & x & Hk). rewrite (nonempty_object _ _ _ Hk).
  unfold prune_exclusive. now rewrite Hex.
Qed.

Lemma mapPropertiesToExamples_keys_witness :
  exists f,
    mapPropertiesToExamples 2 Examples.account_properties VUndef VUndef
    = Ret (VObj f)
    /\ map fst f = ["id"; "name"; "tags"]
    /\ ~ In "ID" (map fst f)
    /\ ~ In "__meta" (map fst f).
Proof.
  destruct (mapPropertiesToExamples 2 Examples.account_properties VUndef
                                    VUndef) as [r| |] eqn:B;
    [|vm_compute in B; discriminate B..].
  destruct (mapPropertiesToExamples_keys 2 Examples.account_properties VUndef
              VUndef r B) as (f & -> & _ & _ & Hnever).
  exists f. split; [reflexivity|]. split.
  - vm_compute in B. injection B as <-. reflexivity.
  - split; intros HIn; destruct (Hnever _ HIn) as [Hpre Hid];
      [now apply Hid | discriminate Hpre].
Defined.

Lemma mapPropertiesToExamples_shallow_witness :
  mapPropertiesToExamples 1 Examples.account_properties VUndef VUndef
  = Ret (VObj [("id", VNum 7); ("name", VStr "n");
               ("tags", VArr [VStr "t"])]).
Proof.
  rewrite (mapPropertiesToExamples_shallow 0 Examples.account_properties
             VUndef VUndef).
  - reflexivity.
  - repeat constructor.
  - repeat (constructor; [cbn; intuition discriminate|]). constructor.
Defined.

Lemma mapPropertiesToExamples_exclusive_without_example_witness :
  exists msg,
    mapPropertiesToExamples 1 (VObj [("p", Examples.exclusive_only)])
                            VUndef VUndef
    = Throw (TypeError msg).
Proof.
  exact (mapPropertiesToExamples_exclusive_without_example 0 [] [] "p"
           Examples.exclusive_only VUndef VUndef (VObj [])
           [VArr [VStr "a"; VStr "b"]]
           eq_refl eq_refl eq_refl eq_refl eq_refl eq_refl
           (ex_intro _ (VStr "a")
              (ex_intro _ (VStr "b")
                 (ex_intro _ [] (or_introl eq_refl))))).
Defined.

Lemma extract_returns_example_data_witness :
  extract 2 Examples.array_of_strings VUndef VUndef = Ret (VArr [VStr "a"])
  /\ exemplary (VArr [VStr "a"]).
Proof.
  split; [reflexivity|].
  exact (extract_returns_example_data 2 Examples.array_of_strings VUndef VUndef
           (VArr [VStr "a"]) eq_refl).
Defined.

Lemma extract_literal_witness :
  extract 2 Examples.number_schema VUndef VUndef = Ret (VObj [])
  /\ extract 2 Examples.first_string VUndef VUndef = Ret (VStr "x").
Proof.
  split.
  - destruct (extract_literal 0 Examples.number_schema VUndef VUndef
                eq_refl eq_refl) as [_ E].
    exact E.
  - destruct (extract_literal 0 Examples.first_string VUndef VUndef
                eq_refl eq_refl) as [E _].
    exact E.
Defined.

Lemma extract_without_first_alternative_witness :
  extract 2 Examples.no_alternative VUndef VUndef
  = Throw (ReferenceError "No schema received to generate example data").
Proof.
  apply (extract_without_first_alternative 0 Examples.no_alternative
           VUndef VUndef eq_refl eq_refl eq_refl).
  left. split; reflexivity.
Defined.

Lemma extract_self_reference_unbounded_witness :
  extract 9 Examples.self_link VUndef VUndef = OutOfFuel.
Proof.
  apply (extract_self_reference_unbounded 9 Examples.self_link VUndef VUndef
           eq_refl eq_refl eq_refl eq_refl eq_refl).
  left. reflexivity.
Defined.

Lemma extract_allOf_later_members_win_witness :
  exists r,
    extract 3 (VObj Examples.all_of_two) VUndef VUndef = Ret (VObj r)
    /\ lookup "a" r = Some (VNum 1)
    /\ lookup "b" r = Some (VNum 3).
Proof.
  assert (Hnd2 : NoDup ["a"; "b"]).
  { repeat (constructor; [cbn; intuition discriminate|]). constructor. }
  assert (Hnd1 : NoDup ["b"]).
  { repeat (constructor; [cbn; intuition discriminate|]). constructor. }
  destruct (extract_allOf_later_members_win 2 Examples.all_of_two VUndef VUndef
              [Examples.first_object; Examples.second_object]
              [[("a", VNum 1); ("b", VNum 2)]; [("b", VNum 3)]]
              eq_refl eq_refl) as (r & Hr & _ & Hl).
  - constructor; [|constructor; [|constructor]].
    + split; [reflexivity|]. split; [reflexivity|]. split; [exact Hnd2|].
      reflexivity.
    + split; [reflexivity|]. split; [reflexivity|]. split; [exact Hnd1|].
      reflexivity.
  - exists [("b", VNum 3)]. split; [right; left; reflexivity | discriminate].
  - reflexivity.
  - reflexivity.
  - exists r. split; [exact Hr|]. now rewrite !Hl.
Defined.

Lemma extract_allOf_closed_member_resets_witness :
  exists r,
    extract 3 (VObj Examples.all_of_closed) VUndef VUndef = Ret (VObj r)
    /\ lookup "a" r = None
    /\ lookup "b" r = Some (VNum 3)
    /\ lookup "c" r = Some (VNum 4).
Proof.
  assert (Hnd1 : forall k : string, NoDup [k]).
  { intros k. constructor; [intros [] | constructor]. }
  destruct (extract_allOf_closed_member_resets 2 Examples.all_of_closed
              VUndef VUndef [Examples.first_object] [Examples.second_object]
              Examples.closed_object [("c", VNum 4)] [[("b", VNum 3)]]
              eq_refl eq_refl) as (r & Hr & _ & Hl).
  - constructor; [|constructor]. split; [reflexivity|].
    eexists. reflexivity.
  - reflexivity.
  - reflexivity.
  - apply Hnd1.
  - constructor; [|constructor].
    split; [reflexivity|]. split; [reflexivity|]. split; [apply Hnd1|].
    reflexivity.
  - exists [("c", VNum 4)]. split; [left; reflexivity | discriminate].
  - reflexivity.
  - reflexivity.
  - exists r. split; [exact Hr|]. now rewrite !Hl.
Defined.

Lemma extract_opt_in_additional_properties_witness :
  exists r,
    extract 2 (VObj Examples.opted_in) VUndef VUndef = Ret (VObj r)
    /\ lookup "a" r = Some (VNum 1)
    /\ lookup "b" r = Some (VNum 2).
Proof.
  destruct (extract_opt_in_additional_properties 1 Examples.opted_in
              VUndef VUndef [("a", VNum 1)] [("b", VNum 2)]
              eq_refl eq_refl eq_refl eq_refl eq_refl eq_refl eq_refl
              eq_refl eq_refl eq_refl eq_refl) as (r & Hr & Hl).
  - left. discriminate.
  - exists r. split; [exact Hr|]. now rewrite !Hl.
Defined.

(** ** Object definitions: what [build] and [defineProperty] return *)

Lemma falsy_shapes (v : value) :
  truthy v = false ->
  Lodash.isArray v = false /\ Lodash.isPlainObject v = false.
Proof. destruct v; cbn; try discriminate; now split. Qed.

Lemma truthy_not_nullish (v : value) : truthy v = true -> nullish v = false.
Proof. destruct v; cbn; try discriminate; reflexivity. Qed.

Lemma own_or_missing_plain (object : value) (k : string) :
  inherited k = false -> own_or_missing object k.
Proof. intros H Hi. congruence. Qed.

(** Nothing is picked from the empty mapping by names it does not
    inherit. *)
Lemma pick_empty (required : value) :
  (forall k, In k (Lodash.prop_names required) -> inherited k = false) ->
  Lodash.pick (VObj []) required = VObj [].
Proof.
  unfold Lodash.pick. cbn [nullish]. intros Hplain. f_equal.
  induction (Lodash.prop_names required) as [|k ks IH]; [reflexivity|].
  cbn [fold_left]. rewrite pick_step_own.
  - apply IH. intros k' Hk'. apply Hplain. now right.
  - apply own_or_missing_plain, Hplain. now left.
Qed.

Lemma extend_object_shape (A : list (string * value)) (source : value) :
  exists A', Lodash.extend (VObj A) source = VObj A'.
Proof.
  unfold Lodash.extend. cbn [nullish].
  destruct (negb (truthy source)); [now exists A|].
  generalize (entries source). intros l. revert A.
  induction l as [|[k x] l IH]; intros A; cbn; [now exists A|]. apply IH.
Qed.

Lemma extend_allProps_shape (defs : value) (g A : list (string * value)) :
  field (VObj g) "allProps" = VObj A ->
  exists g' A',
    extend_allProps defs (VObj g) = VObj g'
    /\ field (VObj g') "allProps" = VObj A'
    /\ forall k, k <> "allProps" -> field (VObj g') k = field (VObj g) k.
Proof.
  intros HA. unfold extend_allProps. rewrite HA.
  destruct (extend_object_shape A defs) as (A' & ->).
  exists (assoc_set "allProps" (VObj A') g), A'.
  split; [reflexivity|]. split; [apply field_assoc_same|].
  intros k Hk. apply field_assoc_other. congruence.
Qed.

(** [own_properties] touches [allProps] only, and leaves an object
    there. *)
Lemma own_properties_shape (resolver : value -> M (value * value))
    (g A : list (string * value)) (holder self' holder' : value)
    (s s' : nat) :
  field (VObj g) "allProps" = VObj A ->
  own_properties resolver (VObj g) holder s = Ret ((self', holder'), s') ->
  (exists g' A',
      self' = VObj g'
      /\ field (VObj g') "allProps" = VObj A'
      /\ forall k, k <> "allProps" -> field (VObj g') k = field (VObj g) k)
  /\ forall k, k <> "properties" -> k <> "additionalProperties" ->
               field holder' k = field holder k.
Proof.
  intros HA H. unfold own_properties in H. cbn [nullish] in H.
  apply mbind_inv in H as ([defs props] & s1 & _ & H).
  set (self1 := if is_false (field holder "additionalProperties")
                then set_field "allProps" (VObj []) (VObj g) else VObj g) in H.
  assert (H1 : exists g1 A1, self1 = VObj g1
                 /\ field (VObj g1) "allProps" = VObj A1
                 /\ forall k, k <> "allProps" ->
                              field (VObj g1) k = field (VObj g) k).
  { unfold self1. destruct (is_false _).
    - exists (assoc_set "allProps" (VObj []) g), [].
      split; [reflexivity|]. split; [apply field_assoc_same|].
      intros k Hk. apply field_assoc_other. congruence.
    - exists g, A. now repeat split. }
  destruct H1 as (g1 & A1 & E1 & HA1 & Hk1). rewrite E1 in H.
  destruct (extend_allProps_shape defs g1 A1 HA1) as (g2 & A2 & E2 & HA2 & Hk2).
  rewrite E2 in H.
  destruct (Lodash.isPlainObject
              (field (put_back "properties" props holder)
                     "additionalProperties")).
  - apply mbind_inv in H as ([defs' addl] & s2 & _ & H).
    apply ret_inv in H as [[= -> ->] _].
    destruct (extend_allProps_shape defs' g2 A2 HA2)
      as (g3 & A3 & E3 & HA3 & Hk3).
    split.
    + exists g3, A3. split; [exact E3|]. split; [exact HA3|].
      intros k Hk. now rewrite Hk3, Hk2, Hk1.
    + intros k Hp Ha. rewrite !field_put_back_other by congruence.
      reflexivity.
  - apply ret_inv in H as [[= -> ->] _]. split.
    + exists g2, A2. split; [reflexivity|]. split; [exact HA2|].
      intros k Hk. now rewrite Hk2, Hk1.
    + intros k Hp Ha. now rewrite field_put_back_other by congruence.
Qed.

Section BuildAll.

Variable resolver : value -> M (value * value).

Lemma build_all_each (l : list value) (s s' : nat) (defs left : list value) :
  build_all resolver l s = Ret ((defs, left), s') ->
  Forall2 (built_by resolver) l defs.
Proof.
  revert s s' defs left. induction l as [|x l IH]; intros s s' defs left H;
    cbn [build_all] in H.
  - apply ret_inv in H as [[= -> ->] _]. constructor.
  - apply mbind_inv in H as ([d x'] & s1 & Hx & H).
    apply mbind_inv in H as ([ds l'] & s2 & Hl & H).
    apply ret_inv in H as [[= -> ->] _].
    constructor; [now exists s, s1, x' | exact (IH _ _ _ _ Hl)].
Qed.

End BuildAll.

Section Resolve.

Variable merge : (value -> value -> value) -> value -> value -> value.
Variable build : value -> M (value * value).
Variable defineProperties : value -> M (value * value).

(** What [resolve] does to [self] when the node has no [allOf] array. *)
Lemma resolve_without_allOf (g A : list (string * value))
    (required o self' required' left : value) (s s' : nat) :
  Lodash.isArray (field o "allOf") = false ->
  field (VObj g) "allProps" = VObj A ->
  resolve merge build defineProperties (VObj g) required o s
  = Ret ((self', required', left), s') ->
  required' = required
  /\ (exists g' A', self' = VObj g' /\ field (VObj g') "allProps" = VObj A')
  /\ (Lodash.isPlainObject (field o "additionalProperties") = false ->
      if Lodash.isArray (field o "oneOf") || Lodash.isArray (field o "anyOf")
      then exists defs,
             Forall2 (built_by build)
                     (elements (field o (if truthy (field o "oneOf")
                                         then "oneOf" else "anyOf"))) defs
             /\ field self' "objects" = VArr defs
      else field self' "objects" = field (VObj g) "objects").
Proof.
  intros Hall HA H. unfold resolve in H. rewrite Hall in H.
  rewrite mbind_ret in H.
  apply mbind_inv in H as ([self2 o2] & s2 & H2 & H).
  assert (S2 : exists g2,
             self2 = VObj g2 /\ field (VObj g2) "allProps" = VObj A
             /\ (forall k, k <> "oneOf" -> k <> "anyOf" ->
                           field o2 k = field o k)
             /\ if Lodash.isArray (field o "oneOf")
                   || Lodash.isArray (field o "anyOf")
                then exists defs,
                       Forall2 (built_by build)
                         (elements (field o (if truthy (field o "oneOf")
                                             then "oneOf" else "anyOf"))) defs
                       /\ field (VObj g2) "objects" = VArr defs
                else field (VObj g2) "objects" = field (VObj g) "objects").
  { destruct (Lodash.isArray (field o "oneOf")
              || Lodash.isArray (field o "anyOf")).
    - apply mbind_inv in H2 as ([defs alts] & s1 & Hb & H2).
      cbn [nullish] in H2. apply ret_inv in H2 as [[= -> ->] _].
      exists (assoc_set "objects" (VArr defs) g).
      split; [reflexivity|]. split.
      { rewrite field_assoc_other by discriminate. exact HA. }
      split.
      { intros k H1 H0. apply field_put_back_other.
        destruct (truthy (field o "oneOf")); congruence. }
      exists defs. split; [exact (build_all_each _ _ _ _ _ _ Hb)|].
      apply field_assoc_same.
    - apply ret_inv in H2 as [[= -> ->] _]. exists g. now repeat split. }
  clear H2. destruct S2 as (g2 & -> & HA2 & Ho2 & Hobj2).
  apply mbind_inv in H as ([self3 o3] & s3 & H3 & H).
  assert (S3 : exists g3 A3,
             self3 = VObj g3 /\ field (VObj g3) "allProps" = VObj A3
             /\ (forall k, k <> "allProps" ->
                           field (VObj g3) k = field (VObj g2) k)
             /\ (forall k, k <> "properties" -> k <> "additionalProperties" ->
                           field o3 k = field o2 k)
             /\ (Lodash.isPlainObject (field o2 "additionalProperties") = false
                 -> field o3 "additionalProperties"
                    = field o2 "additionalProperties")).
  { destruct (Lodash.isPlainObject (field o2 "properties")).
    - pose proof H3 as H3'.
      apply (own_properties_shape _ _ _ _ _ _ _ _ HA2) in H3
        as [(g3 & A3 & -> & HA3 & Hk3) Hh].
      exists g3, A3. split; [reflexivity|]. split; [exact HA3|].
      split; [exact Hk3|]. split; [exact Hh|].
      intros Haddl.
      rewrite own_properties_closed_world in H3' by (reflexivity || exact Haddl).
      destruct (defineProperties (field o2 "properties") s2)
        as [[[defs props] s1]| |]; try discriminate.
      injection H3' as _ <- _. now apply field_put_back_other.
    - apply ret_inv in H3 as [[= -> ->] _]. exists g2, A. now repeat split. }
  clear H3. destruct S3 as (g3 & A3 & -> & HA3 & Hk3 & Ho3 & Haddl3).
  apply mbind_inv in H as ([self4 o4] & s4 & H4 & H).
  assert (S4 : exists g4,
             self4 = VObj g4 /\ field (VObj g4) "allProps" = VObj A3
             /\ (forall k, k <> "additionalProperties" ->
                           field o4 k = field o3 k)
             /\ (Lodash.isPlainObject (field o "additionalProperties") = false
                 -> g4 = g3)).
  { destruct (Lodash.isPlainObject (field o3 "additionalProperties")) eqn:P.
    - apply mbind_inv in H4 as ([addtl addl] & s5 & _ & H4).
      cbn [nullish] in H4.
      apply mbind_inv in H4 as (objs & s6 & _ & H4).
      apply ret_inv in H4 as [[= -> ->] _].
      unfold put_back at 1.
      destruct (has_key (VObj g3) "objects").
      + exists (assoc_set "objects"
                  (with_elements (field (VObj g3) "objects") objs) g3).
        split; [reflexivity|]. split.
        { rewrite field_assoc_other by discriminate. exact HA3. }
        split.
        { intros k Hk. apply field_put_back_other. congruence. }
        intros Hn. rewrite Haddl3 in P.
        * rewrite Ho2 in P by discriminate. congruence.
        * rewrite Ho2 by discriminate. exact Hn.
      + exists g3. split; [reflexivity|]. split; [exact HA3|]. split.
        { intros k Hk. apply field_put_back_other. congruence. }
        reflexivity.
    - apply ret_inv in H4 as [[= -> ->] _]. exists g3. now repeat split. }
  clear H4. destruct S4 as (g4 & -> & HA4 & Ho4 & Hg4).
  apply mbind_inv in H as ([self5 o5] & s5 & H5 & H).
  apply ret_inv in H as [[= -> -> ->] _].
  split; [reflexivity|].
  assert (S5 : exists g5 A5,
             self5 = VObj g5 /\ field (VObj g5) "allProps" = VObj A5
             /\ forall k, k <> "allProps" ->
                          field (VObj g5) k = field (VObj g4) k).
  { destruct (Lodash.isPlainObject (field o4 "items")).
    - apply mbind_inv in H5 as ([self6 items] & s6 & H6 & H5).
      apply ret_inv in H5 as [[= -> ->] _].
      apply (own_properties_shape _ _ _ _ _ _ _ _ HA4) in H6
        as [(g5 & A5 & -> & HA5 & Hk5) _].
      now exists g5, A5.
    - apply ret_inv in H5 as [[= -> ->] _]. exists g4, A3. now repeat split. }
  destruct S5 as (g5 & A5 & -> & HA5 & Hk5).
  split; [now exists g5, A5|].
  intros Hn. rewrite Hk5 by discriminate. rewrite (Hg4 Hn).
  rewrite Hk3 by discriminate. exact Hobj2.
Qed.

End Resolve.

(** The partition [_.pick] and [_.omit] make of a mapping. *)
Lemma partition_by_names (A : list (string * value)) (required : value) :
  (forall k, In k (Lodash.prop_names required) -> inherited k = false) ->
  let R := Lodash.prop_names required in
  let all := if Lodash.isEmpty (VObj A) then VUndef else VObj A in
  let req := null_if_empty (Lodash.pick (VObj A) required) in
  let opt := null_if_empty (Lodash.omit (VObj A) required) in
  (forall k, In k (keys req) <-> In k (keys all) /\ In k R)
  /\ (forall k, In k (keys opt) <-> In k (keys all) /\ ~ In k R)
  /\ (forall k, In k (keys req) -> field req k = field all k)
  /\ (forall k, In k (keys opt) -> field opt k = field all k).
Proof.
  intros Hplain R all req opt.
  assert (HownA : forall k, In k R -> own_or_missing (VObj A) k)
    by (intros k Hk; now apply own_or_missing_plain, Hplain).
  assert (Kall : keys all = map fst A) by (unfold all; now destruct A).
  assert (Fall : forall k, field all k = field (VObj A) k)
    by (intros k; unfold all; now destruct A).
  assert (Kreq : forall k, In k (keys req) <-> In k (map fst A) /\ In k R).
  { intros k. unfold req. rewrite keys_null_if_empty. unfold Lodash.pick.
    cbn [nullish keys entries]. fold R.
    destruct (pick_fold A R [] HownA) as [P1 _]. rewrite (P1 k). cbn. tauto. }
  assert (Kopt : forall k, In k (keys opt) <-> In k (map fst A) /\ ~ In k R).
  { intros k. unfold opt. rewrite keys_null_if_empty, omit_object. fold R.
    unfold keys. cbn [entries]. rewrite map_fst_filter_kept, filter_In.
    unfold listed. split.
    - intros [HIn Hn]. split; [exact HIn|].
      apply existsb_eqb_false. now destruct (existsb _ R).
    - intros [HIn Hn]. split; [exact HIn|].
      destruct (existsb (String.eqb k) R) eqn:X; [|reflexivity].
      apply existsb_exists in X as (k' & Hk' & E).
      apply String.eqb_eq in E. now subst. }
  rewrite Kall. split; [exact Kreq|]. split; [exact Kopt|]. split.
  - intros k Hk. rewrite Fall. unfold req. rewrite field_null_if_empty.
    apply Kreq in Hk as [HkA HkR].
    unfold Lodash.pick. cbn [nullish]. fold R.
    destruct (pick_fold A R [] HownA) as [P1 P2].
    assert (HIn : In k (map fst (fold_left (Lodash.pick_step (VObj A)) R []))).
    { apply P1. now right. }
    apply lookup_in in HIn as (x & Hx). unfold field at 1. cbn [entries].
    rewrite Hx. apply P2 in Hx; [exact Hx|]. intros ? ? E. discriminate E.
  - intros k Hk. rewrite Fall. unfold opt. rewrite field_null_if_empty.
    apply Kopt in Hk as [HkA HkR].
    rewrite omit_object. fold R. unfold field. cbn [entries].
    now rewrite lookup_filter_kept.
Qed.

Section Built.

Variable format : value -> option Z -> outcome string.
Variable JSON_stringify : value -> string.
Variable random : nat -> Z.
Variable merge : (value -> value -> value) -> value -> value -> value.

Local Abbreviation build :=
  (ObjectDefinition.build format JSON_stringify random merge).
Local Abbreviation defineProperties :=
  (ObjectDefinition.defineProperties format JSON_stringify random merge).
Local Abbreviation defineProperty :=
  (ObjectDefinition.defineProperty format JSON_stringify random merge).

(** A returning call of [build]: the node is hidden and the result is
    [null] after one draw, or the node went through resolution and
    finalization. *)
Lemma build_inv (n : nat) (o r left : value) (s s' : nat) :
  build (S n) o s = Ret ((r, left), s') ->
  nullish o = false
  /\ ((is_true (field o "noDisplay") = true
       /\ r = VNull /\ left = o /\ s' = S s)
      \/ (is_true (field o "noDisplay") = false
          /\ exists self required,
               resolve merge (build n) (defineProperties n)
                       (initial_self (random s))
                       (or_else (field o "required") (VArr [])) o (S s)
               = Ret ((self, required, left), s')
               /\ finalize format JSON_stringify
                    (ExampleDataExtractor.extract n) self required left
                  = Ret r)).
Proof.
  rewrite build_S. unfold build_body.
  destruct (nullish o); [discriminate|]. intros H. split; [reflexivity|].
  unfold mbind at 1, draw in H.
  destruct (is_true (field o "noDisplay")).
  - left. apply ret_inv in H as [[= -> ->] ->]. now repeat split.
  - right. split; [reflexivity|].
    apply mbind_inv in H as ([[self required] left'] & s1 & Hres & H).
    apply mbind_inv in H as (r' & s2 & Hfin & H).
    apply lift_inv in Hfin as [Hfin ->].
    apply ret_inv in H as [[= -> ->] ->].
    now exists self, required.
Qed.

Lemma finalize_from_object (self required object : value)
    (extractor : value -> value -> value -> outcome value)
    (f : list (string * value)) :
  finalize format JSON_stringify extractor self required object
  = Ret (VObj f) ->
  exists g, self = VObj g.
Proof.
  unfold finalize. destruct (nullish self) eqn:N; [discriminate|].
  cbv zeta.
  destruct (example_of format JSON_stringify extractor object)
    as [text| |]; cbn [bind]; try discriminate.
  destruct self; try discriminate N; cbn [set_field];
    try (intros H; match type of H with
                   | Ret (if ?c then _ else _) = _ => destruct c
                   end; discriminate H).
  intros _. now eexists.
Qed.

Lemma example_of_inv (extractor : value -> value -> value -> outcome value)
                     (object : value) (text : string) :
  example_of format JSON_stringify extractor object = Ret text ->
  exists v, extractor object VUndef VUndef = Ret v
            /\ format v None = Ret text.
Proof.
  unfold example_of. destruct (extractor object VUndef VUndef) as [v| |];
    cbn [bind]; try discriminate.
  destruct (format v None) eqn:F; try discriminate.
  intros [= <-]. now exists v.
Qed.

(** The fields the finalization of [build] writes besides the
    partition, and the fields it leaves. *)
Lemma finalize_metadata (g : list (string * value))
    (required object r : value)
    (extractor : value -> value -> value -> outcome value) :
  finalize format JSON_stringify extractor (VObj g) required object = Ret r ->
  field r "title" = field object "title"
  /\ field r "description" = field object "description"
  /\ field r "enum" = field object "enum"
  /\ field r "_original" = object
  /\ (exists text,
        example_of format JSON_stringify extractor object = Ret text
        /\ field r "example" = VStr text)
  /\ field r "objects" = field (VObj g) "objects"
  /\ field r "id" = field (VObj g) "id".
Proof.
  unfold finalize. cbn [nullish]. cbv zeta.
  destruct (example_of format JSON_stringify extractor object)
    as [text| |]; cbn [bind]; try discriminate.
  intros [= <-]. cbn [set_field].
  assert (X : forall k h,
             k <> "allProps" ->
             field (if Lodash.isEmpty (field (VObj h) "allProps")
                    then set_field "allProps" VUndef (VObj h) else VObj h) k
             = field (VObj h) k).
  { intros k h Hk. destruct (Lodash.isEmpty _); [|reflexivity].
    apply field_set_other. congruence. }
  rewrite !X by discriminate.
  repeat split.
  - rewrite !(field_assoc_other _ "title") by discriminate.
    apply field_assoc_same.
  - rewrite !(field_assoc_other _ "description") by discriminate.
    apply field_assoc_same.
  - rewrite !(field_assoc_other _ "enum") by discriminate.
    apply field_assoc_same.
  - rewrite !(field_assoc_other _ "_original") by discriminate.
    apply field_assoc_same.
  - exists text. split; [reflexivity|]. apply field_assoc_same.
  - now rewrite !(field_assoc_other _ "objects") by discriminate.
  - now rewrite !(field_assoc_other _ "id") by discriminate.
Qed.

(** X16: the definition [build] returns describes the schema it was
    given: [title], [description] and [enum] are those of the schema,
    [_original] is the schema, and [example] is the text the formatter
    gives for the example [extract] finds for the schema. *)
Theorem build_describes_schema (n : nat) (object left : value)
    (f : list (string * value)) (s s' : nat) :
  build (S n) object s = Ret ((VObj f, left), s') ->
  field (VObj f) "title" = field left "title"
  /\ field (VObj f) "description" = field left "description"
  /\ field (VObj f) "enum" = field left "enum"
  /\ field (VObj f) "_original" = left
  /\ exists v text,
       ExampleDataExtractor.extract n left VUndef VUndef = Ret v
       /\ format v None = Ret text
       /\ field (VObj f) "example" = VStr text.
Proof.
  intros H. apply build_inv in H as [_ [(_ & [=] & _) | (_ & H)]].
  destruct H as (self & required & _ & Hfin).
  destruct (finalize_from_object _ _ _ _ _ Hfin) as (g & ->).
  apply finalize_metadata in Hfin
    as (Ht & Hd & He & Ho & (text & Hex & Htext) & _).
  apply example_of_inv in Hex as (v & Hv & Hf).
  repeat split; try assumption. now exists v, text.
Qed.

(** X17: no definition [build] returns holds an empty mapping:
    [allProps] is [undefined] or has a key, [requiredProps] and
    [optionalProps] are [null] or have a key. *)
Theorem build_leaves_no_empty_mapping (n : nat) (object left : value)
    (f : list (string * value)) (s s' : nat) :
  build (S n) object s = Ret ((VObj f, left), s') ->
  (field (VObj f) "allProps" = VUndef
   \/ Lodash.isEmpty (field (VObj f) "allProps") = false)
  /\ (field (VObj f) "requiredProps" = VNull
      \/ Lodash.isEmpty (field (VObj f) "requiredProps") = false)
  /\ (field (VObj f) "optionalProps" = VNull
      \/ Lodash.isEmpty (field (VObj f) "optionalProps") = false).
Proof.
  intros H. apply build_inv in H as [_ [(_ & [=] & _) | (_ & H)]].
  destruct H as (self & required & _ & Hfin).
  destruct (finalize_from_object _ _ _ _ _ Hfin) as (g & ->).
  apply finalize_fields in Hfin as (-> & -> & ->).
  unfold null_if_empty. repeat split.
  - destruct (Lodash.isEmpty (field (VObj g) "allProps")) eqn:E; auto.
  - destruct (Lodash.isEmpty (Lodash.pick _ _)) eqn:E; auto.
  - destruct (Lodash.isEmpty (Lodash.omit _ _)) eqn:E; auto.
Qed.

(** The state of [self] at the finalization of a displayed node without
    an [allOf] array. *)
Lemma build_without_allOf (n : nat) (o r left : value) (s s' : nat) :
  is_true (field o "noDisplay") = false ->
  Lodash.isArray (field o "allOf") = false ->
  build (S n) o s = Ret ((r, left), s') ->
  exists g A,
    field (VObj g) "allProps" = VObj A
    /\ finalize format JSON_stringify (ExampleDataExtractor.extract n)
                (VObj g) (or_else (field o "required") (VArr [])) left
       = Ret r
    /\ (Lodash.isPlainObject (field o "additionalProperties") = false ->
        exists defs, Forall2 (built_by (build n)) (alternatives_of o) defs
                     /\ field (VObj g) "objects" = VArr defs).
Proof.
  intros Hshow Hall H.
  apply build_inv in H as [_ [(Hh & _) | (_ & H)]]; [congruence|].
  destruct H as (self & required & Hres & Hfin).
  unfold initial_self in Hres.
  eapply resolve_without_allOf in Hres; [|exact Hall|reflexivity].
  destruct Hres as (-> & (g & A & -> & HA) & Hobj).
  exists g, A. split; [exact HA|]. split; [exact Hfin|].
  intros Hn. specialize (Hobj Hn). unfold alternatives_of.
  destruct (Lodash.isArray (field o "oneOf")
            || Lodash.isArray (field o "anyOf")).
  - exact Hobj.
  - exists []. split; [constructor | exact Hobj].
Qed.

(** X18: for every displayed node without an [allOf] array, none of
    whose required names is the name of a member of [Object.prototype],
    whatever its alternatives, items and additional properties
    contribute to [allProps], the two partitions split [allProps] by
    the names of the [required] list: a key of [allProps] is a key of
    [requiredProps] when it is listed and a key of [optionalProps] when
    it is not, and both hold the values [allProps] holds. *)
Theorem build_partitions_all_properties (n : nat) (o r left : value)
                                        (s s' : nat) :
  is_true (field o "noDisplay") = false ->
  Lodash.isArray (field o "allOf") = false ->
  (forall k, In k (required_names o) -> inherited k = false) ->
  build (S n) o s = Ret ((r, left), s') ->
  let R := required_names o in
  let all := field r "allProps" in
  let req := field r "requiredProps" in
  let opt := field r "optionalProps" in
  (forall k, In k (keys req) <-> In k (keys all) /\ In k R)
  /\ (forall k, In k (keys opt) <-> In k (keys all) /\ ~ In k R)
  /\ (forall k, In k (keys req) -> field req k = field all k)
  /\ (forall k, In k (keys opt) -> field opt k = field all k).
Proof.
  intros Hshow Hall Hplain H R all req opt.
  apply build_without_allOf in H as (g & A & HA & Hfin & _);
    [|assumption..].
  apply finalize_fields in Hfin as (Ea & Er & Eo).
  rewrite HA in Ea, Er, Eo.
  unfold all, req, opt. rewrite Ea, Er, Eo.
  apply partition_by_names. exact Hplain.
Qed.

(** X19: for a displayed node without an [allOf] array and without
    schema-valued [additionalProperties], [objects] lists what [build]
    returns for each alternative of [oneOf || anyOf], in order and one
    for one; the entry of an alternative flagged [noDisplay] is
    [null]; without alternatives [objects] is empty. *)
Theorem build_lists_alternatives (n : nat) (o r left : value) (s s' : nat) :
  is_true (field o "noDisplay") = false ->
  Lodash.isArray (field o "allOf") = false ->
  Lodash.isPlainObject (field o "additionalProperties") = false ->
  build (S n) o s = Ret ((r, left), s') ->
  exists defs,
    field r "objects" = VArr defs
    /\ Forall2 (built_by (build n)) (alternatives_of o) defs
    /\ Forall2 (fun alt d => is_true (field alt "noDisplay") = true ->
                             d = VNull)
               (alternatives_of o) defs.
Proof.
  intros Hshow Hall Haddl H.
  apply build_without_allOf in H as (g & A & _ & Hfin & Hobj);
    [|assumption..].
  destruct (Hobj Haddl) as (defs & HF & Hdefs).
  apply finalize_metadata in Hfin as (_ & _ & _ & _ & _ & Ho & _).
  exists defs. split; [now rewrite Ho|]. split; [exact HF|].
  clear - HF. induction HF as [|alt d alts defs Hd HF IH]; constructor;
    [|exact IH].
  intros Hh. destruct Hd as (s1 & s2 & left & Hd).
  destruct n as [|n]; [discriminate|].
  apply build_inv in Hd as [_ [(_ & -> & _) | (Hs & _)]];
    [reflexivity | congruence].
Qed.

(** The body of [build] on a schema with nothing to resolve, for an
    extractor that returns the literal example. *)
Lemma build_body_literal
    (extractor : value -> value -> value -> outcome value)
    (callee_build callee_properties : value -> M (value * value))
    (p : value) (s : nat) (text : string) :
  truthy p = true ->
  is_true (field p "noDisplay") = false ->
  literal_component p = true ->
  Lodash.isPlainObject (field p "additionalProperties") = false ->
  Lodash.isPlainObject (field p "items") = false ->
  (forall k, In k (required_names p) -> inherited k = false) ->
  extractor p VUndef VUndef = Ret (literal_example p) ->
  format (literal_example p) None = Ret text ->
  build_body format JSON_stringify random merge extractor callee_build
             callee_properties p s
  = Ret ((VObj (literal_definition (random s) text p), p), S s).
Proof.
  intros Hp Hshow Hlit Haddl Hitems Hplain Hex Hfmt.
  apply literal_component_fields in Hlit
    as (_ & Hall & Hone & Hany & _ & Hprops & _ & _).
  apply falsy_shapes in Hall as [Hall _].
  apply falsy_shapes in Hone as [Hone _].
  apply falsy_shapes in Hany as [Hany _].
  apply falsy_shapes in Hprops as [_ Hprops].
  unfold build_body.
  rewrite (truthy_not_nullish _ Hp). unfold mbind at 1, draw.
  rewrite Hshow. unfold resolve.
  unfold mbind at 1.
  rewrite Hall, mbind_ret. cbv beta iota.
  rewrite Hone, Hany. cbn [orb]. rewrite mbind_ret. cbv beta iota.
  rewrite Hprops, mbind_ret. cbv beta iota.
  rewrite Haddl, mbind_ret. cbv beta iota.
  rewrite Hitems, mbind_ret. cbv beta iota.
  unfold mbind, lift, ret, finalize.
  unfold initial_self at 1. cbn [nullish]. cbv zeta.
  unfold example_of. rewrite Hex. cbn [bind]. rewrite Hfmt. cbn [bind].
  unfold initial_self.
  cbn [set_field assoc_set String.eqb Ascii.eqb Bool.eqb field entries lookup].
  rewrite pick_empty by exact Hplain. cbn [Lodash.omit nullish entries filter null_if_empty
                           Lodash.isEmpty].
  cbn [set_field assoc_set String.eqb Ascii.eqb Bool.eqb field entries lookup].
  rewrite append_empty_r. reflexivity.
Qed.

(** X20: for a displayed schema without properties, alternatives, items
    and additional properties to resolve, none of whose required names
    is the name of a member of [Object.prototype], [build] returns,
    after one draw and leaving the schema as it is, the definition with
    [allProps] undefined, both partitions [null], no [objects], the
    formatted example, the drawn number as [id] in decimal, and the
    [title], [description] and [enum] of the schema. *)
Theorem build_literal_schema (n : nat) (p : value) (s : nat) (text : string) :
  truthy p = true ->
  is_true (field p "noDisplay") = false ->
  literal_component p = true ->
  Lodash.isPlainObject (field p "additionalProperties") = false ->
  Lodash.isPlainObject (field p "items") = false ->
  (forall k, In k (required_names p) -> inherited k = false) ->
  format (literal_example p) None = Ret text ->
  build (3 + n) p s
  = Ret ((VObj [("allProps", VUndef); ("requiredProps", VNull);
                ("optionalProps", VNull); ("objects", VArr []);
                ("example", VStr text);
                ("id", VStr (number_to_string (random s)));
                ("title", field p "title");
                ("description", field p "description");
                ("enum", field p "enum"); ("_original", p)],
          p), S s).
Proof.
  intros Hp Hshow Hlit Haddl Hitems Hplain Hfmt.
  change (3 + n) with (S (2 + n)). rewrite build_S.
  rewrite (build_body_literal _ _ _ p s text); try assumption.
  - reflexivity.
  - now apply extract_literal_value.
Qed.

(** X21: for such a schema used as a property, none of its required
    names being the name of a member of [Object.prototype],
    [defineProperty] returns the definition [build] gives, preceded by [type] (the
    [typeof] of the first [enum] value when there is an [enum], else
    the [type] of the property) and with, as [example], the text the
    formatter gives for the literal of the property itself: the example
    [build] computed, which is the empty object for a number or a
    boolean, does not replace it. *)
Theorem defineProperty_literal_property (n : nat) (p : value) (s : nat)
                                        (text built_text : string) :
  truthy p = true ->
  is_true (field p "noDisplay") = false ->
  literal_component p = true ->
  truthy (field p "private") = false ->
  truthy (field p "id")
  && negb (truthy (ExampleDataExtractor.getExampleDataFromItem p)) = false ->
  truthy (field p "items") && truthy (field (field p "items") "properties")
  = false ->
  Lodash.isPlainObject (field p "additionalProperties") = false ->
  Lodash.isPlainObject (field p "items") = false ->
  (forall k, In k (required_names p) -> inherited k = false) ->
  format (ExampleDataExtractor.getExampleDataFromItem p) None = Ret text ->
  format (literal_example p) None = Ret built_text ->
  defineProperty (4 + n) p s
  = Ret ((VObj [("type", declared_type p); ("example", VStr text);
                ("allProps", VUndef); ("requiredProps", VNull);
                ("optionalProps", VNull); ("objects", VArr []);
                ("id", VStr (number_to_string (random s)));
                ("title", field p "title");
                ("description", field p "description");
                ("enum", field p "enum"); ("_original", p)],
          p), S s).
Proof.
  intros Hp Hshow Hlit Hpriv Hid Hitp Haddl Hitems Hplain Hfmt Hbuilt.
  assert (Hb : build (3 + n) p s
               = Ret ((VObj (literal_definition (random s) built_text p), p),
                      S s)).
  { change (3 + n) with (S (2 + n)). rewrite build_S.
    apply build_body_literal; try assumption.
    now apply extract_literal_value. }
  apply literal_component_fields in Hlit
    as (Harr & Hall & Hone & Hany & Hrel & Hprops & _ & Hex).
  change (4 + n) with (S (3 + n)). rewrite defineProperty_S.
  unfold defineProperty_body.
  rewrite (truthy_not_nullish _ Hp), Hshow, Hall, Hone, Hany, Hprops, Hitp.
  cbn [orb]. rewrite mbind_ret. cbv beta iota zeta.
  fold (declared_type p).
  rewrite field_set_other by discriminate. cbn [field entries lookup truthy negb].
  assert (G : getExampleFromProperty format
                (ExampleDataExtractor.mapPropertiesToExamples (3 + n)) p
              = Ret text).
  { unfold getExampleFromProperty.
    change (3 + n) with (S (2 + n)).
    cbn [ExampleDataExtractor.mapPropertiesToExamples].
    unfold ExampleDataExtractor.mapPropertiesToExamples_body.
    cbn [entries ExampleDataExtractor.transform].
    rewrite map_property_before_pruning.
    - unfold ExampleDataExtractor.prune_exclusive. rewrite Hex.
      unfold shallow_example, array_of_items. rewrite Harr.
      cbn [andb bind set_field assoc_set example_name String.eqb Ascii.eqb
           Bool.eqb field entries lookup]. exact Hfmt.
    - unfold opted_out. cbn [fst snd Lodash.startsWith prefix]. exact Hpriv.
    - now apply truthy_not_nullish.
    - unfold unresolved, array_of_items.
      rewrite Hrel, Harr, Hid, Hprops, Hone, Hany, Hall. reflexivity. }
  unfold mbind, lift. rewrite G. unfold ret at 1. rewrite Hb.
  unfold ret. reflexivity.
Qed.

Lemma alternatives_none_hidden (callee_build callee : value -> M (value * value))
    (alts : list value) (definition : value) (s s' : nat)
    (r : value * list value * list value) :
  (forall alt s1 d left s2,
      is_true (field alt "noDisplay") = true ->
      callee alt s1 = Ret ((d, left), s2) -> d = VNull) ->
  alternatives callee_build callee alts definition s = Ret (r, s') ->
  Forall (fun alt => scalar_typed alt = true ->
                     is_true (field alt "noDisplay") = false) alts.
Proof.
  intros Hnull. revert definition s s' r.
  induction alts as [|alt alts IH]; intros definition s s' r H; [constructor|].
  cbn [alternatives] in H. destruct (nullish alt); [discriminate|].
  apply mbind_inv in H as ([[definition1 d] alt'] & s1 & H1 & H).
  apply mbind_inv in H as ([[definition2 ds] rest] & s2 & H2 & _).
  constructor; [|exact (IH _ _ _ _ H2)].
  unfold scalar_typed. intros Hs. apply negb_true_iff in Hs.
  rewrite Hs in H1.
  apply mbind_inv in H1 as ([defined alt''] & s3 & Hd & H1).
  destruct (is_true (field alt "noDisplay")) eqn:Hh; [|reflexivity].
  rewrite (Hnull _ _ _ _ _ Hh Hd) in H1. discriminate H1.
Qed.

Lemma defineProperty_hidden (n : nat) (alt : value) (s1 : nat)
                            (d left : value) (s2 : nat) :
  is_true (field alt "noDisplay") = true ->
  defineProperty n alt s1 = Ret ((d, left), s2) -> d = VNull.
Proof.
  intros Hh H. destruct n as [|n]; [discriminate|].
  rewrite defineProperty_S in H. unfold defineProperty_body in H.
  destruct (nullish alt); [discriminate|]. rewrite Hh in H.
  now apply ret_inv in H as [[= -> _] _].
Qed.

(** X22: [defineProperty] does not return for a property with [oneOf]
    (or, lacking it, [anyOf]) in which an alternative of another type
    than object and array is flagged [noDisplay]: the alternative
    resolves to [null], whose [example] is then read; when that
    alternative comes first the call raises a TypeError. *)
Theorem defineProperty_hidden_alternative (n : nat) (p : value)
                                          (alts : list value) (s : nat) :
  nullish p = false ->
  is_true (field p "noDisplay") = false ->
  truthy (field p "allOf") = false ->
  field p "oneOf" = VArr alts
  \/ (truthy (field p "oneOf") = false /\ field p "anyOf" = VArr alts) ->
  (forall d left s',
      defineProperty (S n) p s = Ret ((d, left), s') ->
      Forall (fun alt => scalar_typed alt = true ->
                         is_true (field alt "noDisplay") = false) alts)
  /\ (forall first rest,
        alts = first :: rest ->
        nullish first = false ->
        scalar_typed first = true ->
        is_true (field first "noDisplay") = true ->
        exists msg, defineProperty (2 + n) p s = Throw (TypeError msg)).
Proof.
  intros Hp Hshow Hall Halt.
  assert (Hbranch : truthy (field p "oneOf") || truthy (field p "anyOf") = true
                    /\ elements (field p (if truthy (field p "oneOf")
                                          then "oneOf" else "anyOf")) = alts).
  { destruct Halt as [H1 | [H0 H2]].
    - rewrite H1. cbn [truthy orb]. rewrite ?H1. split; [reflexivity|].
      unfold elements. cbn [entries]. apply map_snd_indexed.
    - rewrite H0, H2. cbn [truthy orb]. rewrite ?H2. split; [reflexivity|].
      unfold elements. cbn [entries]. apply map_snd_indexed. }
  destruct Hbranch as [Hb He].
  split.
  - intros d left s' H. rewrite defineProperty_S in H.
    unfold defineProperty_body in H. rewrite Hp, Hshow, Hall, Hb in H.
    cbv zeta in H. rewrite He in H.
    apply mbind_inv in H as ([definition property] & s1 & H & _).
    apply mbind_inv in H as ([[definition1 defs] alts'] & s2 & H & _).
    apply (alternatives_none_hidden _ _ _ _ _ _ _
             (defineProperty_hidden n) H).
  - intros first rest -> Hn Hs Hh. unfold scalar_typed in Hs.
    apply negb_true_iff in Hs.
    change (2 + n) with (S (S n)). rewrite defineProperty_S.
    unfold defineProperty_body. rewrite Hp, Hshow, Hall, Hb. cbv zeta.
    rewrite He. cbn [alternatives]. rewrite Hn, Hs.
    unfold mbind. rewrite defineProperty_S. unfold defineProperty_body.
    rewrite Hn, Hh. unfold ret. cbn [nullish]. unfold throw.
    eexists. reflexivity.
Qed.

(** [_.defaults] leaves a key that is bound to something else than
    [undefined]. *)
Lemma defaults_keeps (f : list (string * value)) (source : value) (k : string) :
  Lodash.isUndefined (field (VObj f) k) = false ->
  exists f', Lodash.defaults (VObj f) source = VObj f'
             /\ field (VObj f') k = field (VObj f) k.
Proof.
  intros Hk. unfold Lodash.defaults. cbn [nullish].
  destruct (negb (truthy source)); [now exists f|].
  generalize (entries source). intros l. revert f Hk.
  induction l as [|[k0 x] l IH]; intros f Hk; cbn [fold_left fst snd].
  - now exists f.
  - destruct (Lodash.isUndefined (member (VObj f) k0)) eqn:U.
    + assert (Hne : k0 <> k).
      { intros ->. unfold member, field in *.
        destruct (lookup k (entries (VObj f))); [congruence|].
        discriminate Hk. }
      cbn [set_field].
      destruct (IH (assoc_set k0 x f)) as (f' & -> & Hf').
      * now rewrite field_assoc_other.
      * exists f'. split; [reflexivity|].
        now rewrite Hf', field_assoc_other.
    + now apply IH.
Qed.

Lemma alternatives_object (callee_build callee : value -> M (value * value))
    (alts : list value) (f : list (string * value)) (s s' : nat)
    (definition : value) (defs left : list value) :
  alternatives callee_build callee alts (VObj f) s
  = Ret ((definition, defs, left), s') ->
  exists f', definition = VObj f'.
Proof.
  revert f s s' definition defs left.
  induction alts as [|alt alts IH]; intros f s s' definition defs left H;
    cbn [alternatives] in H.
  - apply ret_inv in H as [[= -> _ _] _]. now exists f.
  - destruct (nullish alt); [discriminate|].
    apply mbind_inv in H as ([[definition1 d] alt'] & s1 & H1 & H).
    apply mbind_inv in H as ([[definition2 ds] rest] & s2 & H2 & H).
    apply ret_inv in H as [[= -> _ _] _].
    assert (E : exists f1, definition1 = VObj f1).
    { destruct (loose_eq_str (field alt "type") "object"
                || loose_eq_str (field alt "type") "array").
      - apply mbind_inv in H1 as ([d0 o0] & s3 & _ & H1).
        apply ret_inv in H1 as [[= -> _ _] _]. now exists f.
      - apply mbind_inv in H1 as ([defined o0] & s3 & _ & H1).
        destruct (nullish defined); [discriminate|].
        apply ret_inv in H1 as [[= -> _ _] _]. now eexists. }
    destruct E as (f1 & ->). exact (IH _ _ _ _ _ _ H2).
Qed.

(** The definition [defineProperty] holds when it reaches the
    assignment of [type], for a property without [allOf]. *)
Lemma defineProperty_before_type (n : nat) (p d left : value) (s s' : nat) :
  nullish p = false ->
  is_true (field p "noDisplay") = false ->
  truthy (field p "allOf") = false ->
  defineProperty (S n) p s = Ret ((d, left), s') ->
  exists f p1 s1 built,
    (if truthy (field p "oneOf") || truthy (field p "anyOf")
     then True
     else if truthy (field p "properties")
     then exists defs props,
            defineProperties n (field p "properties") s
            = Ret ((defs, props), s1)
            /\ f = [("properties", defs)]
     else if truthy (field p "items")
             && truthy (field (field p "items") "properties")
     then exists defs props,
            defineProperties n (field (field p "items") "properties") s
            = Ret ((defs, props), s1)
            /\ f = [("properties", defs)]
     else f = [])
    /\ declared_type p1 = declared_type p
    /\ exists f2,
         (forall k, k <> "example" ->
                    field (VObj f2) k
                    = field (VObj (assoc_set "type" (declared_type p1) f)) k)
         /\ d = Lodash.defaults (VObj f2) built.
Proof.
  intros Hp Hshow Hall H. rewrite defineProperty_S in H.
  unfold defineProperty_body in H. rewrite Hp, Hshow, Hall in H.
  apply mbind_inv in H as ([definition p1] & s1 & Hbranch & H).
  cbv zeta in H. fold (declared_type p1) in H.
  apply mbind_inv in H as (definition2 & s2 & Hex & H).
  apply mbind_inv in H as ([built p2] & s3 & _ & H).
  apply ret_inv in H as [[= -> ->] _].
  assert (B : exists f,
             definition = VObj f
             /\ declared_type p1 = declared_type p
             /\ (if truthy (field p "oneOf") || truthy (field p "anyOf")
                 then True
                 else if truthy (field p "properties")
                 then exists defs props,
                        defineProperties n (field p "properties") s
                        = Ret ((defs, props), s1)
                        /\ f = [("properties", defs)]
                 else if truthy (field p "items")
                         && truthy (field (field p "items") "properties")
                 then exists defs props,
                        defineProperties n
                          (field (field p "items") "properties") s
                        = Ret ((defs, props), s1)
                        /\ f = [("properties", defs)]
                 else f = [])).
  { cbv zeta in Hbranch.
    destruct (truthy (field p "oneOf") || truthy (field p "anyOf")).
    - apply mbind_inv in Hbranch as ([[def0 defs] alts] & s0 & Ha & Hbranch).
      apply ret_inv in Hbranch as [[= -> ->] _].
      apply alternatives_object in Ha as (f0 & ->).
      eexists. split; [reflexivity|]. split; [|exact I].
      unfold declared_type. rewrite !field_put_back_other; [reflexivity|..];
        destruct (truthy (field p "oneOf")); discriminate.
    - destruct (truthy (field p "properties")).
      + apply mbind_inv in Hbranch as ([defs props] & s0 & Hd & Hbranch).
        apply ret_inv in Hbranch as [[= -> ->] ->].
        eexists. split; [reflexivity|]. split.
        * unfold declared_type.
          now rewrite !field_put_back_other by discriminate.
        * now exists defs, props.
      + destruct (truthy (field p "items")
                  && truthy (field (field p "items") "properties")).
        * apply mbind_inv in Hbranch as ([defs props] & s0 & Hd & Hbranch).
          apply ret_inv in Hbranch as [[= -> ->] ->].
          eexists. split; [reflexivity|]. split.
          -- unfold declared_type.
             now rewrite !field_put_back_other by discriminate.
          -- now exists defs, props.
        * apply ret_inv in Hbranch as [[= -> ->] ->].
          exists []. now repeat split. }
  destruct B as (f & -> & Ht & Hf).
  exists f, p1, s1, built. split; [exact Hf|]. split; [exact Ht|].
  cbn [set_field] in Hex.
  destruct (negb (truthy (field (VObj (assoc_set "type" (declared_type p1) f))
                                "example"))).
  - apply mbind_inv in Hex as (text & s4 & _ & Hex).
    apply ret_inv in Hex as [-> _]. cbn [set_field].
    eexists. split; [|reflexivity].
    intros k Hk. apply field_assoc_other. congruence.
  - apply ret_inv in Hex as [-> _]. eexists. split; [|reflexivity].
    reflexivity.
Qed.

(** X23: for a property without [allOf] whose [enum] or [type] is
    set, the [type] of the definition [defineProperty] returns is the
    [typeof] of the first [enum] value when there is an [enum], and
    the [type] of the property otherwise. *)
Theorem defineProperty_declared_type (n : nat) (p d left : value)
                                     (s s' : nat) :
  nullish p = false ->
  is_true (field p "noDisplay") = false ->
  truthy (field p "allOf") = false ->
  declared_type p <> VUndef ->
  defineProperty (S n) p s = Ret ((d, left), s') ->
  field d "type" = declared_type p
  /\ (truthy (field p "enum") = true ->
      field d "type" = VStr (typeof (field (field p "enum") "0"))).
Proof.
  intros Hp Hshow Hall Hdef H.
  apply defineProperty_before_type in H
    as (f & p1 & s1 & built & _ & Ht & f2 & Hf2 & ->); try assumption.
  assert (E : field (VObj f2) "type" = declared_type p).
  { rewrite Hf2 by discriminate. rewrite field_assoc_same. exact Ht. }
  destruct (defaults_keeps f2 built "type") as (f' & -> & Hf').
  - rewrite E. now destruct (declared_type p).
  - rewrite Hf', E. split; [reflexivity|].
    intros He. unfold declared_type. now rewrite He.
Qed.

Lemma combined_definitions (resolver : value -> M (value * value))
    (P ds : list (string * value)) (ps : list value) :
  map fst ds = map fst P ->
  List.length ps = List.length P ->
  Forall2 (fun p dq => resolved_by resolver p (snd (fst dq)) (snd dq))
          P (combine ds ps) ->
  Forall2 (fun q dq => fst dq = fst q /\ built_by resolver (snd q) (snd dq))
          P ds.
Proof.
  revert ds ps. induction P as [|q P IH]; intros ds ps Hk Hl HF.
  - destruct ds; [constructor | discriminate].
  - destruct ds as [|dq ds]; [discriminate|].
    destruct ps as [|x ps]; [discriminate|].
    cbn in Hk, Hl, HF. injection Hk as Hk1 Hk. injection Hl as Hl.
    inversion HF as [|? ? ? ? Hq HF']; subst.
    constructor; [|now apply (IH ds ps)].
    split; [exact Hk1|]. destruct Hq as (s1 & s2 & Hq). cbn in Hq.
    now exists s1, s2, x.
Qed.

(** X24: for a property without [allOf], [oneOf] and [anyOf] that has
    a [properties] mapping (or, lacking it, [items] with one), the
    [properties] of the definition [defineProperty] returns hold one
    definition for each property not flagged [noDisplay], under the
    same name and in the same order, the one [defineProperty] returns
    for it; the flagged properties have none. *)
Theorem defineProperty_nested_properties (n : nat) (p d left : value)
    (P : list (string * value)) (s s' : nat) :
  nullish p = false ->
  is_true (field p "noDisplay") = false ->
  truthy (field p "allOf") = false ->
  truthy (field p "oneOf") = false ->
  truthy (field p "anyOf") = false ->
  field p "properties" = VObj P
  \/ (truthy (field p "properties") = false
      /\ truthy (field p "items") = true
      /\ field (field p "items") "properties" = VObj P) ->
  NoDup (map fst P) ->
  defineProperty (S (S n)) p s = Ret ((d, left), s') ->
  exists ds,
    field d "properties" = VObj ds
    /\ map fst ds = map fst (filter visible P)
    /\ Forall2 (fun q dq => fst dq = fst q
                            /\ built_by (defineProperty n) (snd q) (snd dq))
               (filter visible P) ds.
Proof.
  intros Hp Hshow Hall Hone Hany Hprops Hnd H.
  apply defineProperty_before_type in H
    as (f & p1 & s1 & built & Hf & _ & f2 & Hf2 & ->); try assumption.
  rewrite Hone, Hany in Hf. cbn [orb] in Hf.
  assert (D : exists defs props,
             defineProperties (S n) (VObj P) s = Ret ((defs, props), s1)
             /\ f = [("properties", defs)]).
  { destruct Hprops as [E | (E0 & E1 & E)].
    - rewrite E in Hf. cbn [truthy] in Hf. exact Hf.
    - rewrite E0, E1, E in Hf. cbn [truthy andb] in Hf. exact Hf. }
  destruct D as (defs & props & Hd & ->).
  destruct (defineProperties_mapping _ _ _ _ _ _ _ _ _ _ Hnd Hd)
    as (ds & ps & -> & _ & Hk & Hl & HF).
  assert (E : field (VObj f2) "properties" = VObj ds).
  { rewrite Hf2 by discriminate.
    now rewrite field_assoc_other by discriminate. }
  destruct (defaults_keeps f2 built "properties") as (f' & -> & Hf').
  - now rewrite E.
  - exists ds. rewrite Hf', E. split; [reflexivity|]. split; [exact Hk|].
    exact (combined_definitions _ _ _ _ Hk Hl HF).
Qed.

End Built.

Lemma build_describes_schema_witness :
  exists f left s',
    Reference.build 4 Examples.hidden_alternative 0 = Ret ((VObj f, left), s')
    /\ field (VObj f) "title" = VStr "T"
    /\ field (VObj f) "_original" = Examples.hidden_alternative
    /\ field (VObj f) "example" = VStr "{}".
Proof.
  destruct (Reference.build 4 Examples.hidden_alternative 0)
    as [[[r left] s']| |] eqn:B;
    [|vm_compute in B; discriminate B..].
  destruct r as [| | | | | |f|]; try (vm_compute in B; discriminate B).
  destruct (build_describes_schema Reference.format Reference.JSON_stringify
              Reference.random Reference.merge 3 Examples.hidden_alternative
              left f 0 s' B) as (Ht & _ & _ & Ho & _).
  exists f, left, s'. split; [reflexivity|].
  vm_compute in B. injection B as <- <- <-.
  split; [rewrite Ht; reflexivity|]. split; [rewrite Ho|]; reflexivity.
Defined.

Lemma build_leaves_no_empty_mapping_witness :
  exists f left s',
    Reference.build 3 Examples.string_schema 0 = Ret ((VObj f, left), s')
    /\ field (VObj f) "allProps" = VUndef
    /\ field (VObj f) "requiredProps" = VNull
    /\ field (VObj f) "optionalProps" = VNull.
Proof.
  destruct (Reference.build 3 Examples.string_schema 0)
    as [[[r left] s']| |] eqn:B;
    [|vm_compute in B; discriminate B..].
  destruct r as [| | | | | |f|]; try (vm_compute in B; discriminate B).
  destruct (build_leaves_no_empty_mapping Reference.format
              Reference.JSON_stringify Reference.random Reference.merge 2
              Examples.string_schema left f 0 s' B) as (Ha & Hr & Ho).
  exists f, left, s'. split; [reflexivity|].
  vm_compute in B. injection B as <- _ _.
  split; [|split].
  - destruct Ha as [Ha | Ha]; [exact Ha | discriminate Ha].
  - destruct Hr as [Hr | Hr]; [exact Hr | discriminate Hr].
  - destruct Ho as [Ho | Ho]; [exact Ho | discriminate Ho].
Defined.

Lemma build_partitions_all_properties_witness :
  exists r left s',
    Reference.build 6 Examples.required_additional 0 = Ret ((r, left), s')
    /\ keys (field r "allProps") = ["a"; "b"]
    /\ (forall k, In k (keys (field r "requiredProps")) <-> k = "b")
    /\ (forall k, In k (keys (field r "optionalProps")) <-> k = "a").
Proof.
  assert (Hplain : forall k,
             In k (required_names Examples.required_additional) ->
             inherited k = false).
  { intros k [<-|[]]. reflexivity. }
  destruct (Reference.build 6 Examples.required_additional 0)
    as [[[r left] s']| |] eqn:B;
    [|vm_compute in B; discriminate B..].
  destruct (build_partitions_all_properties Reference.format
              Reference.JSON_stringify Reference.random Reference.merge 5
              Examples.required_additional r left 0 s' eq_refl eq_refl
              Hplain B)
    as (Hreq & Hopt & _).
  assert (Hall : keys (field r "allProps") = ["a"; "b"]).
  { vm_compute in B. injection B as <- _ _. reflexivity. }
  exists r, left, s'. split; [reflexivity|]. split; [exact Hall|].
  split; intros k.
  - rewrite Hreq, Hall. cbn. intuition (subst; auto; discriminate).
  - rewrite Hopt, Hall. cbn. intuition (subst; auto; discriminate).
Defined.

Lemma build_lists_alternatives_witness :
  exists r left s' d,
    Reference.build 4 Examples.hidden_alternative 0 = Ret ((r, left), s')
    /\ field r "objects" = VArr [d; VNull].
Proof.
  destruct (Reference.build 4 Examples.hidden_alternative 0)
    as [[[r left] s']| |] eqn:B;
    [|vm_compute in B; discriminate B..].
  destruct (build_lists_alternatives Reference.format
              Reference.JSON_stringify Reference.random Reference.merge 3
              Examples.hidden_alternative r left 0 s'
              eq_refl eq_refl eq_refl B)
    as (defs & Hobj & _ & Hnull).
  change (alternatives_of Examples.hidden_alternative)
    with [Examples.string_schema; VObj [("noDisplay", VBool true)]] in Hnull.
  inversion Hnull as [|a1 d1 l1 ds1 _ Hrest]; subst.
  inversion Hrest as [|a2 d2 l2 ds2 Hd2 Hrest2]; subst.
  inversion Hrest2; subst.
  exists r, left, s', d1. split; [reflexivity|].
  now rewrite Hobj, (Hd2 eq_refl).
Defined.

Lemma build_literal_schema_witness :
  Reference.build 3 Examples.number_requiring 0
  = Ret ((VObj [("allProps", VUndef); ("requiredProps", VNull);
                ("optionalProps", VNull); ("objects", VArr []);
                ("example", VStr "{}"); ("id", VStr "0");
                ("title", VUndef); ("description", VUndef);
                ("enum", VUndef); ("_original", Examples.number_requiring)],
          Examples.number_requiring), 1).
Proof.
  assert (Hplain : forall k,
             In k (required_names Examples.number_requiring) ->
             inherited k = false).
  { intros k [<-|[]]. reflexivity. }
  exact (build_literal_schema Reference.format Reference.JSON_stringify
           Reference.random Reference.merge 0 Examples.number_requiring 0
           "{}" eq_refl eq_refl eq_refl eq_refl eq_refl Hplain eq_refl).
Defined.

Lemma defineProperty_literal_property_witness :
  Reference.defineProperty 4 Examples.number_requiring 0
  = Ret ((VObj [("type", VStr "number"); ("example", VStr "5");
                ("allProps", VUndef); ("requiredProps", VNull);
                ("optionalProps", VNull); ("objects", VArr []);
                ("id", VStr "0"); ("title", VUndef);
                ("description", VUndef); ("enum", VUndef);
                ("_original", Examples.number_requiring)],
          Examples.number_requiring), 1).
Proof.
  assert (Hplain : forall k,
             In k (required_names Examples.number_requiring) ->
             inherited k = false).
  { intros k [<-|[]]. reflexivity. }
  exact (defineProperty_literal_property Reference.format
           Reference.JSON_stringify Reference.random Reference.merge 0
           Examples.number_requiring 0 "5" "{}"
           eq_refl eq_refl eq_refl eq_refl eq_refl eq_refl eq_refl eq_refl
           Hplain eq_refl eq_refl).
Defined.

Lemma defineProperty_hidden_alternative_witness :
  exists msg,
    Reference.defineProperty 2 Examples.hidden_choice 0
    = Throw (TypeError msg).
Proof.
  destruct (defineProperty_hidden_alternative Reference.format
              Reference.JSON_stringify Reference.random Reference.merge 0
              Examples.hidden_choice
              [VObj [("type", VStr "string"); ("noDisplay", VBool true)]] 0
              eq_refl eq_refl eq_refl (or_introl eq_refl)) as [_ Hthrow].
  exact (Hthrow _ [] eq_refl eq_refl eq_refl eq_refl).
Defined.

Lemma defineProperty_declared_type_witness :
  exists d left s',
    Reference.defineProperty 4 Examples.enumerated 0 = Ret ((d, left), s')
    /\ field d "type" = VStr "number".
Proof.
  destruct (Reference.defineProperty 4 Examples.enumerated 0)
    as [[[d left] s']| |] eqn:B;
    [|vm_compute in B; discriminate B..].
  destruct (defineProperty_declared_type Reference.format
              Reference.JSON_stringify Reference.random Reference.merge 3
              Examples.enumerated d left 0 s' eq_refl eq_refl eq_refl)
    as [_ Henum].
  - discriminate.
  - exact B.
  - exists d, left, s'. split; [reflexivity|]. exact (Henum eq_refl).
Defined.

Lemma defineProperty_nested_properties_witness :
  exists d left s',
    Reference.defineProperty 7 Examples.nested 0 = Ret ((d, left), s')
    /\ keys (field d "properties") = ["a"; "c"].
Proof.
  assert (Hnd : NoDup (map fst Examples.three_properties)).
  { repeat (constructor; [cbn; intuition discriminate|]). constructor. }
  destruct (Reference.defineProperty 7 Examples.nested 0)
    as [[[d left] s']| |] eqn:B;
    [|vm_compute in B; discriminate B..].
  destruct (defineProperty_nested_properties Reference.format
              Reference.JSON_stringify Reference.random Reference.merge 5
              Examples.nested d left Examples.three_properties 0 s'
              eq_refl eq_refl eq_refl eq_refl eq_refl
              (or_introl eq_refl) Hnd B) as (ds & Hd & Hk & _).
  exists d, left, s'. split; [reflexivity|].
  rewrite Hd. exact Hk.
Defined.
